(** * pulp_container: the registry push/pull views of [pulp_container/app/viewsets.py]

    A shallow embedding of the views that implement the registry protocol
    ([BlobUploads], [Manifests], [ContainerRepositoryViewSet.remove]) over an
    explicit model of the relational store they talk to.  Handlers are
    computations in a state-and-exception monad over the store [DB]; a Python
    exception is a value of [exn], and whatever was written before an
    exception was raised stays written (the views run without a surrounding
    transaction). *)

From stdpp Require Import gmap strings list fin_maps pretty.
From Stdlib Require Import ZArith Ascii.

Local Open Scope string_scope.
Local Open Scope list_scope.
Local Open Scope Z_scope.

Set Warnings "-register-all".

(** ** Python values the views handle *)

(** Primary keys of rows (the store hands them out). *)
Abbreviation pk := N (only parsing).

(** A request or file body. *)
Abbreviation bytes := (list Byte.byte) (only parsing).

Global Instance byte_eq_dec : EqDecision Byte.byte := Byte.byte_eq_dec.

(** The exceptions the modelled code can raise.  [Exception_ None] is the bare
    [raise Exception] of [partial_update]; [Exception_ (Some msg)] is
    [raise Exception(msg)]. *)
Inductive exn : Type :=
| Http404
| MethodNotAllowed
| KeyError (key : string)
| DoesNotExist (model : string)
| MultipleObjectsReturned (model : string)
| IntegrityError
| ValidationError
| UnboundLocalError (var : string)
| AttributeError
| TypeError
| JSONDecodeError
| Exception_ (msg : option string).

Global Instance exn_eq_dec : EqDecision exn.
Proof. solve_decision. Defined.

(** The names the specification gives to the failures of the core. *)
Definition NotFound : exn := Http404.
Definition OffsetMismatch : exn := Exception_ None.
Definition DigestMismatch : exn := Exception_ (Some "The digest did not match").
Definition UnresolvedReference : exn := DoesNotExist "Blob".
Definition DuplicateKey : exn := IntegrityError.

Inductive result (A : Type) : Type :=
| Ok (a : A)
| Raise (e : exn).
Arguments Ok {A} a.
Arguments Raise {A} e.

(** Python slices [s[:n]] and [s[n:]] on strings. *)
Fixpoint str_take (n : nat) (s : string) : string :=
  match n, s with
  | S n', String c s' => String c (str_take n' s')
  | _, _ => EmptyString
  end.

Fixpoint str_drop (n : nat) (s : string) : string :=
  match n, s with
  | S n', String _ s' => str_drop n' s'
  | _, _ => s
  end.

(** [len("sha256:")] *)
Definition len_sha256_prefix : nat := String.length "sha256:".

(** Parsed JSON documents, as [json.loads] returns them; an object keeps its
    members as an association list and [dict_get] is [dict.get].  Numbers are
    kept as integers: no view looks into one. *)
Inductive json : Type :=
| JNull
| JBool (b : bool)
| JNum (z : Z)
| JStr (s : string)
| JArr (items : list json)
| JObj (members : list (string * json)).

Fixpoint dict_get (members : list (string * json)) (key : string) : json :=
  match members with
  | [] => JNull
  | (k, v) :: rest => if String.eqb k key then v else dict_get rest key
  end.

(** [value.get(key)]: only a dict has [.get]. *)
Definition py_get (value : json) (key : string) : result json :=
  match value with
  | JObj members => Ok (dict_get members key)
  | _ => Raise AttributeError
  end.

(** ** Data model *)

(** The digest algorithms of [Artifact.DIGEST_FIELDS]. *)
Inductive algorithm : Type := md5 | sha1 | sha224 | sha256 | sha384 | sha512.

Global Instance algorithm_eq_dec : EqDecision algorithm.
Proof. solve_decision. Defined.

Definition DIGEST_FIELDS : list algorithm :=
  [sha512; sha384; sha256; sha224; sha1; md5].

Module Artifact.
(** pulpcore's [Artifact]: the stored file (by its content), its size and
    its digests.  [sha224] is absent when the constructor is not given it
    ([BlobUploads.put]). *)
Record t : Type := mk {
  file : bytes;
  size : Z;
  md5 : string;
  sha1 : string;
  sha224 : option string;
  sha256 : string;
  sha384 : string;
  sha512 : string
}.
End Artifact.

Module Upload.
(** [models.Upload]: an upload in progress. *)
Record t : Type := mk {
  repository : pk;
  offset : Z;
  file : bytes;
  md5 : string;
  sha1 : string;
  sha256 : string;
  sha384 : string;
  sha512 : string
}.
End Upload.

(** The content units: one table of [Content] rows keyed by primary key, each
    row a [Blob], a [Manifest] or a [Tag] ([content.cast()]). *)
Inductive Content : Type :=
| Blob (digest : string) (media_type : string)
| Manifest (digest : string) (schema_version : Z) (media_type : string) (config_blob : pk)
| Tag (name : string) (tagged_manifest : pk).

Global Instance Content_eq_dec : EqDecision Content.
Proof. solve_decision. Defined.

Inductive repository_type : Type := ContainerRepository | ContainerPushRepository.

Global Instance repository_type_eq_dec : EqDecision repository_type.
Proof. solve_decision. Defined.

Module Repository.
(** A repository and its published versions, oldest first; a version is the
    set of primary keys of its content. *)
Record t : Type := mk {
  name : string;
  type : repository_type;
  versions : list (gset pk)
}.
End Repository.

(** [repository.cast().PUSH_ENABLED] *)
Definition PUSH_ENABLED (r : Repository.t) : bool :=
  match Repository.type r with
  | ContainerPushRepository => true
  | ContainerRepository => false
  end.

Module Distribution.
(** [models.ContainerDistribution]: serves a repository (its latest
    version) or one fixed repository version (repository, number). *)
Record t : Type := mk {
  repository : option pk;
  repository_version : option (pk * nat)
}.
End Distribution.

(** A queued task: [enqueue_with_reservation(func, resources, kwargs)]. *)
Inductive task : Type :=
| recursive_remove_content_task (repository_pk : pk) (content_units : list (string + pk)).

(** ** The store *)

(** Tables are finite maps from the primary key, or from the columns of a
    unique constraint where the row has nothing else:
    - [content_artifacts]: [ContentArtifact], unique on (content,
      relative_path), holding the artifact;
    - [blob_manifests]: [BlobManifest], unique on (manifest, manifest_blob);
    - [distributions]: [ContainerDistribution], unique on [base_path]. *)
Record DB : Type := mkDB {
  artifacts : gmap pk Artifact.t;
  content : gmap pk Content;
  content_artifacts : gmap (pk * string) pk;
  blob_manifests : gset (pk * pk);
  uploads : gmap pk Upload.t;
  repositories : gmap pk Repository.t;
  distributions : gmap string Distribution.t;
  task_queue : list task
}.

(** ** The monad of views: state and exceptions *)

Definition M (A : Type) : Type := DB → DB * result A.

Global Instance M_ret : MRet M := λ A a db, (db, Ok a).

Global Instance M_bind : MBind M := λ A B k c db,
  match c db with
  | (db', Ok a) => k a db'
  | (db', Raise e) => (db', Raise e)
  end.

Definition raise {A} (e : exn) : M A := λ db, (db, Raise e).
Definition get_db : M DB := λ db, (db, Ok db).
Definition lift {A} (r : result A) : M A := λ db, (db, r).

(** [try: c  except IntegrityError: handler] *)
Definition try_except_IntegrityError {A} (c : M A) (handler : M A) : M A := λ db,
  match c db with
  | (db', Raise IntegrityError) => handler db'
  | r => r
  end.

(** ** What the views take from their environment *)

(** What the views use and do not define: library functions, settings, and a
    constant of [models.py], which is not among the sources. *)
Class Externals : Type := {
  (** [models.MEDIA_TYPE.REGULAR_BLOB] *)
  REGULAR_BLOB : string;
  (** [getattr(hashlib, algorithm)()] fed with [data], then [.hexdigest()] *)
  hashlib : algorithm → bytes → string;
  (** [json.loads]; [None] when the document does not parse *)
  json_loads : bytes → option json;
  (** [str(value)], the coercion of a non-string lookup value *)
  py_str : json → string;
  (** [settings.CONTENT_ORIGIN] *)
  CONTENT_ORIGIN : string;
  (** the URL resolution of [NamedModelViewSet.get_resource] *)
  resolve_url : string → option pk;
  (** [RecursiveManageSerializer(data=...).is_valid()] on the submitted
      [content_units] *)
  RecursiveManageSerializer_is_valid : option (list string) → bool
}.

Module Request.
Record t : Type := mk {
  (** the [Content-Range] header ([HTTP_CONTENT_RANGE]) *)
  content_range : option string;
  (** [request.query_params["digest"]] *)
  query_digest : option string;
  content_type : string;
  (** the body behind [request.META["wsgi.input"]] *)
  body : bytes;
  (** [request.data["content_units"]] *)
  content_units : option (list string)
}.
End Request.

Inductive header_value : Type :=
| HStr (s : string)
| HInt (z : Z)
| HPk (p : pk).

(** What a view returns: a DRF [Response] with its headers, the redirect of
    [redirect_to_content_app], or the [OperationPostponedResponse] of a queued
    task. *)
Inductive response : Type :=
| Response (status : Z) (headers : list (string * header_value))
| Redirect (url : string)
| OperationPostponedResponse (t : task).

(** ** The object manager: querysets, [get], [save] *)

(** [Model.objects.filter(...)]: the rows of a table that satisfy [P]. *)
Definition objects_filter {K A} `{Countable K} (table : gmap K A)
    (P : K * A → Prop) `{∀ x, Decision (P x)} : list (K * A) :=
  map_to_list (filter P table).

(** [queryset.get()] *)
Definition queryset_get {A} (model : string) (rows : list A) : result A :=
  match rows with
  | [] => Raise (DoesNotExist model)
  | [row] => Ok row
  | _ => Raise (MultipleObjectsReturned model)
  end.

(** [get_object_or_404(Model, ...)]: [DoesNotExist] becomes [Http404]. *)
Definition get_object_or_404 {A} (model : string) (rows : list A) : result A :=
  match queryset_get model rows with
  | Raise (DoesNotExist _) => Raise Http404
  | r => r
  end.

Definition set_artifacts (f : gmap pk Artifact.t → gmap pk Artifact.t) (db : DB) : DB :=
  mkDB (f (artifacts db)) (content db) (content_artifacts db) (blob_manifests db)
       (uploads db) (repositories db) (distributions db) (task_queue db).

Definition set_content (f : gmap pk Content → gmap pk Content) (db : DB) : DB :=
  mkDB (artifacts db) (f (content db)) (content_artifacts db) (blob_manifests db)
       (uploads db) (repositories db) (distributions db) (task_queue db).

Definition set_content_artifacts
    (f : gmap (pk * string) pk → gmap (pk * string) pk) (db : DB) : DB :=
  mkDB (artifacts db) (content db) (f (content_artifacts db)) (blob_manifests db)
       (uploads db) (repositories db) (distributions db) (task_queue db).

Definition set_blob_manifests (f : gset (pk * pk) → gset (pk * pk)) (db : DB) : DB :=
  mkDB (artifacts db) (content db) (content_artifacts db) (f (blob_manifests db))
       (uploads db) (repositories db) (distributions db) (task_queue db).

Definition set_uploads (f : gmap pk Upload.t → gmap pk Upload.t) (db : DB) : DB :=
  mkDB (artifacts db) (content db) (content_artifacts db) (blob_manifests db)
       (f (uploads db)) (repositories db) (distributions db) (task_queue db).

Definition set_repositories
    (f : gmap pk Repository.t → gmap pk Repository.t) (db : DB) : DB :=
  mkDB (artifacts db) (content db) (content_artifacts db) (blob_manifests db)
       (uploads db) (f (repositories db)) (distributions db) (task_queue db).

Definition set_task_queue (f : list task → list task) (db : DB) : DB :=
  mkDB (artifacts db) (content db) (content_artifacts db) (blob_manifests db)
       (uploads db) (repositories db) (distributions db) (f (task_queue db)).

(** The unique constraints of the content models, declared in [models.py]
    (not among the sources) and given by Sections 3 and 4.3 of the
    specification: a [Blob] and a [Manifest] are identified by [digest], a
    [Tag] row is created or reused per (name, manifest). *)
Definition same_key (row c : Content) : Prop :=
  match row, c with
  | Blob d _, Blob d' _ => d' = d
  | Manifest d _ _ _, Manifest d' _ _ _ => d' = d
  | Tag n m, Tag n' m' => n' = n ∧ m' = m
  | _, _ => False
  end.

Global Instance same_key_dec row c : Decision (same_key row c).
Proof. destruct row, c; simpl; apply _. Defined.

(** [row.save()] of a new content row: [IntegrityError] when its unique key is
    taken, otherwise the row is inserted under a fresh primary key. *)
Definition Content_save (row : Content) : M (pk * Content) := λ db,
  match objects_filter (content db) (λ kv, same_key row kv.2) with
  | [] => let p := fresh (dom (content db)) in
          (set_content (insert p row) db, Ok (p, row))
  | _ => (db, Raise IntegrityError)
  end.

(** [artifact.save()]: pulpcore's [Artifact] is unique by [sha256], its
    primary digest. *)
Definition Artifact_save (a : Artifact.t) : M (pk * Artifact.t) := λ db,
  match objects_filter (artifacts db)
          (λ kv, Artifact.sha256 kv.2 = Artifact.sha256 a) with
  | [] => let p := fresh (dom (artifacts db)) in
          (set_artifacts (insert p a) db, Ok (p, a))
  | _ => (db, Raise IntegrityError)
  end.

(** [ContentArtifact(artifact=, content=, relative_path=).save()] *)
Definition ContentArtifact_save (artifact content_pk : pk) (relative_path : string)
    : M () := λ db,
  match content_artifacts db !! (content_pk, relative_path) with
  | None => (set_content_artifacts (insert (content_pk, relative_path) artifact) db, Ok ())
  | Some _ => (db, Raise IntegrityError)
  end.

(** [Artifact.objects.get(sha256=...)] *)
Definition Artifact_objects_get (sha : string) : M (pk * Artifact.t) := λ db,
  (db, queryset_get "Artifact"
         (objects_filter (artifacts db) (λ kv, Artifact.sha256 kv.2 = sha))).

(** The value of a [digest=] lookup: [None] is SQL NULL and matches no row. *)
Definition lookup_value `{Externals} (v : json) : option string :=
  match v with
  | JNull => None
  | JStr s => Some s
  | other => Some (py_str other)
  end.

Definition is_blob_with_digest (d : option string) (c : Content) : Prop :=
  match c with
  | Blob d' _ => d = Some d'
  | _ => False
  end.

Global Instance is_blob_with_digest_dec d c : Decision (is_blob_with_digest d c).
Proof. destruct c; simpl; apply _. Defined.

Definition is_manifest_with_digest (d : string) (c : Content) : Prop :=
  match c with
  | Manifest d' _ _ _ => d' = d
  | _ => False
  end.

Global Instance is_manifest_with_digest_dec d c : Decision (is_manifest_with_digest d c).
Proof. destruct c; simpl; apply _. Defined.

Definition is_tag_named (n : string) (c : Content) : Prop :=
  match c with
  | Tag n' _ => n' = n
  | _ => False
  end.

Global Instance is_tag_named_dec n c : Decision (is_tag_named n c).
Proof. destruct c; simpl; apply _. Defined.

Definition is_tag (n : string) (m : pk) (c : Content) : Prop :=
  match c with
  | Tag n' m' => n' = n ∧ m' = m
  | _ => False
  end.

Global Instance is_tag_dec n m c : Decision (is_tag n m c).
Proof. destruct c; simpl; apply _. Defined.

(** [models.Blob.objects.get(digest=...)] *)
Definition Blob_objects_get (d : option string) : M (pk * Content) := λ db,
  (db, queryset_get "Blob"
         (objects_filter (content db) (λ kv, is_blob_with_digest d kv.2))).

(** [models.Manifest.objects.get(digest=...)] *)
Definition Manifest_objects_get (d : string) : M (pk * Content) := λ db,
  (db, queryset_get "Manifest"
         (objects_filter (content db) (λ kv, is_manifest_with_digest d kv.2))).

(** [content._artifacts]: the artifacts joined to a content unit through
    [ContentArtifact], one row per link. *)
Definition _artifacts (content_pk : pk) (db : DB) : list ((pk * string) * pk) :=
  objects_filter (content_artifacts db) (λ kv, kv.1.1 = content_pk).

(** [content._artifacts.get()] *)
Definition _artifacts_get (content_pk : pk) : M Artifact.t := λ db,
  match queryset_get "Artifact" (_artifacts content_pk db) with
  | Ok (_, a) =>
      match artifacts db !! a with
      | Some row => (db, Ok row)
      | None => (db, Raise (DoesNotExist "Artifact"))
      end
  | Raise e => (db, Raise e)
  end.

(** ** Repository versions *)

(** [repository.latest_version()] *)
Definition latest_version (r : Repository.t) : option (gset pk) :=
  last (Repository.versions r).

(** [new_version.add_content(queryset)], [new_version.remove_content(queryset)]:
    they act on the version being built, in the order they are called. *)
Definition add_content {A} (queryset : list (pk * A)) (v : gset pk) : gset pk :=
  v ∪ list_to_set (queryset.*1).

Definition remove_content {A} (queryset : list (pk * A)) (v : gset pk) : gset pk :=
  v ∖ list_to_set (queryset.*1).

(** [with repository.new_version() as new_version: body]: the new version
    starts from the content of the latest one and is published, as the next
    version, when the block is left. *)
Definition new_version (repository : pk) (body : DB → gset pk → gset pk) : M () := λ db,
  match repositories db !! repository with
  | Some r =>
      let v := body db (default ∅ (latest_version r)) in
      let r' := Repository.mk (Repository.name r) (Repository.type r)
                              (Repository.versions r ++ [v]) in
      (set_repositories (insert repository r') db, Ok ())
  | None => (db, Raise (DoesNotExist "Repository"))
  end.

(** ** [ContainerRegistryApiMixin] *)

(** [get_drv_pull]: distribution, repository and repository version for pull
    access.  The version is [None] when [latest_version()] finds none. *)
Definition get_drv_pull (path : string)
    : M (Distribution.t * option pk * option (gset pk)) := λ db,
  match get_object_or_404 "ContainerDistribution"
          (objects_filter (distributions db) (λ kv, kv.1 = path)) with
  | Raise e => (db, Raise e)
  | Ok (_, distribution) =>
      match Distribution.repository distribution with
      | Some r =>
          match repositories db !! r with
          | Some repository =>
              (db, Ok (distribution, Some r, latest_version repository))
          | None => (db, Raise (DoesNotExist "Repository"))
          end
      | None =>
          match Distribution.repository_version distribution with
          | Some (r, number) =>
              match repositories db !! r with
              | Some repository =>
                  (db, Ok (distribution, None, Repository.versions repository !! number))
              | None => (db, Raise (DoesNotExist "Repository"))
              end
          | None => (db, Raise Http404)
          end
      end
  end.

(** [repository_version.content] *)
Definition version_content (repository_version : option (gset pk)) : result (gset pk) :=
  match repository_version with
  | Some v => Ok v
  | None => Raise AttributeError
  end.

(** [get_dr_push(request, path)] as the push views call it, with
    [create=False]: distribution and repository for push access. *)
Definition get_dr_push (path : string) : M (Distribution.t * pk) := λ db,
  match distributions db !! path with
  | None => (db, Raise Http404)
  | Some distribution =>
      match Distribution.repository distribution with
      | Some r =>
          match repositories db !! r with
          | Some repository =>
              if PUSH_ENABLED repository
              then (db, Ok (distribution, r))
              else (db, Raise MethodNotAllowed)
          | None => (db, Raise (DoesNotExist "Repository"))
          end
      | None => (db, Raise Http404)
      end
  end.

(** ** Responses *)

Definition Content_digest (c : Content) : string :=
  match c with
  | Blob d _ => d
  | Manifest d _ _ _ => d
  | Tag _ _ => EmptyString
  end.

Definition UploadResponse (upload_pk : pk) (upload : Upload.t) (path : string)
    (content_length : Z) : response :=
  Response 202
    [("Docker-Distribution-Api-Version", HStr "registry/2.0");
     ("Docker-Upload-UUID", HPk upload_pk);
     ("Location", HStr ("/v2/" +:+ path +:+ "/blobs/uploads/" +:+ pretty upload_pk));
     ("Range", HStr ("0-" +:+ pretty (Z.of_nat (length (Upload.file upload)))));
     ("Content-Length", HInt content_length)].

(** [ManifestResponse], with [send_body=False] as at every call. *)
Definition ManifestResponse (manifest : pk * Content) (path : string) (status : Z)
    : M response :=
  artifact ← _artifacts_get manifest.1;
  let size := 0 in
  mret (Response status
    [("Docker-Distribution-Api-Version", HStr "registry/2.0");
     ("Docker-Content-Digest", HStr (Content_digest manifest.2));
     ("Location", HStr ("/v2/" +:+ path +:+ "/manifests/" +:+ Content_digest manifest.2));
     ("Content-Length", HInt size)]).

Definition BlobResponse (blob : pk * Content) (path : string) (status : Z)
    : M response :=
  artifact ← _artifacts_get blob.1;
  let size := Artifact.size artifact in
  mret (Response status
    [("Docker-Distribution-Api-Version", HStr "registry/2.0");
     ("Docker-Content-Digest", HStr (Content_digest blob.2));
     ("Location", HStr ("/v2/" +:+ path +:+ "/blobs/" +:+ Content_digest blob.2));
     ("Etag", HStr (Content_digest blob.2));
     ("Range", HStr ("0-" +:+ pretty size));
     ("Content-Length", HInt size);
     ("Content-Type", HStr "application/octet-stream");
     ("Connection", HStr "close")]).

(** Modelled from the spec: [ContainerDistribution.redirect_to_content_app]
    of [models.py], which is not among the sources.  Section 4.5 asks of a
    pull only that it resolves to the manifest, so the response is kept as
    the URL the view hands over. *)
Definition redirect_to_content_app (distribution : Distribution.t) (url : string)
    : response :=
  Redirect url.

(** ** [BlobUploads] *)

Definition is_digit (c : ascii) : bool :=
  let n := N_of_ascii c in ((48 <=? n) && (n <=? 57))%N.

(** The longest prefix of digits, and what follows it. *)
Fixpoint span_digits (s : string) : string * string :=
  match s with
  | String c s' =>
      if is_digit c
      then let '(digits, rest) := span_digits s' in (String c digits, rest)
      else (EmptyString, s)
  | EmptyString => (EmptyString, EmptyString)
  end.

(** [int(digits)] *)
Fixpoint int_acc (acc : Z) (digits : string) : Z :=
  match digits with
  | String c s' => int_acc (10 * acc + (Z.of_N (N_of_ascii c) - 48)) s'
  | EmptyString => acc
  end.

Definition int (digits : string) : Z := int_acc 0 digits.

(** [content_range_pattern.match(s)] for
    [re.compile(r"^(?P<start>\d+)-(?P<end>\d+)$")], with [int] applied to both
    groups; [$] also matches before one trailing newline. *)
Definition content_range_pattern_match (s : string) : option (Z * Z) :=
  let '(start, rest) := span_digits s in
  match start, rest with
  | String _ _, String "-" rest' =>
      let '(end_, tail) := span_digits rest' in
      match end_ with
      | String _ _ =>
          if bool_decide (tail = EmptyString ∨ tail = String "010" EmptyString)
          then Some (int start, int end_)
          else None
      | EmptyString => None
      end
  | _, _ => None
  end.

(** The first lines of [partial_update]: the locals [whole], [start], [end]
    and [chunk_size] as they stand when the upload is looked up.
    [chunk_size] is [None] where no assignment to it has run: the [whole]
    branch assigns only [start] and [end].  [chunk.size] is the length of the
    body. *)
Definition request_whole (request : Request.t) : bool :=
  if bool_decide (is_Some (Request.content_range request)
                  ∨ Request.query_digest request = None)
  then false else true.

Definition chunk_range (request : Request.t) : Z * Z * option Z :=
  let chunk := Request.body request in
  if request_whole request then
    (0, Z.of_nat (length chunk) - 1, None)
  else
    let content_range := default EmptyString (Request.content_range request) in
    match content_range_pattern_match content_range with
    | None => (0, 0, Some 0)
    | Some (start, end_) => (start, end_, Some (end_ - start + 1))
    end.

(** Reading a local variable: [UnboundLocalError] when it was never bound. *)
Definition read_local {A} (var : string) (value : option A) : result A :=
  match value with
  | Some a => Ok a
  | None => Raise (UnboundLocalError var)
  end.

(** Modelled from the spec: [Upload.append_chunk] of [models.py], which is
    not among the sources.  Section 4.2: on success, append appends the chunk
    bytes, updates the running digest of every algorithm, and advances
    [offset] by the chunk length.  The spec gives [chunk_size] no role. *)
Definition append_chunk `{Externals} (upload : Upload.t) (chunk : bytes)
    (chunk_size : Z) : Upload.t :=
  let data := (Upload.file upload ++ chunk) in
  Upload.mk (Upload.repository upload)
            (Upload.offset upload + Z.of_nat (length chunk))
            data
            (hashlib md5 data) (hashlib sha1 data) (hashlib sha256 data)
            (hashlib sha384 data) (hashlib sha512 data).

(** [get_object_or_404(models.Upload, repository=repository, pk=pk)] and
    [models.Upload.objects.get(pk=pk, repository=repository)] *)
Definition Upload_queryset (repository pk_ : pk) (db : DB) : list (pk * Upload.t) :=
  objects_filter (uploads db)
    (λ kv, kv.1 = pk_ ∧ Upload.repository kv.2 = repository).

(** [upload.save()] of a row that exists, [upload.delete()] *)
Definition Upload_save (pk_ : pk) (upload : Upload.t) : M () := λ db,
  (set_uploads (insert pk_ upload) db, Ok ()).

Definition Upload_delete (pk_ : pk) : M () := λ db,
  (set_uploads (delete pk_) db, Ok ()).

Definition BlobUploads_partial_update `{Externals} (request : Request.t)
    (path : string) (pk_ : pk) : M response :=
  '(_, repository) ← get_dr_push path;
  let chunk := Request.body request in
  let '(start, end_, chunk_size) := chunk_range request in
  db ← get_db;
  '(_, upload) ← lift (get_object_or_404 "Upload" (Upload_queryset repository pk_ db));
  if bool_decide (Upload.offset upload ≠ start) then
    raise (Exception_ None)
  else
    chunk_size ← lift (read_local "chunk_size" chunk_size);
    let upload := append_chunk upload chunk chunk_size in
    _ ← Upload_save pk_ upload;
    mret (UploadResponse pk_ upload path (Z.of_nat (length (Upload.file upload)))).

(** [request.query_params["digest"]] *)
Definition query_params_digest (request : Request.t) : result string :=
  match Request.query_digest request with
  | Some digest => Ok digest
  | None => Raise (KeyError "digest")
  end.

(** The three [try]/[except IntegrityError] blocks of [put]. *)
Definition put_artifact (upload : Upload.t) : M (pk * Artifact.t) :=
  let artifact :=
    Artifact.mk (Upload.file upload)
                (Z.of_nat (length (Upload.file upload)))
                (Upload.md5 upload) (Upload.sha1 upload) None
                (Upload.sha256 upload) (Upload.sha384 upload) (Upload.sha512 upload) in
  try_except_IntegrityError
    (Artifact_save artifact)
    (Artifact_objects_get (Artifact.sha256 artifact)).

Definition put_blob `{Externals} (digest : string) : M (pk * Content) :=
  try_except_IntegrityError
    (Content_save (Blob digest REGULAR_BLOB))
    (Blob_objects_get (Some digest)).

Definition put_blob_artifact (artifact blob : pk) (digest : string) : M () :=
  try_except_IntegrityError
    (ContentArtifact_save artifact blob digest)
    (mret ()).

Definition BlobUploads_put `{Externals} (request : Request.t) (path : string) (pk_ : pk)
    : M response :=
  '(_, repository) ← get_dr_push path;
  digest ← lift (query_params_digest request);
  db ← get_db;
  '(_, upload) ← lift (queryset_get "Upload" (Upload_queryset repository pk_ db));
  if bool_decide (Upload.sha256 upload = str_drop len_sha256_prefix digest) then
    artifact ← put_artifact upload;
    blob ← put_blob digest;
    _ ← put_blob_artifact artifact.1 blob.1 digest;
    _ ← new_version repository (λ db new_version,
          add_content (objects_filter (content db) (λ kv, kv.1 = blob.1)) new_version);
    _ ← Upload_delete pk_;
    BlobResponse blob path 201
  else
    raise (Exception_ (Some "The digest did not match")).

(** ** [Manifests] *)

(** [tag.tagged_manifest]: the manifest row the tag points at. *)
Definition tagged_manifest (tag : pk * Content) : M (pk * Content) := λ db,
  match tag.2 with
  | Tag _ m =>
      match content db !! m with
      | Some (Manifest d sv mt cb) => (db, Ok (m, Manifest d sv mt cb))
      | _ => (db, Raise (DoesNotExist "Manifest"))
      end
  | _ => (db, Raise AttributeError)
  end.

(** [head] and [get], each with its own copy of the lookup. *)
Definition Manifests_head (path : string) (pk_ : string) : M response :=
  '(_, _, repository_version) ← get_drv_pull path;
  manifest ←
    (if bool_decide (str_take 7 pk_ ≠ "sha256:") then
       version ← lift (version_content repository_version);
       db ← get_db;
       tag ← lift (get_object_or_404 "Tag"
                (objects_filter (content db)
                   (λ kv, is_tag_named pk_ kv.2 ∧ kv.1 ∈ version)));
       tagged_manifest tag
     else
       version ← lift (version_content repository_version);
       db ← get_db;
       lift (get_object_or_404 "Manifest"
               (objects_filter (content db)
                  (λ kv, is_manifest_with_digest pk_ kv.2 ∧ kv.1 ∈ version))));
  ManifestResponse manifest path 200.

Definition Manifests_get `{Externals} (path : string) (pk_ : string) : M response :=
  '(distribution, _, repository_version) ← get_drv_pull path;
  manifest ←
    (if bool_decide (str_take 7 pk_ ≠ "sha256:") then
       version ← lift (version_content repository_version);
       db ← get_db;
       tag ← lift (get_object_or_404 "Tag"
                (objects_filter (content db)
                   (λ kv, is_tag_named pk_ kv.2 ∧ kv.1 ∈ version)));
       tagged_manifest tag
     else
       version ← lift (version_content repository_version);
       db ← get_db;
       lift (get_object_or_404 "Manifest"
               (objects_filter (content db)
                  (λ kv, is_manifest_with_digest pk_ kv.2 ∧ kv.1 ∈ version))));
  mret (redirect_to_content_app distribution
          (CONTENT_ORIGIN +:+ "/pulp/container/" +:+ path +:+ "/manifests/"
             +:+ Content_digest manifest.2)).

(** The state of the [while True] loop of [receive_artifact]: what is left of
    the stream, the temporary file, [size], and what the hashers were fed
    (every hasher is fed the same subchunks). *)
Definition subchunk_size : nat := N.to_nat 2000000.

Fixpoint receive_loop (fuel : nat) (chunk temp_file : bytes) (size : Z)
    (hashed : bytes) : bytes * Z * bytes :=
  match fuel with
  | O => (temp_file, size, hashed)
  | S fuel' =>
      let subchunk := take subchunk_size chunk in
      match subchunk with
      | [] => (temp_file, size, hashed)
      | _ :: _ =>
          receive_loop fuel' (drop subchunk_size chunk)
            (temp_file ++ subchunk)
            (size + Z.of_nat (length subchunk))
            (hashed ++ subchunk)
      end
  end.

(** [receive_artifact]: assembles the manifest as it is being uploaded.  The
    loop is run with one more step than the stream has bytes, which is enough
    for it to reach the empty read. *)
Definition receive_artifact `{Externals} (chunk : bytes) : M (pk * Artifact.t) :=
  let '(temp_file, size, hashed) := receive_loop (S (length chunk)) chunk [] 0 [] in
  let digests := (λ algorithm, (algorithm, hashlib algorithm hashed)) <$> DIGEST_FIELDS in
  let digest_of algorithm :=
    snd <$> List.find (λ d, bool_decide (d.1 = algorithm)) digests in
  let artifact :=
    Artifact.mk temp_file size
                (default EmptyString (digest_of md5)) (default EmptyString (digest_of sha1))
                (digest_of sha224)
                (default EmptyString (digest_of sha256)) (default EmptyString (digest_of sha384))
                (default EmptyString (digest_of sha512)) in
  try_except_IntegrityError
    (Artifact_save artifact)
    (Artifact_objects_get (Artifact.sha256 artifact)).

(** [for x in value]: a list yields its items, a dict its keys, a string its
    characters; nothing else is iterable. *)
Definition py_iter (value : json) : result (list json) :=
  match value with
  | JArr items => Ok items
  | JObj members => Ok ((λ kv, JStr kv.1) <$> members)
  | JStr s => Ok ((λ c, JStr (String c EmptyString)) <$> String.list_ascii_of_string s)
  | _ => Raise TypeError
  end.

(** [for layer in layers: blobs.append(layer.get("digest"))] *)
Fixpoint layer_digests (layers : list json) (blobs : list json) : result (list json) :=
  match layers with
  | [] => Ok blobs
  | layer :: rest =>
      match py_get layer "digest" with
      | Ok digest => layer_digests rest (blobs ++ [digest])
      | Raise e => Raise e
      end
  end.

(** [models.Blob.objects.filter(digest__in=blobs)] *)
Definition Blob_objects_filter_digest_in `{Externals} (blobs : list json) (db : DB)
    : list (pk * Content) :=
  objects_filter (content db)
    (λ kv, Exists (λ v, is_blob_with_digest (lookup_value v) kv.2) blobs).

Definition put_manifest (digest media_type : string) (config_blob : pk)
    : M (pk * Content) :=
  let manifest := Manifest digest 2 media_type config_blob in
  try_except_IntegrityError
    (Content_save manifest)
    (Manifest_objects_get digest).

Definition put_manifest_artifact (artifact manifest : pk) (digest : string) : M () :=
  try_except_IntegrityError
    (ContentArtifact_save artifact manifest digest)
    (mret ()).

(** [models.BlobManifest.objects.bulk_create(objs=thru, ignore_conflicts=True)] *)
Definition BlobManifest_bulk_create (thru : list (pk * pk)) : M () := λ db,
  (set_blob_manifests (λ links, links ∪ list_to_set thru) db, Ok ()).

Definition put_tag (name : string) (manifest : pk) : M () :=
  try_except_IntegrityError
    (_ ← Content_save (Tag name manifest); mret ())
    (mret ()).

Definition Manifests_put `{Externals} (request : Request.t) (path : string)
    (pk_ : string) : M response :=
  '(_, repository) ← get_dr_push path;
  let chunk := Request.body request in
  artifact ← receive_artifact chunk;
  let raw_data := Artifact.file artifact.2 in
  content_data ← lift (match json_loads raw_data with
                       | Some v => Ok v
                       | None => Raise JSONDecodeError
                       end);
  config_layer ← lift (py_get content_data "config");
  config_digest ← lift (py_get config_layer "digest");
  config_blob ← Blob_objects_get (lookup_value config_digest);
  manifest ← put_manifest ("sha256:" +:+ Artifact.sha256 artifact.2)
                          (Request.content_type request) config_blob.1;
  _ ← put_manifest_artifact artifact.1 manifest.1 (Content_digest manifest.2);
  layers ← lift (py_get content_data "layers");
  layers ← lift (py_iter layers);
  blobs ← lift (layer_digests layers []);
  db ← get_db;
  let blobs_qs := Blob_objects_filter_digest_in blobs db in
  let thru := (λ blob, (manifest.1, blob.1)) <$> blobs_qs in
  _ ← BlobManifest_bulk_create thru;
  _ ← put_tag pk_ manifest.1;
  _ ← new_version repository (λ db new_version,
        let new_version :=
          add_content (objects_filter (content db)
                         (λ kv, is_manifest_with_digest (Content_digest manifest.2) kv.2))
                      new_version in
        let new_version :=
          remove_content (objects_filter (content db) (λ kv, is_tag_named pk_ kv.2))
                         new_version in
        add_content (objects_filter (content db) (λ kv, is_tag pk_ manifest.1 kv.2))
                    new_version);
  ManifestResponse manifest path 201.

(** ** [ContainerRepositoryViewSet.remove] *)

(** [self.get_object()]: the repository of the viewset's queryset,
    [models.ContainerRepository.objects.all()]. *)
Definition ContainerRepositoryViewSet_get_object (pk_ : pk) : M (pk * Repository.t) := λ db,
  (db, get_object_or_404 "ContainerRepository"
         (objects_filter (repositories db)
            (λ kv, kv.1 = pk_ ∧ Repository.type kv.2 = ContainerRepository))).

(** [NamedModelViewSet.get_resource(url, Content)] *)
Definition get_resource `{Externals} (url : string) : M (pk * Content) := λ db,
  match resolve_url url with
  | Some p =>
      match content db !! p with
      | Some c => (db, Ok (p, c))
      | None => (db, Raise ValidationError)
      end
  | None => (db, Raise ValidationError)
  end.

(** The [for url in request.data["content_units"]] loop of [remove]. *)
Fixpoint remove_loop `{Externals} (urls : list string)
    (remove_content_units : list (string + pk)) : M (list (string + pk)) :=
  match urls with
  | [] => mret remove_content_units
  | url :: rest =>
      if bool_decide (url = "*") then
        mret [inl url]
      else
        content ← get_resource url;
        remove_loop rest (remove_content_units ++ [inr content.1])
  end.

(** [enqueue_with_reservation(func, resources, kwargs)] *)
Definition enqueue_with_reservation (t : task) : M task := λ db,
  (set_task_queue (λ q, (q ++ [t])) db, Ok t).

Definition ContainerRepositoryViewSet_remove `{Externals} (request : Request.t)
    (pk_ : pk) : M response :=
  let remove_content_units := [] in
  repository ← ContainerRepositoryViewSet_get_object pk_;
  _ ← (if RecursiveManageSerializer_is_valid (Request.content_units request)
       then mret () else raise ValidationError);
  remove_content_units ←
    match Request.content_units request with
    | Some urls => remove_loop urls remove_content_units
    | None => mret remove_content_units
    end;
  result ← enqueue_with_reservation
             (recursive_remove_content_task repository.1 remove_content_units);
  mret (OperationPostponedResponse result).

(** Modelled from the spec: [tasks.recursive_remove_content], which is not
    among the sources.  Section 4.4: a remove-set containing the sentinel
    means "remove every content unit currently in the repository"; any other
    remove-set names the units to remove.  The result is published as a new
    version. *)
Definition recursive_remove_content (repository_pk : pk)
    (content_units : list (string + pk)) : M () :=
  new_version repository_pk (λ db new_version,
    if bool_decide (inl "*" ∈ content_units) then
      new_version ∖ new_version
    else
      new_version ∖ list_to_set (omap (λ u, match u with inr p => Some p | inl _ => None end)
                                      content_units)).

(** A worker runs a queued task. *)
Definition run_task (t : task) : M () :=
  match t with
  | recursive_remove_content_task repository_pk content_units =>
      recursive_remove_content repository_pk content_units
  end.

(** ** Invariants of the store *)

(** The unique constraints, as the store enforces them on every insert. *)
Definition unique_content (db : DB) : Prop :=
  map_Forall (λ p c,
    map_Forall (λ q c', same_key c c' → p = q) (content db)) (content db).

Definition unique_artifacts (db : DB) : Prop :=
  map_Forall (λ p a,
    map_Forall (λ q a', Artifact.sha256 a' = Artifact.sha256 a → p = q)
               (artifacts db)) (artifacts db).

(** A [ContentArtifact] row points at rows that exist, and the artifact of a
    blob or manifest is stored under its digest as [relative_path] (the only
    way the push views create one). *)
Definition relative_path_ok (row : option Content) (relative_path : string) : Prop :=
  match row with
  | Some (Tag _ _) => True
  | Some c => relative_path = Content_digest c
  | None => False
  end.

Global Instance relative_path_ok_dec row relative_path :
  Decision (relative_path_ok row relative_path).
Proof. destruct row as [[]|]; simpl; apply _. Defined.

Definition content_artifacts_wf (db : DB) : Prop :=
  map_Forall (λ key a,
    is_Some (artifacts db !! a) ∧ relative_path_ok (content db !! key.1) key.2)
    (content_artifacts db).

Record wf (db : DB) : Prop := mk_wf {
  wf_content : unique_content db;
  wf_artifacts : unique_artifacts db;
  wf_content_artifacts : content_artifacts_wf db
}.

Global Instance wf_dec db : Decision (wf db).
Proof.
  destruct (decide (unique_content db)); [|right; by intros []].
  destruct (decide (unique_artifacts db)); [|right; by intros []].
  destruct (decide (content_artifacts_wf db)); [|right; by intros []].
  by left.
Defined.

(** An artifact that already holds the digest of [data] holds [data]: the
    store is content-addressed. *)
Definition stored_faithfully `{Externals} (data : bytes) (db : DB) : Prop :=
  map_Forall (λ _ a,
    Artifact.sha256 a = hashlib sha256 data → Artifact.file a = data) (artifacts db).

(** ** The reference resolver and the whole-body upload, as the specification
    words them *)

(** Section 4.5: a reference with the [sha256:] prefix names a manifest of the
    version by digest; any other reference names a tag of the version, which
    is followed to its manifest. *)
Definition resolves_to (db : DB) (version : gset pk) (reference : string)
    (manifest : pk * Content) : Prop :=
  if bool_decide (str_take 7 reference = "sha256:") then
    content db !! manifest.1 = Some manifest.2
    ∧ is_manifest_with_digest reference manifest.2
    ∧ manifest.1 ∈ version
  else
    ∃ t, content db !! t = Some (Tag reference manifest.1)
         ∧ t ∈ version
         ∧ content db !! manifest.1 = Some manifest.2
         ∧ ∃ d, is_manifest_with_digest d manifest.2.

(** Section 4.2: [append(upload, chunk, expected_start_offset)]. *)
Definition UploadSession_append `{Externals} (path : string) (pk_ : pk) (chunk : bytes)
    (expected_start_offset : Z) : M () :=
  '(_, repository) ← get_dr_push path;
  db ← get_db;
  '(_, upload) ← lift (get_object_or_404 "Upload" (Upload_queryset repository pk_ db));
  if bool_decide (expected_start_offset ≠ Upload.offset upload) then
    raise OffsetMismatch
  else
    Upload_save pk_ (append_chunk upload chunk (Z.of_nat (length chunk))).

(** Section 4.2, whole-body special case: one append of the whole body at
    offset 0, followed by finalize with the asserted digest. *)
Definition whole_body_upload `{Externals} (request : Request.t) (path : string)
    (pk_ : pk) : M response :=
  _ ← UploadSession_append path pk_ (Request.body request) 0;
  BlobUploads_put request path pk_.

(** ** Notions the properties are stated with *)

(** The rows of the version that [head] and [get] look the reference up in:
    manifests by digest for a [sha256:] reference, tags by name otherwise. *)
Definition matching_rows (db : DB) (version : gset pk) (reference : string)
    : list (pk * Content) :=
  if bool_decide (str_take 7 reference = "sha256:") then
    objects_filter (content db)
      (λ kv, is_manifest_with_digest reference kv.2 ∧ kv.1 ∈ version)
  else
    objects_filter (content db)
      (λ kv, is_tag_named reference kv.2 ∧ kv.1 ∈ version).

(** The manifest a matching row stands for: the row itself, or the manifest
    its tag points at. *)
Definition dereference (reference : string) (row : pk * Content) : M (pk * Content) :=
  if bool_decide (str_take 7 reference = "sha256:") then mret row
  else tagged_manifest row.

Definition BlobResponse_headers (digest path : string) (size : Z)
    : list (string * header_value) :=
  [("Docker-Distribution-Api-Version", HStr "registry/2.0");
   ("Docker-Content-Digest", HStr digest);
   ("Location", HStr ("/v2/" +:+ path +:+ "/blobs/" +:+ digest));
   ("Etag", HStr digest);
   ("Range", HStr ("0-" +:+ pretty size));
   ("Content-Length", HInt size);
   ("Content-Type", HStr "application/octet-stream");
   ("Connection", HStr "close")].

Definition ManifestResponse_headers (digest path : string)
    : list (string * header_value) :=
  [("Docker-Distribution-Api-Version", HStr "registry/2.0");
   ("Docker-Content-Digest", HStr digest);
   ("Location", HStr ("/v2/" +:+ path +:+ "/manifests/" +:+ digest));
   ("Content-Length", HInt 0)].

(** A computation that never hands [IntegrityError] to its caller. *)
Definition contains_IntegrityError {A} (c : M A) : Prop :=
  ∀ db, (c db).2 ≠ Raise IntegrityError.

(** What an ingestion needs to get through: push access, a body that parses
    to a document with a [config] whose digest names a blob, and a [layers]
    list of objects. *)
Record ingestible `{Externals} (db : DB) (request : Request.t) (path : string)
    (r config : pk) (blobs : list json) : Prop := mk_ingestible {
  ingestible_wf : wf db;
  ingestible_stored : stored_faithfully (Request.body request) db;
  ingestible_push : ∃ distribution, get_dr_push path db = (db, Ok (distribution, r));
  ingestible_document :
    ∃ content_data config_layer config_digest digest media_type items,
      json_loads (Request.body request) = Some content_data
      ∧ py_get content_data "config" = Ok config_layer
      ∧ py_get config_layer "digest" = Ok config_digest
      ∧ lookup_value config_digest = Some digest
      ∧ content db !! config = Some (Blob digest media_type)
      ∧ py_get content_data "layers" = Ok (JArr items)
      ∧ layer_digests items [] = Ok blobs
}.

(** ** The rest of the registry API *)

(** A DRF [Response(data=..., headers=...)]: a body, and the status 200. *)
Inductive body_response : Type :=
| BodyResponse (data : json) (headers : list (string * header_value)).

(** *** [Blobs] *)

Definition Blobs_head (path : string) (pk_ : string) : M response :=
  '(_, _, repository_version) ← get_drv_pull path;
  version ← lift (version_content repository_version);
  db ← get_db;
  blob ← lift (get_object_or_404 "Blob"
            (objects_filter (content db)
               (λ kv, is_blob_with_digest (Some pk_) kv.2 ∧ kv.1 ∈ version)));
  BlobResponse blob path 200.

Definition Blobs_get `{Externals} (path : string) (pk_ : string) : M response :=
  '(distribution, _, repository_version) ← get_drv_pull path;
  version ← lift (version_content repository_version);
  db ← get_db;
  blob ← lift (get_object_or_404 "Blob"
            (objects_filter (content db)
               (λ kv, is_blob_with_digest (Some pk_) kv.2 ∧ kv.1 ∈ version)));
  mret (redirect_to_content_app distribution
          (CONTENT_ORIGIN +:+ "/pulp/container/" +:+ path +:+ "/blobs/"
             +:+ Content_digest blob.2)).

(** *** [TagsListView], [CatalogView], [VersionView] *)

(** The [for c in repository_version.content] loop of [TagsListView.get]:
    [tags["tags"]], a set, receives the name of every row that casts to a
    [Tag]. *)
Fixpoint tag_names (rows : list (pk * Content)) (tags : gset string) : gset string :=
  match rows with
  | [] => tags
  | (_, c) :: rest =>
      match c with
      | Tag name _ => tag_names rest (tags ∪ {[name]})
      | _ => tag_names rest tags
      end
  end.

(** [repository_version.content]: the rows of the content table that the
    version holds. *)
Definition RepositoryVersion_content (version : gset pk) (db : DB) : list (pk * Content) :=
  objects_filter (content db) (λ kv, kv.1 ∈ version).

(** [TagsListView.get]; [list(set)] hands the names over in an order of its
    own. *)
Definition TagsListView_get (path : string) : M body_response :=
  '(_, _, repository_version) ← get_drv_pull path;
  version ← lift (version_content repository_version);
  db ← get_db;
  let tags := tag_names (RepositoryVersion_content version db) ∅ in
  let tags := elements tags in
  mret (BodyResponse (JObj [("name", JStr path); ("tags", JArr (JStr <$> tags))])
          [("Docker-Distribution-API-Version", HStr "registry/2.0")]).

(** [CatalogView.get]:
    [ContainerDistribution.objects.values_list("base_path", flat=True)]. *)
Definition CatalogView_get : M body_response :=
  db ← get_db;
  let repositories_names := (map_to_list (distributions db)).*1 in
  mret (BodyResponse (JObj [("repositories", JArr (JStr <$> repositories_names))])
          [("Docker-Distribution-API-Version", HStr "registry/2.0")]).

Definition VersionView_get : M body_response :=
  mret (BodyResponse (JObj []) [("Docker-Distribution-Api-Version", HStr "registry/2.0")]).

(** *** [BearerTokenView] *)

Module TokenRequest.
Record t : Type := mk {
  (** [request.query_params]: the value the query string gives a key *)
  query_params : gmap string string;
  (** [request.user.is_authenticated], [request.user.username] *)
  user_is_authenticated : bool;
  user_username : string
}.
End TokenRequest.

(** The exceptions [BearerTokenView.get] raises: [ParseError] with the
    keyword argument it is built with ([details] at one place, [detail] at
    the others) and its text. *)
Inductive token_exn : Type :=
| ParseError (keyword : string) (text : string).

(** [AuthorizationService().generate_token(account, service, scope)], of
    [authorization.py], which is not among the sources. *)
Class Authorization : Type := {
  generate_token : string → string → string → json
}.

Definition ANONYMOUS_USER : string := EmptyString.
Definition EMPTY_ACCESS_SCOPE : string := "::".

Definition BearerTokenView_get `{Authorization} (request : TokenRequest.t)
    : token_exn + body_response :=
  let headers := [("Docker-Distribution-Api-Version", HStr "registry/2.0")] in
  let account := default ANONYMOUS_USER (TokenRequest.query_params request !! "account") in
  match TokenRequest.query_params request !! "service" with
  | None => inl (ParseError "details" "No service name provided.")
  | Some service =>
      let scope :=
        default EMPTY_ACCESS_SCOPE (TokenRequest.query_params request !! "scope") in
      if bool_decide (account ≠ ANONYMOUS_USER) then
        if negb (TokenRequest.user_is_authenticated request) then
          inl (ParseError "detail" "Authentication failed.")
        else if bool_decide (account ≠ TokenRequest.user_username request) then
          inl (ParseError "detail" "Username mismatch.")
        else
          inr (BodyResponse (generate_token account service scope) headers)
      else
        inr (BodyResponse (generate_token account service scope) headers)
  end.

(** *** [get_dr_push] with [create], and [BlobUploads.create] *)

(** What the first push to a path takes from [serializers.py] and
    [models.py], which are not among the sources: whether the two serializers
    accept the new repository and the new distribution, and the field
    defaults of a new [Upload]. *)
Class Provisioning : Type := {
  (** [ContainerPushRepositorySerializer(data={"name": path}).is_valid()] *)
  ContainerPushRepositorySerializer_is_valid : string → DB → bool;
  (** [ContainerDistributionSerializer(data={"base_path": path, "name": path,
      "repository": repo_href}).is_valid()] *)
  ContainerDistributionSerializer_is_valid : string → pk → DB → bool;
  (** [offset] and the digest fields of [models.Upload(repository=...)] *)
  Upload_offset_default : Z;
  Upload_digest_default : algorithm → string
}.

Definition set_distributions
    (f : gmap string Distribution.t → gmap string Distribution.t) (db : DB) : DB :=
  mkDB (artifacts db) (content db) (content_artifacts db) (blob_manifests db)
       (uploads db) (repositories db) (f (distributions db)) (task_queue db).

(** [with transaction.atomic(): c]: what [c] wrote is rolled back when it
    raises. *)
Definition transaction_atomic {A} (c : M A) : M A := λ db,
  match c db with
  | (db', Ok a) => (db', Ok a)
  | (_, Raise e) => (db, Raise e)
  end.

(** [try: c  except ValidationError: handler] *)
Definition try_except_ValidationError {A} (c : M A) (handler : M A) : M A := λ db,
  match c db with
  | (db', Raise ValidationError) => handler db'
  | r => r
  end.

(** [serializer.is_valid(raise_exception=True)] *)
Definition is_valid_or_raise (valid : bool) : M () :=
  if valid then mret () else raise ValidationError.

(** [repo_serializer.create(validated_data)]: a push repository of that
    name; pulpcore gives a new repository its first, empty version. *)
Definition ContainerPushRepositorySerializer_create (name : string) : M pk := λ db,
  let p := fresh (dom (repositories db)) in
  (set_repositories (insert p (Repository.mk name ContainerPushRepository [∅])) db, Ok p).

(** [dist_serializer.create(validated_data)]: the distribution of that base
    path, serving the repository. *)
Definition ContainerDistributionSerializer_create (base_path : string) (repository : pk)
    : M Distribution.t := λ db,
  let distribution := Distribution.mk (Some repository) None in
  (set_distributions (insert base_path distribution) db, Ok distribution).

(** [get_dr_push(request, path, create)].  With a distribution at [path] it
    is the [else] branch of the [try], which does not look at [create].
    Without one and with [create], the repository and the distribution are
    created in one transaction; the handler of [ValidationError] builds a
    [ParseError] and does not raise it, so control reaches
    [return distribution, repository] with [distribution] never bound. *)
Definition get_dr_push_with `{Provisioning} (path : string) (create : bool)
    : M (Distribution.t * pk) := λ db,
  match distributions db !! path with
  | Some _ => get_dr_push path db
  | None =>
      if create then
        ('(distribution, repository) ←
           try_except_ValidationError
             (transaction_atomic
                (db ← get_db;
                 _ ← is_valid_or_raise (ContainerPushRepositorySerializer_is_valid path db);
                 repository ← ContainerPushRepositorySerializer_create path;
                 db ← get_db;
                 _ ← is_valid_or_raise
                       (ContainerDistributionSerializer_is_valid path repository db);
                 distribution ← ContainerDistributionSerializer_create path repository;
                 mret (Some distribution, Some repository)))
             (mret (None, None));
         distribution ← lift (read_local "distribution" distribution);
         repository ← lift (read_local "repository" repository);
         mret (distribution, repository)) db
      else (db, Raise Http404)
  end.

(** [upload.save()] of a new row. *)
Definition Upload_insert (upload : Upload.t) : M pk := λ db,
  let p := fresh (dom (uploads db)) in
  (set_uploads (insert p upload) db, Ok p).

Definition BlobUploads_create `{Provisioning} (request : Request.t) (path : string)
    : M response :=
  '(_, repository) ← get_dr_push_with path true;
  let upload :=
    Upload.mk repository Upload_offset_default []
              (Upload_digest_default md5) (Upload_digest_default sha1)
              (Upload_digest_default sha256) (Upload_digest_default sha384)
              (Upload_digest_default sha512) in
  upload_pk ← Upload_insert upload;
  mret (UploadResponse upload_pk upload path 0).

(** *** The repository actions [add], [copy_tags] and [copy_manifests] *)

(** [tasks.recursive_add_content] as these actions queue it; [content_units]
    is a list of primary keys ([add], and the [values_list("pk", flat=True)]
    of [copy_tags]) or a queryset of rows ([copy_manifests]). *)
Inductive plugin_task : Type :=
| recursive_add_content_task (repository_pk : pk)
    (content_units : list pk + list (pk * Content)).

(** The store together with the queue of these tasks. *)
Record Tasking : Type := mkTasking {
  store : DB;
  plugin_queue : list plugin_task
}.

(** The last two lines of each action: [enqueue_with_reservation] of the task
    the view has prepared, and the [OperationPostponedResponse] for it.
    Nothing is queued when the preparation raised. *)
Definition enqueue_prepared (prepare : M plugin_task) (s : Tasking)
    : Tasking * result plugin_task :=
  match prepare (store s) with
  | (db', Ok t) => (mkTasking db' (plugin_queue s ++ [t]), Ok t)
  | (db', Raise e) => (mkTasking db' (plugin_queue s), Raise e)
  end.

(** The [for url in request.data["content_units"]] loop of [add]. *)
Fixpoint add_loop `{Externals} (urls : list string) (add_content_units : list pk)
    : M (list pk) :=
  match urls with
  | [] => mret add_content_units
  | url :: rest =>
      content ← get_resource url;
      add_loop rest (add_content_units ++ [content.1])
  end.

Definition ContainerRepositoryViewSet_add `{Externals} (request : Request.t) (pk_ : pk)
    : Tasking → Tasking * result plugin_task :=
  enqueue_prepared
    (let add_content_units := [] in
     repository ← ContainerRepositoryViewSet_get_object pk_;
     _ ← is_valid_or_raise
           (RecursiveManageSerializer_is_valid (Request.content_units request));
     add_content_units ←
       match Request.content_units request with
       | Some urls => add_loop urls add_content_units
       | None => mret add_content_units
       end;
     mret (recursive_add_content_task repository.1 (inl add_content_units))).

Module CopyRequest.
(** [request.data] of [copy_tags] and [copy_manifests]: the source, as
    submitted, and the optional filters. *)
Record t : Type := mk {
  source : string;
  names : option (list string);
  digests : option (list string);
  media_types : option (list string)
}.
End CopyRequest.

(** [TagCopySerializer] and [ManifestCopySerializer] ([serializers.py], not
    among the sources): the content of
    [serializer.validated_data["source_repository_version"]], or nothing when
    [is_valid] raises. *)
Class CopySerializers : Type := {
  TagCopySerializer_source : CopyRequest.t → DB → option (gset pk);
  ManifestCopySerializer_source : CopyRequest.t → DB → option (gset pk)
}.

Definition is_tag_row (c : Content) : Prop :=
  match c with
  | Tag _ _ => True
  | _ => False
  end.

Global Instance is_tag_row_dec c : Decision (is_tag_row c).
Proof. destruct c; simpl; apply _. Defined.

Definition is_manifest_row (c : Content) : Prop :=
  match c with
  | Manifest _ _ _ _ => True
  | _ => False
  end.

Global Instance is_manifest_row_dec c : Decision (is_manifest_row c).
Proof. destruct c; simpl; apply _. Defined.

(** [name__in=names] on tags; [digest__in=...] and [media_type__in=...] on
    manifests, each present only when the request gives the list. *)
Definition Tag_name_in (names : list string) (c : Content) : Prop :=
  match c with
  | Tag name _ => name ∈ names
  | _ => False
  end.

Global Instance Tag_name_in_dec names c : Decision (Tag_name_in names c).
Proof. destruct c; simpl; apply _. Defined.

Definition Manifest_filters (digests media_types : option (list string)) (c : Content)
    : Prop :=
  match c with
  | Manifest digest _ media_type _ =>
      match digests with
      | Some digests => digest ∈ digests
      | None => True
      end
      ∧ match media_types with
        | Some media_types => media_type ∈ media_types
        | None => True
        end
  | _ => False
  end.

Global Instance Manifest_filters_dec digests media_types c :
  Decision (Manifest_filters digests media_types c).
Proof. destruct c, digests, media_types; simpl; apply _. Defined.

Definition ContainerRepositoryViewSet_copy_tags `{CopySerializers}
    (request : CopyRequest.t) (pk_ : pk) : Tasking → Tasking * result plugin_task :=
  enqueue_prepared
    (let names := CopyRequest.names request in
     db ← get_db;
     source_latest ← match TagCopySerializer_source request db with
                     | Some version => mret version
                     | None => raise ValidationError
                     end;
     repository ← ContainerRepositoryViewSet_get_object pk_;
     db ← get_db;
     let content_tags_in_repo :=
       objects_filter (content db) (λ kv, is_tag_row kv.2 ∧ kv.1 ∈ source_latest) in
     let tags_in_repo :=
       objects_filter (content db)
         (λ kv, is_tag_row kv.2 ∧ kv.1 ∈ content_tags_in_repo.*1) in
     let tags_to_add :=
       match names with
       | None => tags_in_repo
       | Some names => filter (λ kv, Tag_name_in names kv.2) tags_in_repo
       end in
     mret (recursive_add_content_task repository.1 (inl tags_to_add.*1))).

Definition ContainerRepositoryViewSet_copy_manifests `{CopySerializers}
    (request : CopyRequest.t) (pk_ : pk) : Tasking → Tasking * result plugin_task :=
  enqueue_prepared
    (db ← get_db;
     source_latest ← match ManifestCopySerializer_source request db with
                     | Some version => mret version
                     | None => raise ValidationError
                     end;
     repository ← ContainerRepositoryViewSet_get_object pk_;
     db ← get_db;
     let content_manifests_in_repo :=
       objects_filter (content db)
         (λ kv, is_manifest_row kv.2 ∧ kv.1 ∈ source_latest) in
     let manifests_in_repo :=
       objects_filter (content db)
         (λ kv, is_manifest_row kv.2 ∧ kv.1 ∈ content_manifests_in_repo.*1) in
     let digests := CopyRequest.digests request in
     let media_types := CopyRequest.media_types request in
     let manifests_to_add :=
       filter (λ kv, Manifest_filters digests media_types kv.2) manifests_in_repo in
     mret (recursive_add_content_task repository.1 (inr manifests_to_add))).

(** ** More notions the properties are stated with *)

(** A repository of [db] is still there in [db'], under its name and type,
    with the versions it had, in their order, followed by whatever was
    published since. *)
Definition versions_kept (db db' : DB) : Prop :=
  map_Forall (λ r repository,
    ∃ repository',
      repositories db' !! r = Some repository'
      ∧ Repository.name repository' = Repository.name repository
      ∧ Repository.type repository' = Repository.type repository
      ∧ Repository.versions repository `prefix_of` Repository.versions repository')
    (repositories db).

(** [db'] holds everything [db] holds, unchanged: artifacts, content rows,
    links, distributions, published versions and queued tasks.  Uploads are
    transient and are not part of it. *)
Record extends (db db' : DB) : Prop := mk_extends {
  extends_artifacts : artifacts db ⊆ artifacts db';
  extends_content : content db ⊆ content db';
  extends_content_artifacts : content_artifacts db ⊆ content_artifacts db';
  extends_blob_manifests : blob_manifests db ⊆ blob_manifests db';
  extends_distributions : distributions db ⊆ distributions db';
  extends_repositories : versions_kept db db';
  extends_task_queue : task_queue db `prefix_of` task_queue db'
}.

(** A computation that only ever adds to the store, and one that leaves it
    as it is, however they end. *)
Definition appends {A} (c : M A) : Prop := ∀ db, extends db (c db).1.

Definition reads {A} (c : M A) : Prop := ∀ db, (c db).1 = db.

(** Referential integrity between the content types: the config blob of a
    manifest is a blob row, the manifest of a tag is a manifest row, a
    blob-manifest link joins a manifest row to a blob row, and a published
    version holds keys of content rows only. *)
Definition is_blob_at (db : DB) (p : pk) : Prop :=
  match content db !! p with
  | Some (Blob _ _) => True
  | _ => False
  end.

Definition is_manifest_at (db : DB) (p : pk) : Prop :=
  match content db !! p with
  | Some (Manifest _ _ _ _) => True
  | _ => False
  end.

Global Instance is_blob_at_dec db p : Decision (is_blob_at db p).
Proof. unfold is_blob_at. destruct (content db !! p) as [[]|]; apply _. Defined.

Global Instance is_manifest_at_dec db p : Decision (is_manifest_at db p).
Proof. unfold is_manifest_at. destruct (content db !! p) as [[]|]; apply _. Defined.

Definition row_references_ok (db : DB) (c : Content) : Prop :=
  match c with
  | Blob _ _ => True
  | Manifest _ _ _ config_blob => is_blob_at db config_blob
  | Tag _ tagged_manifest => is_manifest_at db tagged_manifest
  end.

Global Instance row_references_ok_dec db c : Decision (row_references_ok db c).
Proof. destruct c; simpl; apply _. Defined.

Definition version_ok (db : DB) (version : gset pk) : Prop :=
  set_Forall (λ p, is_Some (content db !! p)) version.

Record references_ok (db : DB) : Prop := mk_references_ok {
  references_rows : map_Forall (λ _ c, row_references_ok db c) (content db);
  references_links :
    set_Forall (λ link, is_manifest_at db link.1 ∧ is_blob_at db link.2)
               (blob_manifests db);
  references_versions :
    map_Forall (λ _ repository, Forall (version_ok db) (Repository.versions repository))
               (repositories db)
}.

Global Instance references_ok_dec db : Decision (references_ok db).
Proof.
  destruct (decide (map_Forall (λ _ c, row_references_ok db c) (content db)));
    [|right; by intros []].
  destruct (decide (set_Forall (λ link, is_manifest_at db link.1 ∧ is_blob_at db link.2)
                               (blob_manifests db)));
    [|right; by intros []].
  destruct (decide (map_Forall
                      (λ _ repository,
                         Forall (version_ok db) (Repository.versions repository))
                      (repositories db)));
    [|right; by intros []].
  by left.
Defined.

(** The unique constraints and the links of [wf], with referential
    integrity. *)
Record integrity (db : DB) : Prop := mk_integrity {
  integrity_wf : wf db;
  integrity_references : references_ok db
}.

Global Instance integrity_dec db : Decision (integrity db).
Proof.
  destruct (decide (wf db)); [|right; by intros []].
  destruct (decide (references_ok db)); [|right; by intros []].
  by left.
Defined.

(** From a store where [P] holds, [c] ends with a result and a store where
    [Q] holds, or with an exception and a store that has its integrity. *)
Definition hoare {A} (P : DB → Prop) (c : M A) (Q : A → DB → Prop) : Prop :=
  ∀ db, P db →
    match c db with
    | (db', Ok a) => Q a db'
    | (db', Raise _) => integrity db'
    end.

(** A fact about the store that stays true while the store only grows. *)
Definition stable (F : DB → Prop) : Prop :=
  ∀ db db', extends db db' → F db → F db'.

(** Whether the two serializers of [get_dr_push] accept a new repository and
    a new distribution at [path]: the second is asked once the repository is
    there. *)
Definition creation_accepted `{Provisioning} (path : string) (db : DB) : bool :=
  ContainerPushRepositorySerializer_is_valid path db
  && ContainerDistributionSerializer_is_valid path (fresh (dom (repositories db)))
       (set_repositories
          (insert (fresh (dom (repositories db)))
                  (Repository.mk path ContainerPushRepository [∅])) db).

(** Nothing was published between [db] and [db']: the repositories, with
    their versions, the distributions, the blob-manifest links and the
    uploads are the same, and the content table has gained manifest rows at
    most, no tag and no blob. *)
Record nothing_published (db db' : DB) : Prop := mk_nothing_published {
  unpublished_repositories : repositories db' = repositories db;
  unpublished_distributions : distributions db' = distributions db;
  unpublished_blob_manifests : blob_manifests db' = blob_manifests db;
  unpublished_uploads : uploads db' = uploads db;
  unpublished_content :
    ∀ p c, content db' !! p = Some c →
           content db !! p = Some c ∨ ∃ d sv mt cb, c = Manifest d sv mt cb
}.

(** ** A small registry to run the views on *)

Definition hex_digit (n : N) : ascii :=
  ascii_of_N (if (n <? 10)%N then 48 + n else 87 + n).

Fixpoint hex (data : bytes) : string :=
  match data with
  | [] => EmptyString
  | b :: rest =>
      let n := Byte.to_N b in
      String (hex_digit (n / 16)) (String (hex_digit (n mod 16)) (hex rest))
  end.

Definition quoted (s : string) : string :=
  String (ascii_of_N 34) s +:+ String (ascii_of_N 34) EmptyString.

Definition manifest_text : string :=
  "{" +:+ quoted "config" +:+ ": {" +:+ quoted "digest" +:+ ": " +:+ quoted "sha256:c0" +:+ "}, "
      +:+ quoted "layers" +:+ ": [{" +:+ quoted "digest" +:+ ": " +:+ quoted "sha256:1a" +:+ "}, {"
      +:+ quoted "digest" +:+ ": " +:+ quoted "sha256:ff" +:+ "}]}".

Definition manifest_body : bytes := String.list_byte_of_string manifest_text.

Definition manifest_document : json :=
  JObj [("config", JObj [("digest", JStr "sha256:c0")]);
        ("layers", JArr [JObj [("digest", JStr "sha256:1a")];
                         JObj [("digest", JStr "sha256:ff")]])].

(** The environment of the small registry: digests are the bytes in
    hexadecimal, and the one document that parses is [manifest_text]. *)
Global Instance lab : Externals := {|
  REGULAR_BLOB := "application/vnd.docker.image.rootfs.diff.tar.gzip";
  hashlib := λ _ data, hex data;
  json_loads := λ data,
    if bool_decide (data = manifest_body) then Some manifest_document else None;
  py_str := λ _, "?";
  CONTENT_ORIGIN := "https://registry.example";
  resolve_url := λ url,
    if bool_decide (url = "/content/blobs/1/") then Some 1%N
    else if bool_decide (url = "/content/tags/3/") then Some 3%N
    else None;
  RecursiveManageSerializer_is_valid := λ _, true
|}.

Definition layer_data : bytes := String.list_byte_of_string "layer".

(** An upload that has received nothing yet, and one that has received
    [layer_data]. *)
Definition lab_fresh_upload : Upload.t :=
  Upload.mk 10 0 [] (hex []) (hex []) (hex []) (hex []) (hex []).

Definition lab_upload : Upload.t := append_chunk lab_fresh_upload layer_data 5.

Definition config_artifact : Artifact.t :=
  Artifact.mk [] 0 (hex []) (hex []) None (hex []) (hex []) (hex []).

(** Repository 10 is a push repository served at [library/app]; its latest
    version holds the config blob 1, the manifest 2, the tag 3 ([latest] to
    manifest 2) and the layer blob 4.  Repository 11 is a sync repository
    holding the same content.  Uploads 7 and 8 belong to repository 10. *)
Definition lab_db : DB := {|
  artifacts := {[ 1%N := config_artifact ]};
  content := {[ 1%N := Blob "sha256:c0" REGULAR_BLOB;
                2%N := Manifest "sha256:0d" 2 "application/vnd.docker.distribution.manifest.v2+json" 1;
                3%N := Tag "latest" 2;
                4%N := Blob "sha256:1a" REGULAR_BLOB ]};
  content_artifacts := {[ (1%N, "sha256:c0") := 1%N; (2%N, "sha256:0d") := 1%N ]};
  blob_manifests := {[ (2%N, 1%N) ]};
  uploads := {[ 7%N := lab_upload; 8%N := lab_fresh_upload ]};
  repositories :=
    {[ 10%N := Repository.mk "library/app" ContainerPushRepository
                 [∅; {[1%N; 2%N; 3%N; 4%N]}];
       11%N := Repository.mk "mirror" ContainerRepository [∅; {[1%N; 2%N; 3%N; 4%N]}] ]};
  distributions :=
    {[ "library/app" := Distribution.mk (Some 10%N) None;
       "mirror" := Distribution.mk (Some 11%N) None ]};
  task_queue := []
|}.

(** A registry with the push repository and nothing in it. *)
Definition lab_new_db : DB := {|
  artifacts := ∅;
  content := ∅;
  content_artifacts := ∅;
  blob_manifests := ∅;
  uploads := ∅;
  repositories := {[ 10%N := Repository.mk "library/app" ContainerPushRepository [∅] ]};
  distributions := {[ "library/app" := Distribution.mk (Some 10%N) None ]};
  task_queue := []
|}.

(** The push of [manifest_text]. *)
Definition lab_push : Request.t :=
  Request.mk None None "application/vnd.docker.distribution.manifest.v2+json"
             manifest_body None.

(** Requests to the small registry. *)
Definition lab_finalize (digest : string) : Request.t :=
  Request.mk None (Some digest) "application/octet-stream" [] None.

Definition lab_chunk (content_range : string) : Request.t :=
  Request.mk (Some content_range) None "application/octet-stream" layer_data None.

Definition lab_single_shot : Request.t :=
  Request.mk None (Some "sha256:6c61796572") "application/octet-stream" layer_data None.

Definition lab_remove (content_units : list string) : Request.t :=
  Request.mk None None "application/json" [] (Some content_units).

(** The rest of the environment of the small registry: a repository may be
    created at any path but [locked/app], uploads start at offset 0 with the
    digests of no bytes, and a token spells out what it was asked for. *)
Global Instance lab_provisioning : Provisioning := {|
  ContainerPushRepositorySerializer_is_valid := λ path _,
    bool_decide (path ≠ "locked/app");
  ContainerDistributionSerializer_is_valid := λ _ _ _, true;
  Upload_offset_default := 0;
  Upload_digest_default := λ _, hex []
|}.

Global Instance lab_authorization : Authorization := {|
  generate_token := λ account service scope,
    JObj [("token", JStr (account +:+ "@" +:+ service +:+ "/" +:+ scope))]
|}.

(** A copy request names its source by the name of a repository and copies
    from its latest version. *)
Global Instance lab_copy : CopySerializers := {|
  TagCopySerializer_source := λ request db,
    match objects_filter (repositories db)
            (λ kv, Repository.name kv.2 = CopyRequest.source request) with
    | [(_, repository)] => latest_version repository
    | _ => None
    end;
  ManifestCopySerializer_source := λ request db,
    match objects_filter (repositories db)
            (λ kv, Repository.name kv.2 = CopyRequest.source request) with
    | [(_, repository)] => latest_version repository
    | _ => None
    end
|}.

(** The small registry with a third distribution, pinned to version 1 of the
    repository [library/app]. *)
Definition lab_pinned_db : DB :=
  set_distributions
    (insert "pinned/app" (Distribution.mk None (Some (10%N, 1%nat)))) lab_db.

(** * Properties *)

(** ** Querysets *)

Section objects_filter.
Context {K A : Type} `{Countable K}.
Variable table : gmap K A.
Variable P : K * A → Prop.
Context `{∀ x, Decision (P x)}.

Lemma elem_of_objects_filter k v :
  (k, v) ∈ objects_filter table P ↔ table !! k = Some v ∧ P (k, v).
Proof.
  unfold objects_filter.
  rewrite elem_of_map_to_list, map_lookup_filter_Some. tauto.
Qed.

Lemma objects_filter_nil :
  (∀ k v, table !! k = Some v → ¬ P (k, v)) → objects_filter table P = [].
Proof.
  intros Hnone. apply map_to_list_empty_iff, map_empty. intros i.
  apply map_lookup_filter_None. right. intros x Hx. by apply Hnone.
Qed.

Lemma objects_filter_nil_inv k v :
  objects_filter table P = [] → table !! k = Some v → ¬ P (k, v).
Proof.
  intros Hnil Hk HP.
  assert ((k, v) ∈ objects_filter table P) as Hin
    by by apply elem_of_objects_filter.
  rewrite Hnil in Hin. by apply elem_of_nil in Hin.
Qed.

Lemma objects_filter_singleton k v :
  table !! k = Some v → P (k, v) →
  (∀ k' v', table !! k' = Some v' → P (k', v') → k' = k) →
  objects_filter table P = [(k, v)].
Proof.
  intros Hk HP Huniq. unfold objects_filter.
  assert (filter P table = {[k := v]}) as ->; [|apply map_to_list_singleton].
  apply map_eq. intros i. destruct (decide (i = k)) as [->|Hne].
  - rewrite lookup_singleton_eq. by apply map_lookup_filter_Some.
  - rewrite lookup_singleton_ne by done.
    apply map_lookup_filter_None. right. intros x Hx HPx.
    apply Hne. by eapply Huniq.
Qed.

(** Under a unique constraint a queryset has no row or exactly one. *)
Lemma objects_filter_unique :
  (∀ k v k' v', table !! k = Some v → P (k, v) →
                table !! k' = Some v' → P (k', v') → k' = k) →
  objects_filter table P = []
  ∨ ∃ k v, objects_filter table P = [(k, v)] ∧ table !! k = Some v ∧ P (k, v).
Proof.
  intros Huniq. destruct (objects_filter table P) as [|[k v] rest] eqn:Hq.
  - by left.
  - right. exists k, v.
    assert ((k, v) ∈ objects_filter table P) as Hin
      by (rewrite Hq; apply list_elem_of_here).
    apply elem_of_objects_filter in Hin as [Hk HP].
    rewrite <- Hq. split; [|done].
    apply objects_filter_singleton; eauto.
Qed.
End objects_filter.

(** ** The monad *)

Lemma bind_Ok {A B} (c : M A) (k : A → M B) db db' a :
  c db = (db', Ok a) → (c ≫= k) db = k a db'.
Proof. intros Hc. unfold mbind, M_bind. by rewrite Hc. Qed.

Lemma bind_Raise {A B} (c : M A) (k : A → M B) db db' e :
  c db = (db', Raise e) → (c ≫= k) db = (db', Raise e).
Proof. intros Hc. unfold mbind, M_bind. by rewrite Hc. Qed.

Lemma bind_lift_Ok {A B} (r : result A) (k : A → M B) db a :
  r = Ok a → (lift r ≫= k) db = k a db.
Proof. intros ->. done. Qed.

Lemma bind_get_db {B} (k : DB → M B) db : (get_db ≫= k) db = k db db.
Proof. done. Qed.

(** ** Strings *)

Lemma str_drop_app (prefix s : string) :
  str_drop (String.length prefix) (prefix +:+ s) = s.
Proof. induction prefix as [|c prefix IH]; [by destruct s|]. simpl. apply IH. Qed.

Lemma str_take_app (prefix s : string) :
  str_take (String.length prefix) (prefix +:+ s) = prefix.
Proof. induction prefix as [|c prefix IH]; [by destruct s|]. simpl. by rewrite IH. Qed.

(** A string is its first [n] characters followed by the rest. *)
Lemma str_take_drop (n : nat) (s : string) : str_take n s +:+ str_drop n s = s.
Proof.
  revert s. induction n as [|n IH]; intros [|c s]; simpl; try done.
  change (String c (str_take n s +:+ str_drop n s) = String c s). by rewrite IH.
Qed.

(** ** Push access and uploads *)

Lemma get_dr_push_Ok path db db' distribution r :
  get_dr_push path db = (db', Ok (distribution, r)) →
  db' = db ∧ ∃ repository, repositories db !! r = Some repository
                           ∧ PUSH_ENABLED repository = true.
Proof.
  unfold get_dr_push. intros Hpush.
  destruct (distributions db !! path) as [dist|]; [|done].
  destruct (Distribution.repository dist) as [r'|]; [|done].
  destruct (repositories db !! r') as [repo|] eqn:Hrepo; [|done].
  destruct (PUSH_ENABLED repo) eqn:Hpe; [|done].
  injection Hpush as <- <- <-. eauto.
Qed.

Lemma Upload_queryset_lookup db r pk_ upload :
  uploads db !! pk_ = Some upload → Upload.repository upload = r →
  Upload_queryset r pk_ db = [(pk_, upload)].
Proof.
  intros Hup Hrepo. apply objects_filter_singleton.
  - done.
  - by split.
  - intros k' v' _ [Hk _]. exact Hk.
Qed.

(** ** Upload sessions *)

(** A finalize whose digest check fails raises and writes nothing. *)
Lemma BlobUploads_put_mismatch `{Externals} request path pk_ db distribution r digest
    upload :
  get_dr_push path db = (db, Ok (distribution, r)) →
  Request.query_digest request = Some digest →
  uploads db !! pk_ = Some upload →
  Upload.repository upload = r →
  Upload.sha256 upload ≠ str_drop len_sha256_prefix digest →
  BlobUploads_put request path pk_ db
    = (db, Raise (Exception_ (Some "The digest did not match"))).
Proof.
  intros Hpush Hdigest Hup Hrepo Hneq.
  unfold BlobUploads_put.
  rewrite (bind_Ok _ _ _ _ _ Hpush). cbn beta iota.
  unfold query_params_digest. rewrite Hdigest.
  rewrite (bind_lift_Ok _ _ _ digest eq_refl), bind_get_db.
  rewrite (Upload_queryset_lookup _ _ _ _ Hup Hrepo).
  rewrite (bind_lift_Ok _ _ _ (pk_, upload) eq_refl). cbn beta iota.
  by rewrite bool_decide_eq_false_2.
Qed.

(** The declared range of a well-formed [Content-Range] header. *)
Example content_range_5_9 : content_range_pattern_match "5-9" = Some (5, 9).
Proof. reflexivity. Qed.

Example content_range_units_prefix : content_range_pattern_match "bytes 5-9" = None.
Proof. reflexivity. Qed.

Example content_range_trailing_newline :
  content_range_pattern_match ("5-9" +:+ String "010" EmptyString) = Some (5, 9).
Proof. reflexivity. Qed.

Example content_range_absent :
  chunk_range (Request.mk None None "application/octet-stream" layer_data None)
    = (0, 0, Some 0).
Proof. reflexivity. Qed.

(** A request that declares a range is never the single-shot upload, and
    its start offset is the one it declares. *)
Lemma declared_range_not_whole request :
  is_Some (Request.content_range request) → request_whole request = false.
Proof. intros Hrange. unfold request_whole. rewrite bool_decide_eq_true_2; auto. Qed.

Lemma declared_range_start request content_range start end_ :
  Request.content_range request = Some content_range →
  content_range_pattern_match content_range = Some (start, end_) →
  chunk_range request = (start, end_, Some (end_ - start + 1)).
Proof.
  intros Hheader Hmatch. unfold chunk_range.
  rewrite declared_range_not_whole by (rewrite Hheader; eauto).
  rewrite Hheader. simpl. by rewrite Hmatch.
Qed.

Lemma chunk_range_whole request :
  request_whole request = true →
  chunk_range request = (0, Z.of_nat (length (Request.body request)) - 1, None).
Proof. intros Hwhole. unfold chunk_range. by rewrite Hwhole. Qed.

Lemma chunk_range_chunked request :
  request_whole request = false →
  ∃ start end_ chunk_size, chunk_range request = (start, end_, Some chunk_size).
Proof.
  intros Hwhole. unfold chunk_range. rewrite Hwhole.
  destruct (content_range_pattern_match _) as [[start end_]|]; eauto.
Qed.

(** Up to the offset check every request runs the same lines. *)
Lemma BlobUploads_partial_update_unfold `{Externals} request path pk_ db distribution r
    upload :
  get_dr_push path db = (db, Ok (distribution, r)) →
  uploads db !! pk_ = Some upload →
  Upload.repository upload = r →
  BlobUploads_partial_update request path pk_ db =
    (let '(start, end_, chunk_size) := chunk_range request in
     if bool_decide (Upload.offset upload ≠ start) then
       raise (Exception_ None)
     else
       chunk_size ← lift (read_local "chunk_size" chunk_size);
       let upload := append_chunk upload (Request.body request) chunk_size in
       _ ← Upload_save pk_ upload;
       mret (UploadResponse pk_ upload path (Z.of_nat (length (Upload.file upload))))) db.
Proof.
  intros Hpush Hup Hrepo. unfold BlobUploads_partial_update.
  rewrite (bind_Ok _ _ _ _ _ Hpush). cbn beta iota.
  destruct (chunk_range request) as [[start end_] chunk_size].
  rewrite bind_get_db, (Upload_queryset_lookup _ _ _ _ Hup Hrepo).
  by rewrite (bind_lift_Ok _ _ _ (pk_, upload) eq_refl).
Qed.

(** A request that starts anywhere but at the upload's offset is refused and
    writes nothing. *)
Lemma BlobUploads_partial_update_mismatch `{Externals} request path pk_ db
    distribution r upload :
  get_dr_push path db = (db, Ok (distribution, r)) →
  uploads db !! pk_ = Some upload →
  Upload.repository upload = r →
  Upload.offset upload ≠ (chunk_range request).1.1 →
  BlobUploads_partial_update request path pk_ db = (db, Raise (Exception_ None)).
Proof.
  intros Hpush Hup Hrepo Hne.
  rewrite (BlobUploads_partial_update_unfold _ _ _ _ _ _ _ Hpush Hup Hrepo).
  destruct (chunk_range request) as [[start end_] chunk_size].
  simpl in Hne. by rewrite bool_decide_eq_true_2.
Qed.

(** A single-shot upload on an upload at offset 0 reaches the call of
    [append_chunk] with [chunk_size] unbound. *)
Lemma BlobUploads_partial_update_unbound `{Externals} request path pk_ db distribution r
    upload :
  get_dr_push path db = (db, Ok (distribution, r)) →
  uploads db !! pk_ = Some upload →
  Upload.repository upload = r →
  request_whole request = true →
  Upload.offset upload = 0 →
  BlobUploads_partial_update request path pk_ db
    = (db, Raise (UnboundLocalError "chunk_size")).
Proof.
  intros Hpush Hup Hrepo Hwhole Hoffset.
  rewrite (BlobUploads_partial_update_unfold _ _ _ _ _ _ _ Hpush Hup Hrepo).
  rewrite (chunk_range_whole _ Hwhole).
  by rewrite bool_decide_eq_false_2 by (intros Hne; by apply Hne).
Qed.

(** C3, and where the code departs from it.  A chunk append
    ([BlobUploads.partial_update]) on an existing upload whose start offset
    differs from the upload's offset fails with [OffsetMismatch] and leaves
    the store, and so the upload's offset, bytes and digests, unchanged.  A
    request that starts at the upload's offset and is not the single-shot
    upload has its bytes appended and the offset advanced by their length.
    The single-shot upload, whose start is 0, is not appended to an upload at
    offset 0: its branch never binds [chunk_size], so the call of
    [append_chunk] raises [UnboundLocalError] and the upload stays as it
    was. *)
Theorem BlobUploads_partial_update_offset `{Externals} request path pk_ db
    distribution r upload :
  get_dr_push path db = (db, Ok (distribution, r)) →
  uploads db !! pk_ = Some upload →
  Upload.repository upload = r →
  let start := (chunk_range request).1.1 in
  let chunk := Request.body request in
  (Upload.offset upload ≠ start →
     BlobUploads_partial_update request path pk_ db = (db, Raise OffsetMismatch))
  ∧ (request_whole request = false → Upload.offset upload = start →
     ∃ upload',
       BlobUploads_partial_update request path pk_ db =
         (set_uploads (insert pk_ upload') db,
          Ok (UploadResponse pk_ upload' path (Z.of_nat (length (Upload.file upload')))))
       ∧ Upload.file upload' = Upload.file upload ++ chunk
       ∧ Upload.offset upload' = Upload.offset upload + Z.of_nat (length chunk)
       ∧ Upload.sha256 upload' = hashlib sha256 (Upload.file upload ++ chunk)
       ∧ Upload.repository upload' = Upload.repository upload)
  ∧ (request_whole request = true → Upload.offset upload = start →
     start = 0
     ∧ BlobUploads_partial_update request path pk_ db
       = (db, Raise (UnboundLocalError "chunk_size"))).
Proof.
  intros Hpush Hup Hrepo start chunk. subst start chunk.
  split; [intros Hne; by eapply BlobUploads_partial_update_mismatch|].
  split.
  - rewrite (BlobUploads_partial_update_unfold _ _ _ _ _ _ _ Hpush Hup Hrepo).
    intros Hwhole Heq.
    destruct (chunk_range_chunked _ Hwhole) as (start & end_ & chunk_size & Hrange).
    rewrite Hrange in *. simpl in Heq.
    rewrite bool_decide_eq_false_2 by (intros Hne; by apply Hne).
    exists (append_chunk upload (Request.body request) chunk_size).
    split; [reflexivity|]. done.
  - intros Hwhole Heq. rewrite (chunk_range_whole _ Hwhole) in *. simpl in Heq.
    split; [done|]. by eapply BlobUploads_partial_update_unbound.
Qed.

Lemma BlobUploads_partial_update_offset_witness :
  BlobUploads_partial_update (lab_chunk "0-4") "library/app" 7 lab_db
    = (lab_db, Raise OffsetMismatch)
  ∧ (∃ upload',
       BlobUploads_partial_update (lab_chunk "5-9") "library/app" 7 lab_db =
         (set_uploads (insert 7%N upload') lab_db,
          Ok (UploadResponse 7 upload' "library/app"
                (Z.of_nat (length (Upload.file upload')))))
       ∧ Upload.file upload' = Upload.file lab_upload ++ layer_data
       ∧ Upload.offset upload' = 10
       ∧ Upload.sha256 upload' = hashlib sha256 (Upload.file lab_upload ++ layer_data)
       ∧ Upload.repository upload' = Upload.repository lab_upload)
  ∧ (chunk_range lab_single_shot).1.1 = 0
  ∧ BlobUploads_partial_update lab_single_shot "library/app" 8 lab_db
    = (lab_db, Raise (UnboundLocalError "chunk_size")).
Proof.
  split; [|split].
  - apply (BlobUploads_partial_update_offset (lab_chunk "0-4") "library/app" 7 lab_db
             (Distribution.mk (Some 10%N) None) 10 lab_upload);
      [reflexivity | reflexivity | reflexivity | vm_compute; discriminate].
  - apply (BlobUploads_partial_update_offset (lab_chunk "5-9") "library/app" 7 lab_db
             (Distribution.mk (Some 10%N) None) 10 lab_upload);
      reflexivity.
  - apply (BlobUploads_partial_update_offset lab_single_shot "library/app" 8 lab_db
             (Distribution.mk (Some 10%N) None) 10 lab_fresh_upload);
      reflexivity.
Defined.

(** [partial_update] writes nothing but the row of the upload it appends to. *)
Lemma BlobUploads_partial_update_writes `{Externals} request path pk_ db :
  let db' := (BlobUploads_partial_update request path pk_ db).1 in
  db' = db
  ∨ ∃ upload upload', uploads db !! pk_ = Some upload
                      ∧ db' = set_uploads (insert pk_ upload') db.
Proof.
  unfold BlobUploads_partial_update, mbind, M_bind, get_dr_push.
  destruct (distributions db !! path) as [dist|]; [|by left].
  destruct (Distribution.repository dist) as [r|]; [|by left].
  destruct (repositories db !! r) as [repo|]; [|by left].
  destruct (PUSH_ENABLED repo); [|by left].
  destruct (chunk_range request) as [[start end_] chunk_size]. simpl.
  destruct (get_object_or_404 _ _) as [[k upload]|e] eqn:Hget; [|by left]. simpl.
  case_bool_decide; [by left|].
  destruct chunk_size as [chunk_size|]; [|by left]. simpl.
  right. exists upload. eexists. split; [|reflexivity].
  unfold get_object_or_404, queryset_get in Hget.
  destruct (Upload_queryset r pk_ db) as [|row [|]] eqn:Hq; try done.
  injection Hget as ->.
  assert ((k, upload) ∈ Upload_queryset r pk_ db) as Hin
    by (rewrite Hq; apply list_elem_of_here).
  apply elem_of_objects_filter in Hin as [Hk [Hpk _]]. simpl in Hpk. by subst k.
Qed.

(** A single-shot upload never gets through [partial_update], and writes
    nothing. *)
Lemma BlobUploads_partial_update_whole_fails `{Externals} request path pk_ db :
  request_whole request = true →
  ∃ e, BlobUploads_partial_update request path pk_ db = (db, Raise e).
Proof.
  intros Hwhole.
  unfold BlobUploads_partial_update, mbind, M_bind, get_dr_push.
  destruct (distributions db !! path) as [dist|]; [|eauto].
  destruct (Distribution.repository dist) as [r|]; [|eauto].
  destruct (repositories db !! r) as [repo|]; [|eauto].
  destruct (PUSH_ENABLED repo); [|eauto].
  rewrite (chunk_range_whole _ Hwhole). simpl.
  destruct (get_object_or_404 _ _) as [[k upload]|e]; [|eauto]. simpl.
  case_bool_decide; eauto.
Qed.

(** C7, and where the code departs from it.  A single-shot upload
    ([partial_update] with a [digest] query parameter and no [Content-Range]
    header) takes the single-chunk path with start offset 0 and
    end = size - 1, but it is never one append of the whole body followed by
    finalize: the request always ends in an exception and the store is left
    as it was.  With push access and on an existing upload the exception is
    [UnboundLocalError] on [chunk_size] when the upload is at offset 0 (the
    [whole] branch binds [start] and [end] and not [chunk_size], which the
    call of [append_chunk] reads), and [OffsetMismatch] otherwise. *)
Theorem BlobUploads_partial_update_whole `{Externals} request path pk_ db :
  request_whole request = true →
  chunk_range request = (0, Z.of_nat (length (Request.body request)) - 1, None)
  ∧ (∃ e, BlobUploads_partial_update request path pk_ db = (db, Raise e))
  ∧ (∀ distribution r upload,
       get_dr_push path db = (db, Ok (distribution, r)) →
       uploads db !! pk_ = Some upload →
       Upload.repository upload = r →
       BlobUploads_partial_update request path pk_ db
         = (db, Raise (if bool_decide (Upload.offset upload = 0)
                       then UnboundLocalError "chunk_size"
                       else OffsetMismatch))).
Proof.
  intros Hwhole. split; [by apply chunk_range_whole|].
  split; [by apply BlobUploads_partial_update_whole_fails|].
  intros distribution r upload Hpush Hup Hrepo. case_bool_decide as Hoffset.
  - by eapply BlobUploads_partial_update_unbound.
  - apply (BlobUploads_partial_update_mismatch request path pk_ db distribution r upload);
      try done.
    by rewrite chunk_range_whole.
Qed.

Lemma BlobUploads_partial_update_whole_witness :
  chunk_range lab_single_shot = (0, 4, None)
  ∧ BlobUploads_partial_update lab_single_shot "library/app" 8 lab_db
      = (lab_db, Raise (UnboundLocalError "chunk_size"))
  ∧ BlobUploads_partial_update lab_single_shot "library/app" 7 lab_db
      = (lab_db, Raise OffsetMismatch).
Proof.
  destruct (BlobUploads_partial_update_whole lab_single_shot "library/app" 8 lab_db)
    as (Hrange & _ & Hfresh); [reflexivity|].
  destruct (BlobUploads_partial_update_whole lab_single_shot "library/app" 7 lab_db)
    as (_ & _ & Hstarted); [reflexivity|].
  split; [exact Hrange|]. split.
  - exact (Hfresh (Distribution.mk (Some 10%N) None) 10%N lab_fresh_upload
             eq_refl eq_refl eq_refl).
  - exact (Hstarted (Distribution.mk (Some 10%N) None) 10%N lab_upload
             eq_refl eq_refl eq_refl).
Defined.

(** What the claim expects of the same request, on the upload at offset 0 of
    the small registry: one append of the whole body followed by finalize
    converts the upload into a blob, where [partial_update] raises
    [UnboundLocalError] and leaves the store unchanged. *)
Lemma BlobUploads_partial_update_whole_not_append_finalize :
  request_whole lab_single_shot = true
  ∧ BlobUploads_partial_update lab_single_shot "library/app" 8 lab_db
      = (lab_db, Raise (UnboundLocalError "chunk_size"))
  ∧ (∃ db' headers,
       whole_body_upload lab_single_shot "library/app" 8 lab_db
         = (db', Ok (Response 201 headers))
       ∧ uploads db' !! 8%N = None
       ∧ content db' !! 5%N = Some (Blob "sha256:6c61796572" REGULAR_BLOB))
  ∧ BlobUploads_partial_update lab_single_shot "library/app" 8 lab_db
      ≠ whole_body_upload lab_single_shot "library/app" 8 lab_db.
Proof.
  split; [reflexivity|]. split; [by vm_compute|]. split.
  - eexists _, _. split; [by vm_compute|]. split; by vm_compute.
  - intros Heq. apply (f_equal snd) in Heq. vm_compute in Heq. discriminate.
Qed.

(** ** Pulling a manifest by reference *)

Lemma tagged_manifest_Ok tag db db' manifest :
  tagged_manifest tag db = (db', Ok manifest) →
  db' = db ∧ content db !! manifest.1 = Some manifest.2
  ∧ (∃ n, tag.2 = Tag n manifest.1)
  ∧ ∃ d, is_manifest_with_digest d manifest.2.
Proof.
  unfold tagged_manifest. destruct tag as [t []]; simpl; try done.
  destruct (content db !! tagged_manifest0) as [[]|] eqn:Hm; try done.
  intros [= <- <-]. simpl. eauto 10.
Qed.

Lemma tagged_manifest_state tag db : (tagged_manifest tag db).1 = db.
Proof.
  unfold tagged_manifest. destruct tag as [t []]; simpl; try done.
  by destruct (content db !! tagged_manifest0) as [[]|].
Qed.

Lemma Manifests_head_unfold path reference db distribution repository version :
  get_drv_pull path db = (db, Ok (distribution, repository, Some version)) →
  Manifests_head path reference db =
    (row ← lift (get_object_or_404
                   (if bool_decide (str_take 7 reference = "sha256:")
                    then "Manifest" else "Tag")
                   (matching_rows db version reference));
     manifest ← dereference reference row;
     ManifestResponse manifest path 200) db.
Proof.
  intros Hpull. unfold Manifests_head, matching_rows, dereference.
  rewrite (bind_Ok _ _ _ _ _ Hpull). cbn beta iota.
  unfold mbind, M_bind, lift, get_db, version_content.
  case_bool_decide as Htag; case_bool_decide as Hman; try done.
  all: try by destruct (get_object_or_404 _ _).
Qed.

Lemma Manifests_get_unfold `{Externals} path reference db distribution repository version :
  get_drv_pull path db = (db, Ok (distribution, repository, Some version)) →
  Manifests_get path reference db =
    (row ← lift (get_object_or_404
                   (if bool_decide (str_take 7 reference = "sha256:")
                    then "Manifest" else "Tag")
                   (matching_rows db version reference));
     manifest ← dereference reference row;
     mret (Redirect (CONTENT_ORIGIN +:+ "/pulp/container/" +:+ path +:+ "/manifests/"
                       +:+ Content_digest manifest.2))) db.
Proof.
  intros Hpull. unfold Manifests_get, matching_rows, dereference, redirect_to_content_app.
  rewrite (bind_Ok _ _ _ _ _ Hpull). cbn beta iota.
  unfold mbind, M_bind, lift, get_db, version_content.
  case_bool_decide as Htag; case_bool_decide as Hman; try done.
  all: try by destruct (get_object_or_404 _ _).
Qed.

Lemma dereference_Ok db version reference row db' manifest :
  matching_rows db version reference = [row] →
  dereference reference row db = (db', Ok manifest) →
  db' = db ∧ resolves_to db version reference manifest.
Proof.
  unfold matching_rows, dereference, resolves_to. intros Hrows Hderef.
  assert (row ∈ [row]) as Hin by apply list_elem_of_here.
  rewrite <- Hrows in Hin. destruct row as [p c].
  case_bool_decide as Hprefix.
  - injection Hderef as <- <-.
    apply elem_of_objects_filter in Hin as (? & ? & ?). done.
  - apply elem_of_objects_filter in Hin as (Hp & Htag & Hver). simpl in *.
    apply tagged_manifest_Ok in Hderef as (-> & Hm & [n Heq] & Hd).
    simpl in Heq. subst c. simpl in Htag. subst n.
    split; [done|]. exists p. done.
Qed.

Lemma ManifestResponse_Ok manifest path status db db' resp :
  ManifestResponse manifest path status db = (db', Ok resp) →
  db' = db
  ∧ resp = Response status
      [("Docker-Distribution-Api-Version", HStr "registry/2.0");
       ("Docker-Content-Digest", HStr (Content_digest manifest.2));
       ("Location", HStr ("/v2/" +:+ path +:+ "/manifests/" +:+ Content_digest manifest.2));
       ("Content-Length", HInt 0)].
Proof.
  unfold ManifestResponse, mbind, M_bind, _artifacts_get.
  destruct (queryset_get _ _) as [[? a]|]; [|done].
  destruct (artifacts db !! a); [|done].
  by intros [= <- <-].
Qed.

(** C6.  [Manifests.head] and [Manifests.get] resolve a reference against the
    served repository version in the same way.  A reference that begins with
    [sha256:] is looked up as the digest of a manifest among the content of
    the version; any other reference is looked up as the name of a tag among
    the content of the version, and the tag is followed to its
    [tagged_manifest].  With no matching row both fail with [NotFound]; with
    one, both answer for the manifest the reference resolves to. *)
Theorem Manifests_head_get_resolve `{Externals} path reference db distribution
    repository version :
  get_drv_pull path db = (db, Ok (distribution, repository, Some version)) →
  let rows := matching_rows db version reference in
  let url manifest :=
    CONTENT_ORIGIN +:+ "/pulp/container/" +:+ path +:+ "/manifests/"
      +:+ Content_digest manifest.2 in
  (rows = [] →
     Manifests_head path reference db = (db, Raise NotFound)
     ∧ Manifests_get path reference db = (db, Raise NotFound))
  ∧ (∀ row manifest,
       rows = [row] → dereference reference row db = (db, Ok manifest) →
       resolves_to db version reference manifest
       ∧ (str_take 7 reference = "sha256:" → manifest = row)
       ∧ Manifests_get path reference db = (db, Ok (Redirect (url manifest)))
       ∧ Manifests_head path reference db = ManifestResponse manifest path 200 db)
  ∧ (∀ db1 db2 status headers location,
       Manifests_head path reference db = (db1, Ok (Response status headers)) →
       Manifests_get path reference db = (db2, Ok (Redirect location)) →
       ∃ manifest,
         resolves_to db version reference manifest
         ∧ headers !! 1%nat = Some ("Docker-Content-Digest", HStr (Content_digest manifest.2))
         ∧ location = url manifest).
Proof.
  intros Hpull rows url. subst rows.
  rewrite (Manifests_head_unfold _ _ _ _ _ _ Hpull).
  rewrite (Manifests_get_unfold _ _ _ _ _ _ Hpull).
  split; [|split].
  - intros ->. by unfold mbind, M_bind, lift, get_object_or_404.
  - intros row manifest Hrows Hderef.
    destruct (dereference_Ok _ _ _ _ _ _ Hrows Hderef) as [_ Hres].
    split; [done|]. split.
    { intros Hprefix. unfold dereference in Hderef.
      rewrite bool_decide_eq_true_2 in Hderef by done. by injection Hderef. }
    rewrite Hrows. unfold mbind, M_bind, lift, get_object_or_404. simpl.
    rewrite Hderef. by split.
  - intros db1 db2 status headers location.
    unfold mbind, M_bind, lift, get_object_or_404, queryset_get.
    destruct (matching_rows db version reference) as [|row [|]] eqn:Hrows;
      [done| |done].
    destruct (dereference reference row db) as [db' [manifest|e]] eqn:Hderef;
      [|done].
    destruct (dereference_Ok _ _ _ _ _ _ Hrows Hderef) as [-> Hres].
    intros Hhead [= <- <-].
    apply ManifestResponse_Ok in Hhead as [_ [= -> ->]].
    by exists manifest.
Qed.

Lemma Manifests_head_get_resolve_witness :
  Manifests_get "library/app" "latest" lab_db
    = (lab_db, Ok (Redirect "https://registry.example/pulp/container/library/app/manifests/sha256:0d"))
  ∧ Manifests_head "library/app" "latest" lab_db
    = ManifestResponse
        (2%N, Manifest "sha256:0d" 2 "application/vnd.docker.distribution.manifest.v2+json" 1)
        "library/app" 200 lab_db.
Proof.
  destruct (Manifests_head_get_resolve "library/app" "latest" lab_db
              (Distribution.mk (Some 10%N) None) (Some 10%N) {[1%N; 2%N; 3%N; 4%N]})
    as (_ & Hhit & _); [reflexivity|].
  destruct (Hhit (3%N, Tag "latest" 2)
              (2%N, Manifest "sha256:0d" 2
                      "application/vnd.docker.distribution.manifest.v2+json" 1))
    as (_ & _ & Hget & Hhead); [by vm_compute | by vm_compute |].
  split; [exact Hget | exact Hhead].
Defined.

(** ** Removing content *)

Lemma get_resource_resolves `{Externals} url db :
  is_Some (resolve_url url ≫= λ p, content db !! p) →
  ∃ unit, get_resource url db = (db, Ok unit).
Proof.
  unfold get_resource. intros [c Hc].
  destruct (resolve_url url) as [p|]; [|done]. simpl in Hc. rewrite Hc. eauto.
Qed.

(** The loop stops at the first sentinel: what follows it is never looked at,
    what was collected before it is dropped. *)
Lemma remove_loop_sentinel `{Externals} before after db :
  Forall (λ url, url ≠ "*" ∧ is_Some (resolve_url url ≫= λ p, content db !! p)) before →
  ∀ collected, remove_loop (before ++ "*" :: after) collected db = (db, Ok [inl "*"]).
Proof.
  induction 1 as [|url before [Hne Hres] _ IH]; intros collected; simpl.
  - done.
  - rewrite bool_decide_eq_false_2 by done.
    destruct (get_resource_resolves _ _ Hres) as [unit Hunit].
    rewrite (bind_Ok _ _ _ _ _ Hunit). apply IH.
Qed.

Lemma recursive_remove_content_all repository_pk db repository :
  repositories db !! repository_pk = Some repository →
  ∃ db', run_task (recursive_remove_content_task repository_pk [inl "*"]) db = (db', Ok ())
         ∧ repositories db' !! repository_pk
           = Some (Repository.mk (Repository.name repository) (Repository.type repository)
                                 (Repository.versions repository ++ [∅])).
Proof.
  intros Hrepo. unfold run_task, recursive_remove_content, new_version. rewrite Hrepo.
  eexists. split; [reflexivity|]. simpl. rewrite lookup_insert_eq.
  do 4 f_equal. apply difference_diag_L.
Qed.

(** C9, as the code has it.  When the submitted [content_units] contain the
    sentinel ["*"] and every unit listed before its first occurrence resolves
    to a content unit, [remove] enqueues the removal with exactly the
    sentinel: what was resolved before it is dropped and nothing after it is
    looked up.  Run on any state of the repository, that removal publishes a
    new version with empty content. *)
Theorem ContainerRepositoryViewSet_remove_sentinel `{Externals} request pk_ db
    repository before after :
  repositories db !! pk_ = Some repository →
  Repository.type repository = ContainerRepository →
  RecursiveManageSerializer_is_valid (Request.content_units request) = true →
  Request.content_units request = Some (before ++ "*" :: after) →
  Forall (λ url, url ≠ "*" ∧ is_Some (resolve_url url ≫= λ p, content db !! p)) before →
  let removal := recursive_remove_content_task pk_ [inl "*"] in
  ContainerRepositoryViewSet_remove request pk_ db
    = (set_task_queue (λ queue, queue ++ [removal]) db,
       Ok (OperationPostponedResponse removal))
  ∧ ∀ db1 repository1,
      repositories db1 !! pk_ = Some repository1 →
      ∃ db2 repository2,
        run_task removal db1 = (db2, Ok ())
        ∧ repositories db2 !! pk_ = Some repository2
        ∧ Repository.versions repository2 = Repository.versions repository1 ++ [∅]
        ∧ latest_version repository2 = Some ∅.
Proof.
  intros Hrepo Htype Hvalid Hunits Hbefore removal. split.
  - unfold ContainerRepositoryViewSet_remove.
    assert (ContainerRepositoryViewSet_get_object pk_ db = (db, Ok (pk_, repository)))
      as Hget.
    { unfold ContainerRepositoryViewSet_get_object.
      rewrite (objects_filter_singleton _ _ pk_ repository); try done.
      by intros k' v' _ [Hk _]. }
    rewrite (bind_Ok _ _ _ _ _ Hget), Hvalid, Hunits.
    unfold mbind at 1, M_bind at 1. simpl.
    by rewrite (bind_Ok _ _ _ _ _ (remove_loop_sentinel before after db Hbefore [])).
  - intros db1 repository1 Hrepo1.
    destruct (recursive_remove_content_all pk_ db1 repository1 Hrepo1) as (db2 & Hrun & Hdb2).
    eexists db2, _. split; [exact Hrun|]. split; [exact Hdb2|]. simpl.
    split; [done|]. unfold latest_version. simpl. by rewrite last_snoc.
Qed.

Lemma ContainerRepositoryViewSet_remove_sentinel_witness :
  let removal := recursive_remove_content_task 11 [inl "*"] in
  ContainerRepositoryViewSet_remove
      (lab_remove ["/content/blobs/1/"; "*"; "/content/missing/"]) 11 lab_db
    = (set_task_queue (λ queue, queue ++ [removal]) lab_db,
       Ok (OperationPostponedResponse removal)).
Proof.
  apply (ContainerRepositoryViewSet_remove_sentinel
           (lab_remove ["/content/blobs/1/"; "*"; "/content/missing/"]) 11 lab_db
           (Repository.mk "mirror" ContainerRepository [∅; {[1%N; 2%N; 3%N; 4%N]}])
           ["/content/blobs/1/"] ["/content/missing/"]).
  - reflexivity.
  - reflexivity.
  - reflexivity.
  - reflexivity.
  - constructor; [|constructor]. split; [discriminate|]. vm_compute. eauto.
Defined.

(** Whatever the serializer accepts, a list whose first unit is not the
    sentinel and does not resolve is refused, and nothing is enqueued. *)
Lemma ContainerRepositoryViewSet_remove_unresolved `{Externals} request pk_ db url rest :
  Request.content_units request = Some (url :: rest) →
  url ≠ "*" →
  resolve_url url ≫= (λ p, content db !! p) = None →
  ∃ e, ContainerRepositoryViewSet_remove request pk_ db = (db, Raise e).
Proof.
  intros Hunits Hne Hnone. unfold ContainerRepositoryViewSet_remove.
  unfold mbind at 1, M_bind at 1, ContainerRepositoryViewSet_get_object at 1.
  destruct (get_object_or_404 _ _) as [repository|e]; [|by exists e].
  destruct (RecursiveManageSerializer_is_valid _); [|by exists ValidationError].
  rewrite Hunits. exists ValidationError. simpl.
  rewrite bool_decide_eq_false_2 by done.
  unfold mbind, M_bind, mret, M_ret, get_resource.
  destruct (resolve_url url) as [p|]; [|done]. simpl in Hnone. by rewrite Hnone.
Qed.

(** C9 as stated fails: a list that contains the sentinel after a unit that
    does not resolve is rejected on that unit's lookup, and nothing is
    enqueued. *)
Lemma ContainerRepositoryViewSet_remove_sentinel_counterexample :
  let request := lab_remove ["/content/missing/"; "*"] in
  Request.content_units request = Some ["/content/missing/"; "*"]
  ∧ "*" ∈ ["/content/missing/"; "*"]
  ∧ ContainerRepositoryViewSet_remove request 11 lab_db = (lab_db, Raise ValidationError)
  ∧ ¬ ∃ db', ContainerRepositoryViewSet_remove request 11 lab_db
             = (db', Ok (OperationPostponedResponse
                           (recursive_remove_content_task 11 [inl "*"]))).
Proof.
  intros request. split; [reflexivity|]. split; [set_solver|].
  assert (ContainerRepositoryViewSet_remove request 11 lab_db
          = (lab_db, Raise ValidationError)) as Hrun by by vm_compute.
  split; [exact Hrun|]. intros [db' Hok]. rewrite Hrun in Hok. discriminate.
Qed.

(** ** Creating content-addressed rows *)

Lemma unique_content_lookup db p q c c' :
  unique_content db →
  content db !! p = Some c → content db !! q = Some c' → same_key c c' → p = q.
Proof.
  intros Huniq Hp Hq. exact (map_Forall_lookup_1 _ _ _ _ (map_Forall_lookup_1 _ _ _ _ Huniq Hp) Hq).
Qed.

Lemma unique_artifacts_lookup db p q a a' :
  unique_artifacts db →
  artifacts db !! p = Some a → artifacts db !! q = Some a' →
  Artifact.sha256 a' = Artifact.sha256 a → p = q.
Proof.
  intros Huniq Hp Hq. exact (map_Forall_lookup_1 _ _ _ _ (map_Forall_lookup_1 _ _ _ _ Huniq Hp) Hq).
Qed.

Lemma same_key_sym row c : same_key row c → same_key c row.
Proof. destruct row, c; simpl; intuition congruence. Qed.

Lemma same_key_trans a b c : same_key a b → same_key b c → same_key a c.
Proof. destruct a, b, c; simpl; intuition congruence. Qed.

(** Inserting a row whose key is free keeps the constraint. *)
Lemma unique_content_insert db p row :
  unique_content db →
  content db !! p = None →
  (∀ q c, content db !! q = Some c → ¬ same_key row c) →
  unique_content (set_content (insert p row) db).
Proof.
  intros Huniq Hfresh Hfree. unfold unique_content. simpl.
  apply map_Forall_lookup. intros i c Hi.
  apply map_Forall_lookup. intros j c' Hj Hkey.
  destruct (decide (i = p)) as [->|Hip], (decide (j = p)) as [->|Hjp]; [done| | |].
  - rewrite lookup_insert_eq in Hi. rewrite lookup_insert_ne in Hj by done.
    injection Hi as <-. by apply Hfree in Hj.
  - rewrite lookup_insert_eq in Hj. rewrite lookup_insert_ne in Hi by done.
    injection Hj as <-. apply Hfree in Hi. by apply same_key_sym in Hkey.
  - rewrite lookup_insert_ne in Hi by done. rewrite lookup_insert_ne in Hj by done.
    by eapply unique_content_lookup.
Qed.

Lemma fresh_lookup {A} (table : gmap pk A) : table !! fresh (dom table) = None.
Proof. apply not_elem_of_dom, is_fresh. Qed.

(** [try: artifact.save()  except IntegrityError: Artifact.objects.get(sha256=...)]:
    the row that holds the digest afterwards, new or already there. *)
Lemma Artifact_save_or_get a db :
  unique_artifacts db →
  ∃ p row db',
    try_except_IntegrityError (Artifact_save a) (Artifact_objects_get (Artifact.sha256 a)) db
      = (db', Ok (p, row))
    ∧ Artifact.sha256 row = Artifact.sha256 a
    ∧ ((artifacts db !! p = Some row ∧ db' = db)
       ∨ (artifacts db !! p = None ∧ row = a ∧ db' = set_artifacts (insert p a) db
          ∧ ∀ q a', artifacts db !! q = Some a' →
                    Artifact.sha256 a' ≠ Artifact.sha256 a)).
Proof.
  intros Huniq.
  unfold try_except_IntegrityError, Artifact_save, Artifact_objects_get.
  destruct (objects_filter_unique (artifacts db)
              (λ kv, Artifact.sha256 kv.2 = Artifact.sha256 a))
    as [Hnil|(k & v & -> & Hk & Hv)]; [|rewrite Hnil|].
  - intros k v k' v' Hk Hv Hk' Hv'. simpl in *.
    eapply unique_artifacts_lookup; eauto. congruence.
  - eexists _, _, _. split; [reflexivity|]. split; [done|]. right.
    split; [apply fresh_lookup|]. split; [done|]. split; [done|].
    intros q a' Hq. by apply (objects_filter_nil_inv _ _ q a' Hnil).
  - exists k, v, db. simpl. rewrite (objects_filter_singleton _ _ k v); try done.
    + split; [done|]. split; [done|]. by left.
    + intros k' v' Hk' Hv'. simpl in *.
      eapply unique_artifacts_lookup; eauto. congruence.
Qed.

(** [row.save()] inserts the row, or finds its key taken by exactly one row. *)
Lemma Content_save_spec row db :
  unique_content db →
  (∃ p, Content_save row db = (set_content (insert p row) db, Ok (p, row))
        ∧ content db !! p = None
        ∧ ∀ q c, content db !! q = Some c → ¬ same_key row c)
  ∨ (Content_save row db = (db, Raise IntegrityError)
     ∧ ∃ k v, content db !! k = Some v ∧ same_key row v
              ∧ objects_filter (content db) (λ kv, same_key row kv.2) = [(k, v)]).
Proof.
  intros Huniq. unfold Content_save.
  destruct (objects_filter_unique (content db) (λ kv, same_key row kv.2))
    as [Hnil|(k & v & Hone & Hk & Hv)].
  - intros k v k' v' Hk Hv Hk' Hv'.
    eapply (unique_content_lookup db k' k v' v); eauto.
    eapply same_key_trans; [|exact Hv]. by apply same_key_sym.
  - left. rewrite Hnil. eexists. split; [reflexivity|].
    split; [apply fresh_lookup|].
    intros q c' Hq. by apply (objects_filter_nil_inv _ _ q c' Hnil).
  - right. rewrite Hone. split; [done|]. by exists k, v.
Qed.

(** The same for a content row, whatever lookup recovers it by its key. *)
Lemma Content_save_or_get row model (Q : pk * Content → Prop) `{∀ x, Decision (Q x)} db :
  unique_content db →
  (∀ kv, Q kv ↔ same_key row kv.2) →
  ∃ p c db',
    try_except_IntegrityError (Content_save row)
      (λ db, (db, queryset_get model (objects_filter (content db) Q))) db
      = (db', Ok (p, c))
    ∧ same_key row c
    ∧ ((content db !! p = Some c ∧ db' = db)
       ∨ (content db !! p = None ∧ c = row ∧ db' = set_content (insert p row) db
          ∧ ∀ q c', content db !! q = Some c' → ¬ same_key row c')).
Proof.
  intros Huniq HQ.
  assert (objects_filter (content db) Q
          = objects_filter (content db) (λ kv, same_key row kv.2)) as HQeq.
  { unfold objects_filter. f_equal. apply map_filter_ext. intros i x _. apply HQ. }
  unfold try_except_IntegrityError.
  destruct (Content_save_spec row db Huniq)
    as [(p & -> & Hfresh & Hfree)|(-> & k & v & Hk & Hv & Hone)].
  - exists p, row, (set_content (insert p row) db). split; [done|].
    split; [by destruct row|]. by right.
  - rewrite HQeq, Hone. exists k, v, db. split; [done|]. split; [done|]. by left.
Qed.

(** The read loop hands over the whole stream. *)
Lemma receive_loop_S fuel chunk temp_file size hashed :
  receive_loop (S fuel) chunk temp_file size hashed =
    match take subchunk_size chunk with
    | [] => (temp_file, size, hashed)
    | _ :: _ =>
        receive_loop fuel (drop subchunk_size chunk)
          (temp_file ++ take subchunk_size chunk)
          (size + Z.of_nat (length (take subchunk_size chunk)))
          (hashed ++ take subchunk_size chunk)
    end.
Proof. reflexivity. Qed.

Lemma receive_loop_all fuel chunk temp_file size hashed :
  (length chunk < fuel)%nat →
  receive_loop fuel chunk temp_file size hashed
    = (temp_file ++ chunk, size + Z.of_nat (length chunk), hashed ++ chunk).
Proof.
  assert (0 < subchunk_size)%nat as Hpos by (unfold subchunk_size; lia).
  revert chunk temp_file size hashed.
  induction fuel as [|fuel IH]; intros chunk temp_file size hashed Hfuel; [lia|].
  rewrite receive_loop_S.
  destruct (take subchunk_size chunk) as [|b subchunk] eqn:Htake.
  - assert (length chunk = 0)%nat as Hlen.
    { apply (f_equal length) in Htake. rewrite length_take in Htake.
      change (length (@nil Byte.byte)) with 0%nat in Htake. lia. }
    apply nil_length_inv in Hlen. subst chunk.
    rewrite !app_nil_r. change (length (@nil Byte.byte)) with 0%nat.
    by rewrite Z.add_0_r.
  - rewrite <- Htake. rewrite IH.
    + rewrite <- !app_assoc, take_drop.
      rewrite <- Z.add_assoc, <- Nat2Z.inj_add, <- length_app.
      by rewrite take_drop.
    + rewrite length_drop.
      assert (length chunk ≠ 0)%nat.
      { intros Hlen. apply nil_length_inv in Hlen. subst chunk.
        by rewrite take_nil in Htake. }
      lia.
Qed.

(** ** The invariant is kept by every write of the push views *)

Lemma set_artifacts_insert_id db p a :
  artifacts db !! p = Some a → set_artifacts (insert p a) db = db.
Proof. intros Hp. destruct db. unfold set_artifacts. simpl in *. by rewrite insert_id. Qed.

Lemma set_content_insert_id db p c :
  content db !! p = Some c → set_content (insert p c) db = db.
Proof. intros Hp. destruct db. unfold set_content. simpl in *. by rewrite insert_id. Qed.

Lemma set_content_artifacts_insert_id db key a :
  content_artifacts db !! key = Some a → set_content_artifacts (insert key a) db = db.
Proof.
  intros Hp. destruct db. unfold set_content_artifacts. simpl in *. by rewrite insert_id.
Qed.

(** Writes to tables the invariant does not speak of. *)
Lemma wf_frame db db' :
  artifacts db' = artifacts db →
  content db' = content db →
  content_artifacts db' = content_artifacts db →
  wf db → wf db'.
Proof.
  intros Ha Hc Hca [H1 H2 H3].
  split; unfold unique_content, unique_artifacts, content_artifacts_wf in *;
    by rewrite ?Ha, ?Hc, ?Hca.
Qed.

Lemma content_artifacts_wf_lookup db c relative_path a :
  content_artifacts_wf db →
  content_artifacts db !! (c, relative_path) = Some a →
  is_Some (artifacts db !! a) ∧ relative_path_ok (content db !! c) relative_path.
Proof. intros Hwf Hkey. exact (map_Forall_lookup_1 _ _ _ _ Hwf Hkey). Qed.

Lemma wf_insert_artifact db p a :
  wf db →
  artifacts db !! p = None →
  (∀ q a', artifacts db !! q = Some a' → Artifact.sha256 a' ≠ Artifact.sha256 a) →
  wf (set_artifacts (insert p a) db).
Proof.
  intros [Hc Ha Hca] Hfresh Hfree. split; [done| |].
  - unfold unique_artifacts. simpl.
    apply map_Forall_lookup. intros i x Hi.
    apply map_Forall_lookup. intros j y Hj Hsha.
    destruct (decide (i = p)) as [->|Hip], (decide (j = p)) as [->|Hjp]; [done| | |].
    + rewrite lookup_insert_eq in Hi. rewrite lookup_insert_ne in Hj by done.
      injection Hi as <-. by apply Hfree in Hj.
    + rewrite lookup_insert_eq in Hj. rewrite lookup_insert_ne in Hi by done.
      injection Hj as <-. apply Hfree in Hi. by rewrite Hsha in Hi.
    + rewrite lookup_insert_ne in Hi by done. rewrite lookup_insert_ne in Hj by done.
      by eapply unique_artifacts_lookup.
  - unfold content_artifacts_wf. simpl.
    apply map_Forall_lookup. intros [c rp] x Hkey.
    destruct (content_artifacts_wf_lookup _ _ _ _ Hca Hkey) as [[row Hrow] Hrp].
    split; [|done]. exists row. rewrite lookup_insert_ne; [done|]. congruence.
Qed.

Lemma wf_insert_content db p row :
  wf db →
  content db !! p = None →
  (∀ q c, content db !! q = Some c → ¬ same_key row c) →
  wf (set_content (insert p row) db).
Proof.
  intros [Hc Ha Hca] Hfresh Hfree. split; [by apply unique_content_insert|done|].
  unfold content_artifacts_wf. simpl.
  apply map_Forall_lookup. intros [c rp] x Hkey.
  destruct (content_artifacts_wf_lookup _ _ _ _ Hca Hkey) as [Hart Hrp].
  split; [done|]. simpl in *.
  rewrite lookup_insert_ne; [done|]. intros <-. by rewrite Hfresh in Hrp.
Qed.

Lemma wf_insert_content_artifact db c relative_path a :
  wf db →
  is_Some (artifacts db !! a) →
  relative_path_ok (content db !! c) relative_path →
  wf (set_content_artifacts (insert (c, relative_path) a) db).
Proof.
  intros [Hc Ha Hca] Hart Hrp. split; [done|done|].
  unfold content_artifacts_wf. simpl. by apply map_Forall_insert_2.
Qed.

(** ** The blocks of the push views, one by one *)

Lemma put_artifact_ok upload db :
  wf db →
  ∃ a row,
    put_artifact upload db = (set_artifacts (insert a row) db, Ok (a, row))
    ∧ Artifact.sha256 row = Upload.sha256 upload
    ∧ wf (set_artifacts (insert a row) db).
Proof.
  intros Hwf. unfold put_artifact.
  match goal with
  | |- context [Artifact_save ?x] =>
      destruct (Artifact_save_or_get x db (wf_artifacts _ Hwf))
        as (p & row & db' & Hrun & Hsha & Hcases)
  end.
  exists p, row. rewrite Hrun.
  destruct Hcases as [[Hp ->]|(Hp & -> & -> & Hfree)].
  - rewrite set_artifacts_insert_id by done. done.
  - split; [done|]. split; [done|]. by apply wf_insert_artifact.
Qed.

Lemma receive_artifact_ok `{Externals} chunk db :
  wf db → stored_faithfully chunk db →
  ∃ a row,
    receive_artifact chunk db = (set_artifacts (insert a row) db, Ok (a, row))
    ∧ Artifact.sha256 row = hashlib sha256 chunk
    ∧ Artifact.file row = chunk
    ∧ wf (set_artifacts (insert a row) db).
Proof.
  intros Hwf Hstored. unfold receive_artifact.
  rewrite receive_loop_all by lia. simpl.
  match goal with
  | |- context [Artifact_save ?x] =>
      destruct (Artifact_save_or_get x db (wf_artifacts _ Hwf))
        as (p & row & db' & Hrun & Hsha & Hcases)
  end.
  exists p, row. simpl in Hrun, Hsha. rewrite Hrun.
  destruct Hcases as [[Hp ->]|(Hp & -> & -> & Hfree)].
  - rewrite set_artifacts_insert_id by done. split; [done|]. split; [done|].
    split; [|done]. exact (map_Forall_lookup_1 _ _ _ _ Hstored Hp Hsha).
  - split; [done|]. split; [done|]. split; [done|]. by apply wf_insert_artifact.
Qed.

Lemma put_blob_ok `{Externals} digest db :
  wf db →
  ∃ p media_type,
    put_blob digest db
      = (set_content (insert p (Blob digest media_type)) db, Ok (p, Blob digest media_type))
    ∧ wf (set_content (insert p (Blob digest media_type)) db).
Proof.
  intros Hwf.
  destruct (Content_save_or_get (Blob digest REGULAR_BLOB) "Blob"
              (λ kv, is_blob_with_digest (Some digest) kv.2) db (wf_content _ Hwf))
    as (p & c & db' & Hrun & Hkey & Hcases).
  { intros [k []]; simpl; split; congruence. }
  destruct c as [d mt| |]; simpl in Hkey; try done. subst d.
  exists p, mt. unfold put_blob, Blob_objects_get. rewrite Hrun.
  destruct Hcases as [[Hp ->]|(Hp & [= ->] & -> & Hfree)].
  - by rewrite set_content_insert_id.
  - split; [done|]. by apply wf_insert_content.
Qed.

Lemma put_manifest_ok digest media_type config_blob db :
  wf db →
  ∃ p sv mt cb,
    put_manifest digest media_type config_blob db
      = (set_content (insert p (Manifest digest sv mt cb)) db,
         Ok (p, Manifest digest sv mt cb))
    ∧ wf (set_content (insert p (Manifest digest sv mt cb)) db)
    ∧ (content db !! p = None ∨ content db !! p = Some (Manifest digest sv mt cb)).
Proof.
  intros Hwf.
  destruct (Content_save_or_get (Manifest digest 2 media_type config_blob) "Manifest"
              (λ kv, is_manifest_with_digest digest kv.2) db (wf_content _ Hwf))
    as (p & c & db' & Hrun & Hkey & Hcases).
  { by intros [k []]. }
  destruct c as [|d sv mt cb|]; simpl in Hkey; try done. subst d.
  exists p, sv, mt, cb. unfold put_manifest, Manifest_objects_get. rewrite Hrun.
  destruct Hcases as [[Hp ->]|(Hp & [= -> -> ->] & -> & Hfree)].
  - rewrite set_content_insert_id by done. eauto.
  - split; [done|]. split; [by apply wf_insert_content|by left].
Qed.

Lemma put_tag_ok name manifest db :
  wf db →
  ∃ t,
    put_tag name manifest db = (set_content (insert t (Tag name manifest)) db, Ok ())
    ∧ wf (set_content (insert t (Tag name manifest)) db)
    ∧ (content db !! t = None ∨ content db !! t = Some (Tag name manifest)).
Proof.
  intros Hwf. unfold put_tag, try_except_IntegrityError, mbind, M_bind.
  destruct (Content_save_spec (Tag name manifest) db (wf_content _ Hwf))
    as [(p & -> & Hfresh & Hfree)|(-> & k & v & Hk & Hv & Hone)].
  - exists p. split; [done|]. split; [by apply wf_insert_content|by left].
  - exists k. destruct v; simpl in Hv; try done. destruct Hv as [-> ->].
    rewrite set_content_insert_id by done. eauto.
Qed.

(** Linking a blob or manifest to its artifact under its digest: the link is
    there afterwards, to this artifact or to the one linked before. *)
Lemma put_blob_artifact_ok artifact c row db :
  wf db →
  is_Some (artifacts db !! artifact) →
  content db !! c = Some row →
  (∀ n m, row ≠ Tag n m) →
  ∃ a,
    put_blob_artifact artifact c (Content_digest row) db
      = (set_content_artifacts (insert (c, Content_digest row) a) db, Ok ())
    ∧ wf (set_content_artifacts (insert (c, Content_digest row) a) db).
Proof.
  intros Hwf Hart Hrow Hkind.
  unfold put_blob_artifact, try_except_IntegrityError, ContentArtifact_save.
  destruct (content_artifacts db !! (c, Content_digest row)) as [a|] eqn:Hlink.
  - exists a. by rewrite set_content_artifacts_insert_id.
  - exists artifact. split; [done|]. apply wf_insert_content_artifact; [done|done|].
    rewrite Hrow. by destruct row.
Qed.

(** A blob or manifest linked under its digest has exactly one artifact. *)
Lemma _artifacts_get_ok c row db :
  wf db →
  content db !! c = Some row →
  (∀ n m, row ≠ Tag n m) →
  is_Some (content_artifacts db !! (c, Content_digest row)) →
  ∃ artifact, _artifacts_get c db = (db, Ok artifact).
Proof.
  intros Hwf Hrow Hkind [a Hlink]. unfold _artifacts_get, _artifacts.
  rewrite (objects_filter_singleton _ _ (c, Content_digest row) a); [|done|done|].
  - simpl.
    destruct (content_artifacts_wf_lookup _ _ _ _ (wf_content_artifacts _ Hwf) Hlink)
      as [[artifact ->] _].
    by exists artifact.
  - intros [c' rp] a' Hlink' Hc'. simpl in Hc'. subst c'.
    destruct (content_artifacts_wf_lookup _ _ _ _ (wf_content_artifacts _ Hwf) Hlink')
      as [_ Hrp].
    rewrite Hrow in Hrp. destruct row; simpl in *; try by subst rp.
    by destruct (Hkind name tagged_manifest0).
Qed.

Lemma new_version_Ok r body db repository :
  repositories db !! r = Some repository →
  new_version r body db
    = (set_repositories
         (insert r (Repository.mk (Repository.name repository) (Repository.type repository)
                      (Repository.versions repository
                         ++ [body db (default ∅ (latest_version repository))]))) db,
       Ok ()).
Proof. intros Hrepo. unfold new_version. by rewrite Hrepo. Qed.

Lemma add_content_singleton {A} (p : pk) (row : A) (v : gset pk) :
  add_content [(p, row)] v = v ∪ {[p]}.
Proof. unfold add_content. simpl. by rewrite union_empty_r_L. Qed.

(** A finalize whose digest check passes, start to end: the state it leaves
    and the response. *)
Lemma BlobUploads_put_ok `{Externals} request path pk_ db distribution r digest upload :
  wf db →
  get_dr_push path db = (db, Ok (distribution, r)) →
  Request.query_digest request = Some digest →
  uploads db !! pk_ = Some upload →
  Upload.repository upload = r →
  Upload.sha256 upload = str_drop len_sha256_prefix digest →
  ∃ a arow blob media_type a' repository artifact,
    let db1 := set_artifacts (insert a arow) db in
    let db2 := set_content (insert blob (Blob digest media_type)) db1 in
    let db3 := set_content_artifacts (insert (blob, digest) a') db2 in
    let db4 :=
      set_repositories
        (insert r (Repository.mk (Repository.name repository) (Repository.type repository)
                     (Repository.versions repository
                        ++ [default ∅ (latest_version repository) ∪ {[blob]}]))) db3 in
    let db5 := set_uploads (delete pk_) db4 in
    repositories db !! r = Some repository
    ∧ Artifact.sha256 arow = Upload.sha256 upload
    ∧ BlobUploads_put request path pk_ db
      = (db5, Ok (Response 201 (BlobResponse_headers digest path (Artifact.size artifact))))
    ∧ wf db5.
Proof.
  intros Hwf Hpush Hdigest Hup Hrepo Hmatch.
  destruct (get_dr_push_Ok _ _ _ _ _ Hpush) as [_ (repository & Hrepository & _)].
  destruct (put_artifact_ok upload db Hwf) as (a & arow & Hartifact & Hsha & Hwf1).
  destruct (put_blob_ok digest _ Hwf1) as (blob & media_type & Hblob & Hwf2).
  destruct (put_blob_artifact_ok a blob (Blob digest media_type) _ Hwf2)
    as (a' & Hlink & Hwf3).
  { simpl. rewrite lookup_insert_eq. eauto. }
  { simpl. by rewrite lookup_insert_eq. }
  { done. }
  simpl in Hlink, Hwf3.
  set (db3 := set_content_artifacts (insert (blob, digest) a')
                (set_content (insert blob (Blob digest media_type))
                   (set_artifacts (insert a arow) db))) in *.
  assert (objects_filter (content db3) (λ kv, kv.1 = blob)
          = [(blob, Blob digest media_type)]) as Hqs.
  { apply objects_filter_singleton; [|done|by intros ? ? _ ?].
    simpl. by rewrite lookup_insert_eq. }
  pose proof (new_version_Ok r
    (λ db new_version,
       add_content (objects_filter (content db) (λ kv, kv.1 = blob)) new_version)
    db3 repository Hrepository) as Hversion.
  cbn beta in Hversion. rewrite Hqs, add_content_singleton in Hversion.
  set (db4 := set_repositories _ db3) in Hversion.
  assert (wf (set_uploads (delete pk_) db4)) as Hwf5
    by (by apply (wf_frame db3)).
  destruct (_artifacts_get_ok blob (Blob digest media_type) _ Hwf5) as [artifact Hget].
  { simpl. by rewrite lookup_insert_eq. }
  { done. }
  { simpl. rewrite lookup_insert_eq. eauto. }
  exists a, arow, blob, media_type, a', repository, artifact.
  cbn zeta. fold db3. fold db4.
  split; [done|]. split; [done|]. split; [|done].
  unfold BlobUploads_put.
  rewrite (bind_Ok _ _ _ _ _ Hpush). cbn beta iota.
  unfold query_params_digest. rewrite Hdigest.
  rewrite (bind_lift_Ok _ _ _ digest eq_refl), bind_get_db.
  rewrite (Upload_queryset_lookup _ _ _ _ Hup Hrepo).
  rewrite (bind_lift_Ok _ _ _ (pk_, upload) eq_refl). cbn beta iota.
  rewrite bool_decide_eq_true_2 by done.
  rewrite (bind_Ok _ _ _ _ _ Hartifact).
  rewrite (bind_Ok _ _ _ _ _ Hblob).
  rewrite (bind_Ok _ _ _ _ _ Hlink).
  rewrite (bind_Ok _ _ _ _ _ Hversion).
  unfold mbind at 1, M_bind at 1, Upload_delete at 1.
  unfold BlobResponse. by rewrite (bind_Ok _ _ _ _ _ Hget).
Qed.

(** C1, and where the code departs from it.  [BlobUploads.put] does not
    compare the asserted digest with [sha256:] followed by the hex digest of
    the upload: it compares what follows the first seven characters of the
    asserted string with the hex, whatever those seven characters are.  An
    asserted digest that does not match is refused with [DigestMismatch],
    the store untouched, when it carries the [sha256:] prefix or its tail
    differs from the hex.  One whose tail is the hex, under any other seven
    characters, is accepted: the view answers 201, the upload is converted
    into an artifact and a blob keyed by the asserted string, and the
    [Upload] row is deleted. *)
Theorem BlobUploads_put_digest_mismatch `{Externals} request path pk_ db distribution r
    digest upload :
  wf db →
  get_dr_push path db = (db, Ok (distribution, r)) →
  Request.query_digest request = Some digest →
  uploads db !! pk_ = Some upload →
  Upload.repository upload = r →
  digest ≠ "sha256:" +:+ Upload.sha256 upload →
  (str_take len_sha256_prefix digest = "sha256:"
   ∨ str_drop len_sha256_prefix digest ≠ Upload.sha256 upload →
   BlobUploads_put request path pk_ db = (db, Raise DigestMismatch))
  ∧ (str_drop len_sha256_prefix digest = Upload.sha256 upload →
     str_take len_sha256_prefix digest ≠ "sha256:"
     ∧ ∃ db' headers a arow blob media_type,
         BlobUploads_put request path pk_ db = (db', Ok (Response 201 headers))
         ∧ artifacts db' !! a = Some arow
         ∧ Artifact.sha256 arow = Upload.sha256 upload
         ∧ content db' !! blob = Some (Blob digest media_type)
         ∧ uploads db' !! pk_ = None).
Proof.
  intros Hwf Hpush Hdigest Hup Hrepo Hmismatch.
  assert (str_take len_sha256_prefix digest = "sha256:" →
          str_drop len_sha256_prefix digest ≠ Upload.sha256 upload) as Htail.
  { intros Hprefix Htail. apply Hmismatch.
    by rewrite <- (str_take_drop len_sha256_prefix digest), Hprefix, Htail. }
  split.
  - intros Hrefused.
    apply (BlobUploads_put_mismatch request path pk_ db distribution r digest upload);
      try done.
    intros Heq. destruct Hrefused as [Hprefix|Hne]; [by apply (Htail Hprefix)|by apply Hne].
  - intros Heq. split; [intros Hprefix; by apply (Htail Hprefix)|].
    destruct (BlobUploads_put_ok request path pk_ db distribution r digest upload)
      as (a & arow & blob & media_type & a' & repository & artifact
          & Hrepository & Hsha & Hrun & Hwf'); try done.
    cbn zeta in Hrun. rewrite Hrun.
    eexists _, _, a, arow, blob, media_type. split; [reflexivity|]. simpl.
    by rewrite !lookup_insert_eq, lookup_delete_eq.
Qed.

Lemma BlobUploads_put_digest_mismatch_witness :
  BlobUploads_put (lab_finalize "sha256:00") "library/app" 7 lab_db
    = (lab_db, Raise DigestMismatch)
  ∧ "sha512:6c61796572" ≠ "sha256:" +:+ Upload.sha256 lab_upload
  ∧ ∃ db' headers a arow blob media_type,
      BlobUploads_put (lab_finalize "sha512:6c61796572") "library/app" 7 lab_db
        = (db', Ok (Response 201 headers))
      ∧ artifacts db' !! a = Some arow
      ∧ Artifact.sha256 arow = Upload.sha256 lab_upload
      ∧ content db' !! blob = Some (Blob "sha512:6c61796572" media_type)
      ∧ uploads db' !! 7%N = None.
Proof.
  assert (wf lab_db) as Hwf by (apply (bool_decide_unpack _); vm_compute; exact I).
  destruct (BlobUploads_put_digest_mismatch (lab_finalize "sha256:00") "library/app" 7
              lab_db (Distribution.mk (Some 10%N) None) 10 "sha256:00" lab_upload Hwf)
    as [Hrefused _];
    [reflexivity | reflexivity | reflexivity | reflexivity | vm_compute; discriminate |].
  destruct (BlobUploads_put_digest_mismatch (lab_finalize "sha512:6c61796572")
              "library/app" 7 lab_db (Distribution.mk (Some 10%N) None) 10
              "sha512:6c61796572" lab_upload Hwf)
    as [_ Haccepted];
    [reflexivity | reflexivity | reflexivity | reflexivity | vm_compute; discriminate |].
  split; [apply Hrefused; by left|].
  split; [vm_compute; discriminate|].
  apply Haccepted. reflexivity.
Defined.

(** C10.  [BlobUploads.put] compares the accumulated sha256 with the asserted
    digest after dropping its first 7 characters, whatever they are.  An
    asserted string is rejected exactly when its characters from index 7 on
    differ from the accumulated hex digest; every asserted string whose
    characters from index 7 on equal it finalizes the upload, and the blob is
    keyed by the asserted string as given, not by a normalized
    [sha256:<hex>] digest. *)
Theorem BlobUploads_put_unchecked_prefix `{Externals} request path pk_ db distribution r
    digest upload :
  wf db →
  get_dr_push path db = (db, Ok (distribution, r)) →
  Request.query_digest request = Some digest →
  uploads db !! pk_ = Some upload →
  Upload.repository upload = r →
  (str_drop 7 digest ≠ Upload.sha256 upload →
     BlobUploads_put request path pk_ db = (db, Raise DigestMismatch))
  ∧ (str_drop 7 digest = Upload.sha256 upload →
     ∃ db' blob media_type size repository' version,
       BlobUploads_put request path pk_ db
         = (db', Ok (Response 201 (BlobResponse_headers digest path size)))
       ∧ content db' !! blob = Some (Blob digest media_type)
       ∧ uploads db' !! pk_ = None
       ∧ repositories db' !! r = Some repository'
       ∧ latest_version repository' = Some version
       ∧ blob ∈ version).
Proof.
  intros Hwf Hpush Hdigest Hup Hrepo. split.
  - intros Hne. by eapply BlobUploads_put_mismatch.
  - intros Heq.
    destruct (BlobUploads_put_ok request path pk_ db distribution r digest upload)
      as (a & arow & blob & media_type & a' & repository & artifact
          & Hrepository & Hsha & Hrun & Hwf'); try done.
    cbn zeta in Hrun. rewrite Hrun.
    eexists _, blob, media_type, _, _, _. split; [reflexivity|]. simpl.
    rewrite !lookup_insert_eq, lookup_delete_eq.
    split; [done|]. split; [done|]. split; [done|].
    unfold latest_version. simpl. rewrite last_snoc. split; [done|]. set_solver.
Qed.

Lemma BlobUploads_put_unchecked_prefix_witness :
  ∃ db' blob media_type size repository' version,
    BlobUploads_put (lab_finalize "XXXXXXX6c61796572") "library/app" 7 lab_db
      = (db', Ok (Response 201
                    (BlobResponse_headers "XXXXXXX6c61796572" "library/app" size)))
    ∧ content db' !! blob = Some (Blob "XXXXXXX6c61796572" media_type)
    ∧ uploads db' !! 7%N = None
    ∧ repositories db' !! 10%N = Some repository'
    ∧ latest_version repository' = Some version
    ∧ blob ∈ version.
Proof.
  apply (BlobUploads_put_unchecked_prefix (lab_finalize "XXXXXXX6c61796572")
           "library/app" 7 lab_db (Distribution.mk (Some 10%N) None) 10
           "XXXXXXX6c61796572" lab_upload).
  - apply (bool_decide_unpack (wf lab_db)). vm_compute. exact I.
  - reflexivity.
  - reflexivity.
  - reflexivity.
  - reflexivity.
  - reflexivity.
Defined.

(** ** Uniqueness violations stay inside the views *)

Lemma contains_bind {A B} (c : M A) (k : A → M B) :
  contains_IntegrityError c → (∀ a, contains_IntegrityError (k a)) →
  contains_IntegrityError (c ≫= k).
Proof.
  intros Hc Hk db. unfold mbind, M_bind. specialize (Hc db).
  destruct (c db) as [db' [a|e]]; [apply Hk|].
  simpl in *. intros [= ->]. by apply Hc.
Qed.

Lemma contains_try_except {A} (c handler : M A) :
  contains_IntegrityError handler →
  contains_IntegrityError (try_except_IntegrityError c handler).
Proof.
  intros Hh db. unfold try_except_IntegrityError.
  destruct (c db) as [db' [a|[]]]; done.
Qed.

Lemma contains_mret {A} (a : A) : contains_IntegrityError (mret a).
Proof. by intros db. Qed.

Lemma contains_lift {A} (r : result A) :
  r ≠ Raise IntegrityError → contains_IntegrityError (lift r).
Proof. by intros Hr db. Qed.

Lemma queryset_get_not_IntegrityError {A} model (rows : list A) :
  queryset_get model rows ≠ Raise IntegrityError.
Proof. by destruct rows as [|? []]. Qed.

Lemma get_object_or_404_not_IntegrityError {A} model (rows : list A) :
  get_object_or_404 model rows ≠ Raise IntegrityError.
Proof. by destruct rows as [|? []]. Qed.

Lemma contains_get_dr_push path : contains_IntegrityError (get_dr_push path).
Proof.
  intros db. unfold get_dr_push.
  destruct (distributions db !! path) as [dist|]; [|done].
  destruct (Distribution.repository dist) as [r|]; [|done].
  destruct (repositories db !! r) as [repo|]; [|done].
  by destruct (PUSH_ENABLED repo).
Qed.

Lemma contains_new_version r body : contains_IntegrityError (new_version r body).
Proof. intros db. unfold new_version. by destruct (repositories db !! r). Qed.

Lemma contains__artifacts_get c : contains_IntegrityError (_artifacts_get c).
Proof.
  intros db. unfold _artifacts_get.
  pose proof (queryset_get_not_IntegrityError "Artifact" (_artifacts c db)) as Hq.
  destruct (queryset_get _ _) as [[? a]|e].
  - by destruct (artifacts db !! a).
  - simpl. intros [= ->]. by apply Hq.
Qed.

Lemma contains_put_artifact upload : contains_IntegrityError (put_artifact upload).
Proof.
  apply contains_try_except. intros db. apply queryset_get_not_IntegrityError.
Qed.

Lemma contains_receive_artifact `{Externals} chunk :
  contains_IntegrityError (receive_artifact chunk).
Proof.
  unfold receive_artifact. destruct (receive_loop _ _ _ _ _) as [[? ?] ?].
  apply contains_try_except. intros db. apply queryset_get_not_IntegrityError.
Qed.

Lemma contains_put_blob `{Externals} digest : contains_IntegrityError (put_blob digest).
Proof.
  apply contains_try_except. intros db. apply queryset_get_not_IntegrityError.
Qed.

Lemma contains_put_manifest digest media_type config_blob :
  contains_IntegrityError (put_manifest digest media_type config_blob).
Proof.
  apply contains_try_except. intros db. apply queryset_get_not_IntegrityError.
Qed.

Lemma py_get_not_IntegrityError value key : py_get value key ≠ Raise IntegrityError.
Proof. by destruct value. Qed.

Lemma layer_digests_not_IntegrityError layers blobs :
  layer_digests layers blobs ≠ Raise IntegrityError.
Proof.
  revert blobs. induction layers as [|layer layers IH]; intros blobs; [done|].
  simpl. pose proof (py_get_not_IntegrityError layer "digest") as Hget.
  destruct (py_get layer "digest"); [apply IH|].
  intros [= ->]. by apply Hget.
Qed.

Lemma contains_BlobUploads_put `{Externals} request path pk_ :
  contains_IntegrityError (BlobUploads_put request path pk_).
Proof.
  unfold BlobUploads_put.
  apply contains_bind; [apply contains_get_dr_push|]. intros [_ repository].
  apply contains_bind.
  { apply contains_lift. unfold query_params_digest. by destruct (Request.query_digest _). }
  intros digest. apply contains_bind; [done|]. intros db.
  apply contains_bind; [apply contains_lift, queryset_get_not_IntegrityError|].
  intros [_ upload]. case_bool_decide; [|done].
  apply contains_bind; [apply contains_put_artifact|]. intros artifact.
  apply contains_bind; [apply contains_put_blob|]. intros blob.
  apply contains_bind; [by apply contains_try_except|]. intros _.
  apply contains_bind; [apply contains_new_version|]. intros _.
  apply contains_bind; [done|]. intros _.
  apply contains_bind; [apply contains__artifacts_get|]. intros artifact'.
  apply contains_mret.
Qed.

Lemma contains_Manifests_put `{Externals} request path name :
  contains_IntegrityError (Manifests_put request path name).
Proof.
  unfold Manifests_put.
  apply contains_bind; [apply contains_get_dr_push|]. intros [_ repository].
  apply contains_bind; [apply contains_receive_artifact|]. intros artifact.
  apply contains_bind; [apply contains_lift; by destruct (json_loads _)|].
  intros content_data.
  apply contains_bind; [apply contains_lift, py_get_not_IntegrityError|].
  intros config_layer.
  apply contains_bind; [apply contains_lift, py_get_not_IntegrityError|].
  intros config_digest.
  apply contains_bind; [intros db; apply queryset_get_not_IntegrityError|].
  intros config_blob.
  apply contains_bind; [apply contains_put_manifest|]. intros manifest.
  apply contains_bind; [by apply contains_try_except|]. intros _.
  apply contains_bind; [apply contains_lift, py_get_not_IntegrityError|].
  intros layers.
  apply contains_bind; [apply contains_lift; by destruct layers|]. intros layers'.
  apply contains_bind; [apply contains_lift, layer_digests_not_IntegrityError|].
  intros blobs. apply contains_bind; [done|]. intros db.
  apply contains_bind; [done|]. intros _.
  apply contains_bind; [by apply contains_try_except|]. intros _.
  apply contains_bind; [apply contains_new_version|]. intros _.
  apply contains_bind; [apply contains__artifacts_get|]. intros artifact'.
  apply contains_mret.
Qed.

(** C4.  Creating a content-addressed row whose key is taken never surfaces
    the uniqueness violation: the [except IntegrityError] branch fetches the
    row that holds the key and the view goes on with it, leaving the store as
    it was.  This holds for the [Artifact] (by sha256) of a finalized upload
    and of a received manifest, for the [Blob] (by digest) and for the
    [Manifest] (by digest); and neither push view ever fails with
    [IntegrityError]. *)
Theorem content_addressed_creation_is_idempotent `{Externals} db :
  wf db →
  (∀ upload p a,
     artifacts db !! p = Some a → Artifact.sha256 a = Upload.sha256 upload →
     put_artifact upload db = (db, Ok (p, a)))
  ∧ (∀ chunk p a,
       artifacts db !! p = Some a → Artifact.sha256 a = hashlib sha256 chunk →
       receive_artifact chunk db = (db, Ok (p, a)))
  ∧ (∀ digest p media_type,
       content db !! p = Some (Blob digest media_type) →
       put_blob digest db = (db, Ok (p, Blob digest media_type)))
  ∧ (∀ digest media_type config_blob p sv mt cb,
       content db !! p = Some (Manifest digest sv mt cb) →
       put_manifest digest media_type config_blob db
         = (db, Ok (p, Manifest digest sv mt cb)))
  ∧ (∀ request path pk_, (BlobUploads_put request path pk_ db).2 ≠ Raise DuplicateKey)
  ∧ (∀ request path name, (Manifests_put request path name db).2 ≠ Raise DuplicateKey).
Proof.
  intros Hwf.
  assert (∀ x p a,
            artifacts db !! p = Some a → Artifact.sha256 a = Artifact.sha256 x →
            try_except_IntegrityError (Artifact_save x)
              (Artifact_objects_get (Artifact.sha256 x)) db = (db, Ok (p, a))) as Hartifact.
  { intros x p a Hp Hsha.
    destruct (Artifact_save_or_get x db (wf_artifacts _ Hwf))
      as (p' & row & db' & -> & Hsha' & [[Hp' ->]|(_ & _ & _ & Hfree)]).
    - assert (p = p') as <-
        by (eapply unique_artifacts_lookup; eauto using wf_artifacts; congruence).
      congruence.
    - by destruct (Hfree p a Hp). }
  assert (∀ row model (Q : pk * Content → Prop) `{∀ x, Decision (Q x)} p c,
            (∀ kv, Q kv ↔ same_key row kv.2) →
            content db !! p = Some c → same_key row c →
            try_except_IntegrityError (Content_save row)
              (λ db, (db, queryset_get model (objects_filter (content db) Q))) db
              = (db, Ok (p, c))) as Hcontent.
  { intros row model Q ? p c HQ Hp Hkey.
    destruct (Content_save_or_get row model Q db (wf_content _ Hwf) HQ)
      as (p' & c' & db' & -> & Hkey' & [[Hp' ->]|(_ & _ & _ & Hfree)]).
    - assert (p = p') as <-.
      { eapply unique_content_lookup; eauto using wf_content.
        eapply same_key_trans; [|exact Hkey']. by apply same_key_sym. }
      congruence.
    - by destruct (Hfree p c Hp). }
  split; [|split; [|split; [|split; [|split]]]].
  - intros upload p a Hp Hsha. unfold put_artifact. by apply Hartifact.
  - intros chunk p a Hp Hsha. unfold receive_artifact.
    rewrite receive_loop_all by lia. by apply Hartifact.
  - intros digest p media_type Hp.
    apply (Hcontent (Blob digest REGULAR_BLOB) "Blob"
             (λ kv, is_blob_with_digest (Some digest) kv.2)); [|done|done].
    intros [k []]; simpl; split; congruence.
  - intros digest media_type config_blob p sv mt cb Hp.
    apply (Hcontent (Manifest digest 2 media_type config_blob) "Manifest"
             (λ kv, is_manifest_with_digest digest kv.2)); [|done|done].
    by intros [k []].
  - intros request path pk_. apply contains_BlobUploads_put.
  - intros request path name. apply contains_Manifests_put.
Qed.

Lemma content_addressed_creation_is_idempotent_witness :
  put_blob "sha256:c0" lab_db = (lab_db, Ok (1%N, Blob "sha256:c0" REGULAR_BLOB))
  ∧ receive_artifact [] lab_db = (lab_db, Ok (1%N, config_artifact)).
Proof.
  destruct (content_addressed_creation_is_idempotent lab_db)
    as (_ & Hreceive & Hblob & _).
  - apply (bool_decide_unpack (wf lab_db)). vm_compute. exact I.
  - split; [by apply Hblob|by apply Hreceive].
Defined.

(** ** Manifest ingestion *)

Lemma Blob_objects_get_Ok db p digest media_type :
  unique_content db →
  content db !! p = Some (Blob digest media_type) →
  Blob_objects_get (Some digest) db = (db, Ok (p, Blob digest media_type)).
Proof.
  intros Huniq Hp. unfold Blob_objects_get.
  rewrite (objects_filter_singleton _ _ p (Blob digest media_type)); [done|done|done|].
  intros k' [d' mt'| |] Hk' Hd'; simpl in Hd'; try done.
  injection Hd' as <-. by eapply (unique_content_lookup db k' p).
Qed.

(** An ingestion that gets through, start to end: the state it leaves and
    the response. *)
Lemma Manifests_put_ok `{Externals} request path name db r config blobs :
  ingestible db request path r config blobs →
  ∃ a arow m sv mt cb a' t repository,
    let digest := "sha256:" +:+ hashlib sha256 (Request.body request) in
    let db1 := set_artifacts (insert a arow) db in
    let db2 := set_content (insert m (Manifest digest sv mt cb)) db1 in
    let db3 := set_content_artifacts (insert (m, digest) a') db2 in
    let thru := (λ blob, (m, blob.1)) <$> Blob_objects_filter_digest_in blobs db3 in
    let db4 := set_blob_manifests (λ links, links ∪ list_to_set thru) db3 in
    let db5 := set_content (insert t (Tag name m)) db4 in
    let version :=
      (default ∅ (latest_version repository) ∪ {[m]})
        ∖ list_to_set (objects_filter (content db5) (λ kv, is_tag_named name kv.2)).*1
        ∪ {[t]} in
    let db6 :=
      set_repositories
        (insert r (Repository.mk (Repository.name repository) (Repository.type repository)
                     (Repository.versions repository ++ [version]))) db5 in
    repositories db !! r = Some repository
    ∧ (content db !! m = None ∨ content db !! m = Some (Manifest digest sv mt cb))
    ∧ (content db2 !! t = None ∨ content db2 !! t = Some (Tag name m))
    ∧ Manifests_put request path name db
      = (db6, Ok (Response 201 (ManifestResponse_headers digest path)))
    ∧ wf db6.
Proof.
  intros [Hwf Hstored [distribution Hpush]
            (content_data & config_layer & config_digest & cdigest & cmt & items
             & Hloads & Hconfig & Hcdigest & Hlookup & Hblob & Hlayers & Hdigests)].
  destruct (get_dr_push_Ok _ _ _ _ _ Hpush) as [_ (repository & Hrepository & _)].
  destruct (receive_artifact_ok _ db Hwf Hstored) as (a & arow & Hrecv & Hsha & Hfile & Hwf1).
  set (db1 := set_artifacts (insert a arow) db) in *.
  pose proof (Blob_objects_get_Ok db1 config cdigest cmt (wf_content _ Hwf1) Hblob)
    as Hcfg.
  set (digest := "sha256:" +:+ hashlib sha256 (Request.body request)).
  destruct (put_manifest_ok digest (Request.content_type request) config db1 Hwf1)
    as (m & sv & mt & cb & Hman & Hwf2 & Hm_old).
  set (db2 := set_content (insert m (Manifest digest sv mt cb)) db1) in *.
  destruct (put_blob_artifact_ok a m (Manifest digest sv mt cb) db2 Hwf2)
    as (a' & Hlink & Hwf3).
  { simpl. rewrite lookup_insert_eq. eauto. }
  { simpl. by rewrite lookup_insert_eq. }
  { done. }
  simpl Content_digest in Hlink, Hwf3.
  set (db3 := set_content_artifacts (insert (m, digest) a') db2) in *.
  set (thru := (λ blob : pk * Content, (m, blob.1))
                 <$> Blob_objects_filter_digest_in blobs db3).
  set (db4 := set_blob_manifests (λ links, links ∪ list_to_set thru) db3).
  assert (wf db4) as Hwf4 by (by apply (wf_frame db3)).
  destruct (put_tag_ok name m db4 Hwf4) as (t & Htag & Hwf5 & Ht_old).
  set (db5 := set_content (insert t (Tag name m)) db4) in *.
  assert (objects_filter (content db5) (λ kv, is_manifest_with_digest digest kv.2)
          = [(m, Manifest digest sv mt cb)]) as Hqs_manifest.
  { assert (content db5 !! m = Some (Manifest digest sv mt cb)) as Hm.
    { simpl. destruct (decide (t = m)) as [->|Hne].
      - destruct Ht_old as [Hold|Hold]; simpl in Hold;
          by rewrite lookup_insert_eq in Hold.
      - rewrite lookup_insert_ne by done. by rewrite lookup_insert_eq. }
    apply objects_filter_singleton; [done|done|].
    intros k' [|d' sv' mt' cb'|] Hk' Hd'; simpl in Hd'; try done. subst d'.
    by eapply (unique_content_lookup db5 k' m); eauto using wf_content. }
  assert (objects_filter (content db5) (λ kv, is_tag name m kv.2) = [(t, Tag name m)])
    as Hqs_tag.
  { apply objects_filter_singleton; [simpl; by rewrite lookup_insert_eq|done|].
    intros k' [| |n' m'] Hk' Hd'; simpl in Hd'; try done. destruct Hd' as [-> ->].
    apply (unique_content_lookup db5 k' t (Tag name m) (Tag name m));
      [by apply wf_content|done| |done].
    simpl. by rewrite lookup_insert_eq. }
  pose proof (new_version_Ok r
    (λ db new_version,
       let new_version :=
         add_content (objects_filter (content db)
                        (λ kv, is_manifest_with_digest digest kv.2)) new_version in
       let new_version :=
         remove_content (objects_filter (content db) (λ kv, is_tag_named name kv.2))
                        new_version in
       add_content (objects_filter (content db) (λ kv, is_tag name m kv.2)) new_version)
    db5 repository Hrepository) as Hversion.
  cbn beta zeta in Hversion.
  rewrite Hqs_manifest, Hqs_tag, !add_content_singleton in Hversion.
  unfold remove_content in Hversion.
  set (db6 := set_repositories _ db5) in Hversion.
  assert (wf db6) as Hwf6 by (by apply (wf_frame db5)).
  destruct (_artifacts_get_ok m (Manifest digest sv mt cb) db6 Hwf6) as [artifact Hget].
  { simpl. destruct (decide (t = m)) as [->|Hne].
    - destruct Ht_old as [Hold|Hold]; simpl in Hold;
        by rewrite lookup_insert_eq in Hold.
    - rewrite lookup_insert_ne by done. by rewrite lookup_insert_eq. }
  { done. }
  { simpl. rewrite lookup_insert_eq. eauto. }
  exists a, arow, m, sv, mt, cb, a', t, repository.
  cbn zeta. fold digest. fold db1. fold db2. fold db3. fold thru. fold db4. fold db5.
  fold db6.
  split; [done|]. split; [done|]. split; [done|]. split; [|done].
  unfold Manifests_put.
  rewrite (bind_Ok _ _ _ _ _ Hpush). cbn beta iota.
  rewrite (bind_Ok _ _ _ _ _ Hrecv). cbn [fst snd].
  rewrite Hfile, Hloads, (bind_lift_Ok _ _ _ content_data eq_refl).
  rewrite (bind_lift_Ok _ _ _ config_layer Hconfig).
  rewrite (bind_lift_Ok _ _ _ config_digest Hcdigest).
  rewrite Hlookup, (bind_Ok _ _ _ _ _ Hcfg). cbn [fst snd].
  rewrite Hsha. fold digest. rewrite (bind_Ok _ _ _ _ _ Hman). cbn [fst snd].
  change (put_manifest_artifact a m (Content_digest (Manifest digest sv mt cb)))
    with (put_blob_artifact a m digest).
  rewrite (bind_Ok _ _ _ _ _ Hlink).
  rewrite (bind_lift_Ok _ _ _ (JArr items) Hlayers).
  rewrite (bind_lift_Ok _ _ _ items eq_refl).
  rewrite (bind_lift_Ok _ _ _ blobs Hdigests), bind_get_db.
  unfold mbind at 1, M_bind at 1, BlobManifest_bulk_create at 1.
  fold thru. fold db4.
  rewrite (bind_Ok _ _ _ _ _ Htag).
  cbn [Content_digest snd fst].
  rewrite (bind_Ok _ _ _ _ _ Hversion).
  unfold ManifestResponse. by rewrite (bind_Ok _ _ _ _ _ Hget).
Qed.

Lemma Blob_objects_get_DoesNotExist db digest :
  map_Forall (λ _ c, ¬ is_blob_with_digest digest c) (content db) →
  Blob_objects_get digest db = (db, Raise (DoesNotExist "Blob")).
Proof.
  intros Hnone. unfold Blob_objects_get. rewrite objects_filter_nil; [done|].
  intros k v Hk. exact (map_Forall_lookup_1 _ _ _ _ Hnone Hk).
Qed.

(** C2.  Ingesting a manifest ([Manifests.put]) whose body names a config
    digest for which no blob exists fails with [UnresolvedReference], and
    nothing of the aborted ingestion is published: the content table has no
    new [Manifest] or [Tag] row, no repository has a new version, and no
    link was made. *)
Theorem Manifests_put_unresolved_config `{Externals} request path name db distribution r
    content_data config_layer config_digest :
  wf db →
  stored_faithfully (Request.body request) db →
  get_dr_push path db = (db, Ok (distribution, r)) →
  json_loads (Request.body request) = Some content_data →
  py_get content_data "config" = Ok config_layer →
  py_get config_layer "digest" = Ok config_digest →
  map_Forall (λ _ c, ¬ is_blob_with_digest (lookup_value config_digest) c) (content db) →
  ∃ db',
    Manifests_put request path name db = (db', Raise UnresolvedReference)
    ∧ content db' = content db
    ∧ repositories db' = repositories db
    ∧ blob_manifests db' = blob_manifests db
    ∧ content_artifacts db' = content_artifacts db.
Proof.
  intros Hwf Hstored Hpush Hloads Hconfig Hdigest Hnone.
  destruct (receive_artifact_ok _ db Hwf Hstored) as (a & arow & Hrecv & Hsha & Hfile & Hwf1).
  exists (set_artifacts (insert a arow) db). split; [|done].
  unfold Manifests_put.
  rewrite (bind_Ok _ _ _ _ _ Hpush). cbn beta iota.
  rewrite (bind_Ok _ _ _ _ _ Hrecv). cbn [fst snd].
  rewrite Hfile, Hloads, (bind_lift_Ok _ _ _ content_data eq_refl).
  rewrite (bind_lift_Ok _ _ _ config_layer Hconfig).
  rewrite (bind_lift_Ok _ _ _ config_digest Hdigest).
  apply bind_Raise. by apply Blob_objects_get_DoesNotExist.
Qed.

Lemma Manifests_put_unresolved_config_witness :
  ∃ db',
    Manifests_put lab_push "library/app" "latest" lab_new_db
      = (db', Raise UnresolvedReference)
    ∧ content db' = content lab_new_db
    ∧ repositories db' = repositories lab_new_db
    ∧ blob_manifests db' = blob_manifests lab_new_db
    ∧ content_artifacts db' = content_artifacts lab_new_db.
Proof.
  apply (Manifests_put_unresolved_config lab_push "library/app" "latest" lab_new_db
           (Distribution.mk (Some 10%N) None) 10 manifest_document
           (JObj [("digest", JStr "sha256:c0")]) (JStr "sha256:c0")).
  - apply (bool_decide_unpack (wf lab_new_db)). vm_compute. exact I.
  - apply (bool_decide_unpack (stored_faithfully (Request.body lab_push) lab_new_db)).
    vm_compute. exact I.
  - reflexivity.
  - reflexivity.
  - reflexivity.
  - reflexivity.
  - apply (bool_decide_unpack
             (map_Forall (λ _ c, ¬ is_blob_with_digest (Some "sha256:c0") c)
                         (content lab_new_db))).
    vm_compute. exact I.
Defined.

(** The push of [manifest_text] to the small registry gets through; of its
    two layers, [sha256:1a] names blob 4 and [sha256:ff] names no blob. *)
Lemma lab_push_ingestible :
  ingestible lab_db lab_push "library/app" 10 1 [JStr "sha256:1a"; JStr "sha256:ff"].
Proof.
  split.
  - apply (bool_decide_unpack (wf lab_db)). vm_compute. exact I.
  - apply (bool_decide_unpack (stored_faithfully (Request.body lab_push) lab_db)).
    vm_compute. exact I.
  - by exists (Distribution.mk (Some 10%N) None).
  - exists manifest_document, (JObj [("digest", JStr "sha256:c0")]), (JStr "sha256:c0"),
      "sha256:c0", REGULAR_BLOB,
      [JObj [("digest", JStr "sha256:1a")]; JObj [("digest", JStr "sha256:ff")]].
    repeat split; reflexivity.
Defined.



(** C5.  Pushing a manifest under a tag name that the repository already has
    for a manifest of another digest publishes a new version in which exactly
    one tag has that name, and it points at the manifest just pushed.  The
    tag row of the previous manifest is still in the content table, and is
    not in the new version. *)
Theorem Manifests_put_retag `{Externals} request path name db r config blobs :
  ingestible db request path r config blobs →
  ∃ db' m sv mt cb t repository repository' version,
    let digest := "sha256:" +:+ hashlib sha256 (Request.body request) in
    Manifests_put request path name db
      = (db', Ok (Response 201 (ManifestResponse_headers digest path)))
    ∧ repositories db !! r = Some repository
    ∧ repositories db' !! r = Some repository'
    ∧ Repository.versions repository' = Repository.versions repository ++ [version]
    ∧ content db' !! m = Some (Manifest digest sv mt cb)
    ∧ content db' !! t = Some (Tag name m)
    ∧ t ∈ version
    ∧ (∀ t' m', content db' !! t' = Some (Tag name m') → t' ∈ version → t' = t)
    ∧ (∀ t_old m_old d sv' mt' cb',
         content db !! t_old = Some (Tag name m_old) →
         content db !! m_old = Some (Manifest d sv' mt' cb') →
         d ≠ digest →
         content db' !! t_old = Some (Tag name m_old) ∧ t_old ∉ version).
Proof.
  intros Hingest.
  destruct (Manifests_put_ok request path name db r config blobs Hingest)
    as (a & arow & m & sv & mt & cb & a' & t & repository
        & Hrepository & Hm_old & Ht_old & Hrun & Hwf6).
  cbn zeta in *. simpl in Hm_old, Ht_old.
  set (digest := "sha256:" +:+ hashlib sha256 (Request.body request)) in *.
  assert (t ≠ m) as Htm.
  { intros ->. rewrite lookup_insert_eq in Ht_old. by destruct Ht_old. }
  eexists _, m, sv, mt, cb, t, repository, _, _. cbn zeta.
  split; [exact Hrun|]. simpl content. simpl repositories.
  split; [done|]. split; [by rewrite lookup_insert_eq|]. split; [done|].
  split; [rewrite lookup_insert_ne by done; by rewrite lookup_insert_eq|].
  split; [by rewrite lookup_insert_eq|].
  split; [apply elem_of_union; right; by apply elem_of_singleton|].
  assert (∀ x m', <[t:=Tag name m]> (<[m:=Manifest digest sv mt cb]> (content db)) !! x
                    = Some (Tag name m') →
            x ∈@{gset pk} list_to_set
                  (objects_filter
                     (<[t:=Tag name m]> (<[m:=Manifest digest sv mt cb]> (content db)))
                     (λ kv, is_tag_named name kv.2)).*1) as Hnamed.
  { intros x m' Hx. apply elem_of_list_to_set, list_elem_of_fmap.
    exists (x, Tag name m'). split; [done|]. by apply elem_of_objects_filter. }
  split.
  - intros t' m' Ht' Hin. apply Hnamed in Ht'.
    apply elem_of_union in Hin as [Hin|Hin]; [|by apply elem_of_singleton in Hin].
    by apply elem_of_difference in Hin as [_ Hnot].
  - intros t_old m_old d sv' mt' cb' Hold Hmanifest Hd.
    assert (m_old ≠ m) as Hmm.
    { intros ->. destruct Hm_old as [Hnone|Hsome]; [congruence|].
      rewrite Hsome in Hmanifest. by injection Hmanifest as <-. }
    assert (t_old ≠ m) as Hom.
    { intros ->. destruct Hm_old as [Hnone|Hsome]; congruence. }
    assert (t_old ≠ t) as Hot.
    { intros ->. rewrite lookup_insert_ne in Ht_old by done.
      destruct Ht_old as [Hnone|Hsome]; congruence. }
    assert (<[t:=Tag name m]> (<[m:=Manifest digest sv mt cb]> (content db)) !! t_old
            = Some (Tag name m_old)) as Hkept
      by by rewrite !lookup_insert_ne.
    split; [done|]. apply Hnamed in Hkept. intros Hin.
    apply elem_of_union in Hin as [Hin|Hin]; [|by apply elem_of_singleton in Hin].
    by apply elem_of_difference in Hin as [_ Hnot].
Qed.

Lemma Manifests_put_retag_witness :
  ∃ db' m t repository' version,
    (Manifests_put lab_push "library/app" "latest" lab_db).1 = db'
    ∧ repositories db' !! 10%N = Some repository'
    ∧ Repository.versions repository' = [∅; {[1%N; 2%N; 3%N; 4%N]}; version]
    ∧ content db' !! t = Some (Tag "latest" m)
    ∧ t ∈ version
    ∧ (∀ t' m', content db' !! t' = Some (Tag "latest" m') → t' ∈ version → t' = t)
    ∧ content db' !! 3%N = Some (Tag "latest" 2)
    ∧ 3%N ∉ version.
Proof.
  destruct (Manifests_put_retag lab_push "library/app" "latest" lab_db
              10 1 [JStr "sha256:1a"; JStr "sha256:ff"] lab_push_ingestible)
    as (db' & m & sv & mt & cb & t & repository & repository' & version
        & Hrun & Hrepository & Hrepository' & Hversions & Hm & Ht & Hin & Hone & Hold).
  injection Hrepository as <-.
  destruct (Hold 3%N 2%N "sha256:0d" 2
              "application/vnd.docker.distribution.manifest.v2+json" 1%N)
    as [Hkept Hout]; [reflexivity | reflexivity | vm_compute; discriminate |].
  exists db', m, t, repository', version.
  rewrite Hrun. repeat split; assumption.
Defined.

(** * The rest of the registry API *)

(** ** The store only grows *)

Lemma versions_kept_refl db : versions_kept db db.
Proof.
  apply map_Forall_lookup. intros r repository Hr. by exists repository.
Qed.

Lemma versions_kept_same db db' :
  repositories db' = repositories db → versions_kept db db'.
Proof. unfold versions_kept. intros ->. apply versions_kept_refl. Qed.

Lemma versions_kept_trans db1 db2 db3 :
  versions_kept db1 db2 → versions_kept db2 db3 → versions_kept db1 db3.
Proof.
  intros H12 H23. apply map_Forall_lookup. intros r repository Hr.
  destruct (map_Forall_lookup_1 _ _ _ _ H12 Hr) as (r2 & Hr2 & Hn2 & Ht2 & Hv2).
  destruct (map_Forall_lookup_1 _ _ _ _ H23 Hr2) as (r3 & Hr3 & Hn3 & Ht3 & Hv3).
  exists r3. split; [done|]. split; [congruence|]. split; [congruence|].
  by etrans.
Qed.

Lemma extends_refl db : extends db db.
Proof. split; try reflexivity. apply versions_kept_refl. Qed.

(** One table changed and grew; the others are as they were. *)
Ltac extends_table :=
  split; simpl;
  first [ reflexivity | by apply versions_kept_same | by apply insert_subseteq
        | set_solver | idtac ].

Lemma extends_trans db1 db2 db3 : extends db1 db2 → extends db2 db3 → extends db1 db3.
Proof.
  intros [] []. split; try (by etrans). by eapply versions_kept_trans.
Qed.

Lemma reads_appends {A} (c : M A) : reads c → appends c.
Proof. intros Hc db. rewrite Hc. apply extends_refl. Qed.

Lemma appends_bind {A B} (c : M A) (k : A → M B) :
  appends c → (∀ a, appends (k a)) → appends (c ≫= k).
Proof.
  intros Hc Hk db. unfold mbind, M_bind. specialize (Hc db).
  destruct (c db) as [db' [a|e]]; [|done].
  eapply extends_trans; [exact Hc|apply Hk].
Qed.

Lemma reads_bind {A B} (c : M A) (k : A → M B) :
  reads c → (∀ a, reads (k a)) → reads (c ≫= k).
Proof.
  intros Hc Hk db. unfold mbind, M_bind. specialize (Hc db).
  destruct (c db) as [db' [a|e]]; simpl in *; [|done].
  subst db'. apply Hk.
Qed.

Lemma reads_mret {A} (a : A) : reads (mret a).
Proof. by intros db. Qed.

Lemma reads_raise {A} e : reads (raise e : M A).
Proof. by intros db. Qed.

Lemma reads_lift {A} (r : result A) : reads (lift r).
Proof. by intros db. Qed.

Lemma reads_get_db : reads get_db.
Proof. by intros db. Qed.

Lemma appends_try_except_IntegrityError {A} (c handler : M A) :
  appends c → appends handler → appends (try_except_IntegrityError c handler).
Proof.
  intros Hc Hh db. unfold try_except_IntegrityError. specialize (Hc db).
  destruct (c db) as [db' [a|[]]]; try done.
  eapply extends_trans; [exact Hc|apply Hh].
Qed.

Lemma reads_get_dr_push path : reads (get_dr_push path).
Proof.
  intros db. unfold get_dr_push.
  destruct (distributions db !! path) as [dist|]; [|done].
  destruct (Distribution.repository dist) as [r|]; [|done].
  destruct (repositories db !! r) as [repo|]; [|done].
  by destruct (PUSH_ENABLED repo).
Qed.

Lemma reads_get_drv_pull path : reads (get_drv_pull path).
Proof.
  intros db. unfold get_drv_pull.
  destruct (get_object_or_404 _ _) as [[? dist]|]; [|done].
  destruct (Distribution.repository dist) as [r|].
  - by destruct (repositories db !! r).
  - destruct (Distribution.repository_version dist) as [[r n]|]; [|done].
    by destruct (repositories db !! r).
Qed.

Lemma reads__artifacts_get c : reads (_artifacts_get c).
Proof.
  intros db. unfold _artifacts_get.
  destruct (queryset_get _ _) as [[? a]|e]; [|done].
  by destruct (artifacts db !! a).
Qed.

Lemma reads_BlobResponse blob path status : reads (BlobResponse blob path status).
Proof. apply reads_bind; [apply reads__artifacts_get|]. intros. apply reads_mret. Qed.

Lemma reads_ManifestResponse manifest path status :
  reads (ManifestResponse manifest path status).
Proof. apply reads_bind; [apply reads__artifacts_get|]. intros. apply reads_mret. Qed.

Lemma reads_tagged_manifest tag : reads (tagged_manifest tag).
Proof. intros db. apply tagged_manifest_state. Qed.

(** Inserting under a key that is free, in each table. *)
Lemma extends_insert_artifact db p a :
  artifacts db !! p = None → extends db (set_artifacts (insert p a) db).
Proof.
  intros Hp. extends_table.
Qed.

Lemma extends_insert_content db p c :
  content db !! p = None → extends db (set_content (insert p c) db).
Proof.
  intros Hp. extends_table.
Qed.

Lemma extends_insert_content_artifact db key a :
  content_artifacts db !! key = None →
  extends db (set_content_artifacts (insert key a) db).
Proof.
  intros Hp. extends_table.
Qed.

Lemma extends_set_uploads db f : extends db (set_uploads f db).
Proof. extends_table. Qed.

Lemma appends_Artifact_save a : appends (Artifact_save a).
Proof.
  intros db. unfold Artifact_save.
  destruct (objects_filter _ _); [|apply extends_refl].
  apply extends_insert_artifact, fresh_lookup.
Qed.

Lemma appends_Content_save row : appends (Content_save row).
Proof.
  intros db. unfold Content_save.
  destruct (objects_filter _ _); [|apply extends_refl].
  apply extends_insert_content, fresh_lookup.
Qed.

Lemma appends_ContentArtifact_save artifact c relative_path :
  appends (ContentArtifact_save artifact c relative_path).
Proof.
  intros db. unfold ContentArtifact_save.
  destruct (content_artifacts db !! _) eqn:Hkey; [apply extends_refl|].
  by apply extends_insert_content_artifact.
Qed.

Lemma appends_new_version r body : appends (new_version r body).
Proof.
  intros db. unfold new_version.
  destruct (repositories db !! r) as [repository|] eqn:Hr; [|apply extends_refl].
  extends_table.
  apply map_Forall_lookup. intros r' repository' Hr'. simpl.
  destruct (decide (r' = r)) as [->|Hne].
  - rewrite lookup_insert_eq. eexists. split; [done|]. simpl.
    assert (repository' = repository) as -> by congruence.
    split; [done|]. split; [done|]. by apply prefix_app_r.
  - rewrite lookup_insert_ne by done. by exists repository'.
Qed.

Lemma appends_BlobManifest_bulk_create thru : appends (BlobManifest_bulk_create thru).
Proof.
  intros db. extends_table.
Qed.

Lemma appends_put_artifact upload : appends (put_artifact upload).
Proof.
  apply appends_try_except_IntegrityError; [apply appends_Artifact_save|].
  by apply reads_appends.
Qed.

Lemma appends_receive_artifact `{Externals} chunk : appends (receive_artifact chunk).
Proof.
  unfold receive_artifact. destruct (receive_loop _ _ _ _ _) as [[? ?] ?].
  apply appends_try_except_IntegrityError; [apply appends_Artifact_save|].
  by apply reads_appends.
Qed.

Lemma appends_put_blob `{Externals} digest : appends (put_blob digest).
Proof.
  apply appends_try_except_IntegrityError; [apply appends_Content_save|].
  by apply reads_appends.
Qed.

Lemma appends_put_manifest digest media_type config_blob :
  appends (put_manifest digest media_type config_blob).
Proof.
  apply appends_try_except_IntegrityError; [apply appends_Content_save|].
  by apply reads_appends.
Qed.

Lemma appends_put_blob_artifact artifact blob digest :
  appends (put_blob_artifact artifact blob digest).
Proof.
  apply appends_try_except_IntegrityError; [apply appends_ContentArtifact_save|].
  by apply reads_appends.
Qed.

Lemma appends_put_tag name manifest : appends (put_tag name manifest).
Proof.
  apply appends_try_except_IntegrityError; [|by apply reads_appends].
  apply appends_bind; [apply appends_Content_save|]. intros. by apply reads_appends.
Qed.

Lemma appends_BlobUploads_put `{Externals} request path pk_ :
  appends (BlobUploads_put request path pk_).
Proof.
  unfold BlobUploads_put.
  apply appends_bind; [apply reads_appends, reads_get_dr_push|]. intros [_ repository].
  apply appends_bind; [by apply reads_appends|]. intros digest.
  apply appends_bind; [by apply reads_appends|]. intros db.
  apply appends_bind; [by apply reads_appends|]. intros [_ upload].
  case_bool_decide; [|by apply reads_appends].
  apply appends_bind; [apply appends_put_artifact|]. intros artifact.
  apply appends_bind; [apply appends_put_blob|]. intros blob.
  apply appends_bind; [apply appends_put_blob_artifact|]. intros _.
  apply appends_bind; [apply appends_new_version|]. intros _.
  apply appends_bind; [intros ?; apply extends_set_uploads|]. intros _.
  apply reads_appends, reads_BlobResponse.
Qed.

Lemma appends_BlobUploads_partial_update `{Externals} request path pk_ :
  appends (BlobUploads_partial_update request path pk_).
Proof.
  unfold BlobUploads_partial_update.
  apply appends_bind; [apply reads_appends, reads_get_dr_push|]. intros [_ repository].
  destruct (chunk_range request) as [[start end_] chunk_size].
  apply appends_bind; [by apply reads_appends|]. intros db.
  apply appends_bind; [by apply reads_appends|]. intros [_ upload].
  case_bool_decide; [by apply reads_appends|].
  apply appends_bind; [by apply reads_appends|]. intros size.
  apply appends_bind; [intros ?; apply extends_set_uploads|]. intros _.
  by apply reads_appends.
Qed.

Lemma appends_Manifests_put `{Externals} request path name :
  appends (Manifests_put request path name).
Proof.
  unfold Manifests_put.
  apply appends_bind; [apply reads_appends, reads_get_dr_push|]. intros [_ repository].
  apply appends_bind; [apply appends_receive_artifact|]. intros artifact.
  apply appends_bind; [by apply reads_appends|]. intros content_data.
  apply appends_bind; [by apply reads_appends|]. intros config_layer.
  apply appends_bind; [by apply reads_appends|]. intros config_digest.
  apply appends_bind; [by apply reads_appends|]. intros config_blob.
  apply appends_bind; [apply appends_put_manifest|]. intros manifest.
  apply appends_bind; [apply appends_put_blob_artifact|]. intros _.
  apply appends_bind; [by apply reads_appends|]. intros layers.
  apply appends_bind; [by apply reads_appends|]. intros layers'.
  apply appends_bind; [by apply reads_appends|]. intros blobs.
  apply appends_bind; [by apply reads_appends|]. intros db.
  apply appends_bind; [apply appends_BlobManifest_bulk_create|]. intros _.
  apply appends_bind; [apply appends_put_tag|]. intros _.
  apply appends_bind; [apply appends_new_version|]. intros _.
  apply reads_appends, reads_ManifestResponse.
Qed.

Lemma appends_transaction_atomic {A} (c : M A) :
  appends c → appends (transaction_atomic c).
Proof.
  intros Hc db. unfold transaction_atomic. specialize (Hc db).
  destruct (c db) as [db' [a|e]]; [done|apply extends_refl].
Qed.

Lemma appends_try_except_ValidationError {A} (c handler : M A) :
  appends c → appends handler → appends (try_except_ValidationError c handler).
Proof.
  intros Hc Hh db. unfold try_except_ValidationError. specialize (Hc db).
  destruct (c db) as [db' [a|[]]]; try done.
  eapply extends_trans; [exact Hc|apply Hh].
Qed.

Lemma reads_is_valid_or_raise valid : reads (is_valid_or_raise valid).
Proof. by destruct valid. Qed.

Lemma appends_ContainerPushRepositorySerializer_create name :
  appends (ContainerPushRepositorySerializer_create name).
Proof.
  intros db. unfold ContainerPushRepositorySerializer_create. extends_table.
  apply map_Forall_lookup. intros r repository Hr. simpl.
  exists repository. split; [|done].
  rewrite lookup_insert_ne; [done|]. intros <-.
  by rewrite fresh_lookup in Hr.
Qed.

Lemma appends_get_dr_push_with `{Provisioning} path create :
  appends (get_dr_push_with path create).
Proof.
  intros db. unfold get_dr_push_with.
  destruct (distributions db !! path) as [distribution|] eqn:Hpath.
  { rewrite reads_get_dr_push. apply extends_refl. }
  destruct create; [|apply extends_refl].
  revert db Hpath.
  assert (∀ db, distributions db !! path = None →
            extends db
              (transaction_atomic
                 (db ← get_db;
                  _ ← is_valid_or_raise (ContainerPushRepositorySerializer_is_valid path db);
                  repository ← ContainerPushRepositorySerializer_create path;
                  db ← get_db;
                  _ ← is_valid_or_raise
                        (ContainerDistributionSerializer_is_valid path repository db);
                  distribution ← ContainerDistributionSerializer_create path repository;
                  mret (Some distribution, Some repository)) db).1) as Hblock.
  { intros db Hpath. unfold transaction_atomic, mbind, M_bind, get_db.
    destruct (ContainerPushRepositorySerializer_is_valid path db);
      [|apply extends_refl]. simpl.
    destruct (ContainerDistributionSerializer_is_valid path _ _);
      [|apply extends_refl]. simpl.
    eapply extends_trans;
      [apply (appends_ContainerPushRepositorySerializer_create path db)|].
    extends_table. }
  intros db Hpath. specialize (Hblock db Hpath).
  unfold mbind at 1, M_bind at 1, try_except_ValidationError.
  destruct (transaction_atomic _ db) as [db' [[distribution repository]|e]]; simpl in *.
  - by destruct distribution, repository.
  - by destruct e.
Qed.

Lemma appends_BlobUploads_create `{Provisioning} request path :
  appends (BlobUploads_create request path).
Proof.
  unfold BlobUploads_create.
  apply appends_bind; [apply appends_get_dr_push_with|]. intros [_ repository].
  apply appends_bind; [intros ?; apply extends_set_uploads|]. intros upload_pk.
  by apply reads_appends.
Qed.

(** X1.  The push views only ever add to the store: whatever the request and
    however the view ends, every artifact, content row, content-artifact
    link, blob-manifest link and distribution that was there is still there,
    unchanged, and every repository still has the versions it had, in their
    order (a view can only publish one more).  This holds for
    [BlobUploads.create], [BlobUploads.partial_update], [BlobUploads.put]
    and [Manifests.put]. *)
Theorem push_views_append_only `{Externals} `{Provisioning} db :
  (∀ request path, extends db (BlobUploads_create request path db).1)
  ∧ (∀ request path pk_, extends db (BlobUploads_partial_update request path pk_ db).1)
  ∧ (∀ request path pk_, extends db (BlobUploads_put request path pk_ db).1)
  ∧ (∀ request path name, extends db (Manifests_put request path name db).1).
Proof.
  split; [|split; [|split]].
  - intros request path. apply appends_BlobUploads_create.
  - intros request path pk_. apply appends_BlobUploads_partial_update.
  - intros request path pk_. apply appends_BlobUploads_put.
  - intros request path name. apply appends_Manifests_put.
Qed.

(** ** Integrity is kept on every path *)

Lemma hoare_bind {A B} P (c : M A) Q (k : A → M B) R :
  hoare P c Q → (∀ a, hoare (Q a) (k a) R) → hoare P (c ≫= k) R.
Proof.
  intros Hc Hk db HP. unfold mbind, M_bind. specialize (Hc db HP).
  destruct (c db) as [db' [a|e]]; [by apply Hk|done].
Qed.

Lemma hoare_weaken {A} (P P' : DB → Prop) (c : M A) (Q Q' : A → DB → Prop) :
  hoare P c Q → (∀ db, P' db → P db) → (∀ a db, Q a db → Q' a db) → hoare P' c Q'.
Proof.
  intros Hc HP HQ db HP'. specialize (Hc db (HP db HP')).
  destruct (c db) as [db' [a|e]]; [by apply HQ|done].
Qed.

Lemma hoare_frame {A} P (c : M A) Q F :
  hoare P c Q → appends c → stable F →
  hoare (λ db, P db ∧ F db) c (λ a db, Q a db ∧ F db).
Proof.
  intros Hc Happ HF db [HP HFdb]. specialize (Hc db HP). specialize (Happ db).
  destruct (c db) as [db' [a|e]]; [|done].
  split; [done|]. by eapply HF.
Qed.

(** A computation that leaves the store alone keeps whatever held. *)
Lemma hoare_reads {A} (P : DB → Prop) (c : M A) :
  reads c → (∀ db, P db → integrity db) → hoare P c (λ _ db, P db).
Proof.
  intros Hc HP db HPdb. specialize (Hc db).
  destruct (c db) as [db' [a|e]]; simpl in Hc; subst db'; [done|by apply HP].
Qed.

Lemma hoare_reads_result {A} (P : DB → Prop) (c : M A) (Q : A → DB → Prop) :
  (∀ db, P db → integrity db) →
  (∀ db db' a, P db → c db = (db', Ok a) → db' = db ∧ Q a db) →
  reads c →
  hoare P c (λ a db, P db ∧ Q a db).
Proof.
  intros HP HQ Hc db HPdb. specialize (Hc db).
  destruct (c db) as [db' [a|e]] eqn:Hrun; simpl in Hc; subst db'.
  - split; [done|]. by destruct (HQ db db a HPdb Hrun).
  - by apply HP.
Qed.

Lemma hoare_get_db (P : DB → Prop) :
  hoare P get_db (λ db0 db, P db ∧ db0 = db).
Proof. by intros db HP. Qed.

Lemma hoare_raise {A} (P : DB → Prop) e (Q : A → DB → Prop) :
  (∀ db, P db → integrity db) → hoare P (raise e) Q.
Proof. intros HP db HPdb. by apply HP. Qed.

Lemma hoare_mret {A} (P : DB → Prop) (a : A) (Q : A → DB → Prop) :
  (∀ db, P db → Q a db) → hoare P (mret a) Q.
Proof. intros HP db HPdb. by apply HP. Qed.

(** What stays true as the store grows. *)
Lemma extends_lookup_artifact db db' p a :
  extends db db' → artifacts db !! p = Some a → artifacts db' !! p = Some a.
Proof. intros [H _ _ _ _ _ _] Hp. by eapply lookup_weaken. Qed.

Lemma extends_lookup_content db db' p c :
  extends db db' → content db !! p = Some c → content db' !! p = Some c.
Proof. intros [_ H _ _ _ _ _] Hp. by eapply lookup_weaken. Qed.

Lemma extends_is_blob_at db db' p : extends db db' → is_blob_at db p → is_blob_at db' p.
Proof.
  intros Hext. unfold is_blob_at.
  destruct (content db !! p) as [c|] eqn:Hp; [|done].
  by rewrite (extends_lookup_content _ _ _ _ Hext Hp).
Qed.

Lemma extends_is_manifest_at db db' p :
  extends db db' → is_manifest_at db p → is_manifest_at db' p.
Proof.
  intros Hext. unfold is_manifest_at.
  destruct (content db !! p) as [c|] eqn:Hp; [|done].
  by rewrite (extends_lookup_content _ _ _ _ Hext Hp).
Qed.

Lemma extends_row_references_ok db db' c :
  extends db db' → row_references_ok db c → row_references_ok db' c.
Proof.
  intros Hext. destruct c; simpl;
    eauto using extends_is_blob_at, extends_is_manifest_at.
Qed.

Lemma extends_version_ok db db' version :
  extends db db' → version_ok db version → version_ok db' version.
Proof.
  intros Hext Hv p Hp. destruct (Hv p Hp) as [c Hc].
  exists c. by eapply extends_lookup_content.
Qed.

Lemma stable_lookup_artifact p a : stable (λ db, artifacts db !! p = Some a).
Proof. intros db db'. apply extends_lookup_artifact. Qed.

Lemma stable_lookup_content p c : stable (λ db, content db !! p = Some c).
Proof. intros db db'. apply extends_lookup_content. Qed.

Lemma stable_is_blob_at p : stable (λ db, is_blob_at db p).
Proof. intros db db'. apply extends_is_blob_at. Qed.

Lemma stable_is_manifest_at p : stable (λ db, is_manifest_at db p).
Proof. intros db db'. apply extends_is_manifest_at. Qed.

Lemma stable_and (F G : DB → Prop) : stable F → stable G → stable (λ db, F db ∧ G db).
Proof. intros HF HG db db' Hext [? ?]. split; eauto. Qed.

Lemma stable_const (F : Prop) : stable (λ _, F).
Proof. by intros db db' _. Qed.

(** Writes that keep referential integrity. *)
Lemma references_ok_grow db db' :
  extends db db' →
  blob_manifests db' = blob_manifests db →
  repositories db' = repositories db →
  references_ok db →
  map_Forall (λ p c, content db !! p = None → row_references_ok db' c) (content db') →
  references_ok db'.
Proof.
  intros Hext Hlinks Hrepos [Hrows Hl Hv] Hnew. split.
  - apply map_Forall_lookup. intros p c Hp.
    destruct (content db !! p) as [c0|] eqn:Hp0.
    + assert (c = c0) as ->
        by (pose proof (extends_lookup_content _ _ _ _ Hext Hp0); congruence).
      eapply extends_row_references_ok; [done|].
      exact (map_Forall_lookup_1 _ _ _ _ Hrows Hp0).
    + exact (map_Forall_lookup_1 _ _ _ _ Hnew Hp Hp0).
  - rewrite Hlinks. intros link Hlink. destruct (Hl link Hlink).
    eauto using extends_is_blob_at, extends_is_manifest_at.
  - rewrite Hrepos. apply map_Forall_lookup. intros r repository Hr.
    eapply Forall_impl; [exact (map_Forall_lookup_1 _ _ _ _ Hv Hr)|].
    intros version. by apply extends_version_ok.
Qed.

Lemma references_ok_frame db db' :
  content db' = content db →
  blob_manifests db' = blob_manifests db →
  repositories db' = repositories db →
  references_ok db → references_ok db'.
Proof.
  intros Hc Hl Hr [Hrows Hlinks Hv].
  split; unfold is_manifest_at, is_blob_at, row_references_ok, version_ok,
           is_manifest_at, is_blob_at in *; by rewrite ?Hc, ?Hl, ?Hr.
Qed.

Lemma integrity_frame db db' :
  artifacts db' = artifacts db →
  content db' = content db →
  content_artifacts db' = content_artifacts db →
  blob_manifests db' = blob_manifests db →
  repositories db' = repositories db →
  integrity db → integrity db'.
Proof.
  intros Ha Hc Hca Hl Hr [Hwf Href].
  split; [by apply (wf_frame db)|by apply (references_ok_frame db)].
Qed.

Lemma hoare_step {A B} (P P0 : DB → Prop) (c : M A) (Q0 : A → DB → Prop) (F : DB → Prop)
    (k : A → M B) R :
  hoare P0 c Q0 → appends c → stable F →
  (∀ db, P db → P0 db ∧ F db) →
  (∀ a, hoare (λ db, Q0 a db ∧ F db) (k a) R) →
  hoare P (c ≫= k) R.
Proof.
  intros Hc Happ HF HP Hk. eapply hoare_bind; [|exact Hk].
  eapply hoare_weaken; [by apply hoare_frame| exact HP | done].
Qed.

Create HintDb stable.
#[local] Hint Resolve stable_lookup_artifact stable_lookup_content stable_is_blob_at
  stable_is_manifest_at stable_and stable_const : stable.

(** The blocks of the push views. *)
Lemma hoare_put_artifact upload :
  hoare integrity (put_artifact upload)
    (λ artifact db, integrity db ∧ artifacts db !! artifact.1 = Some artifact.2).
Proof.
  intros db [Hwf Href].
  destruct (put_artifact_ok upload db Hwf) as (a & row & -> & _ & Hwf').
  split; [|simpl; by rewrite lookup_insert_eq].
  split; [done|by apply (references_ok_frame db)].
Qed.

Lemma hoare_receive_artifact `{Externals} chunk :
  hoare integrity (receive_artifact chunk)
    (λ artifact db, integrity db ∧ artifacts db !! artifact.1 = Some artifact.2).
Proof.
  intros db [Hwf Href]. unfold receive_artifact.
  rewrite receive_loop_all by lia. simpl.
  match goal with
  | |- context [Artifact_save ?x] =>
      destruct (Artifact_save_or_get x db (wf_artifacts _ Hwf))
        as (p & row & db' & Hrun & Hsha & Hcases)
  end.
  simpl in Hrun. rewrite Hrun.
  destruct Hcases as [[Hp ->]|(Hp & -> & -> & Hfree)]; [done|].
  split; [|simpl; by rewrite lookup_insert_eq].
  split; [by apply wf_insert_artifact|by apply (references_ok_frame db)].
Qed.

Lemma integrity_insert_content db p row :
  integrity db →
  content db !! p = None →
  (∀ q c, content db !! q = Some c → ¬ same_key row c) →
  row_references_ok db row →
  integrity (set_content (insert p row) db).
Proof.
  intros [Hwf Href] Hp Hfree Hrow.
  split; [by apply wf_insert_content|].
  pose proof (extends_insert_content db p row Hp) as Hext.
  apply (references_ok_grow db); [done..|].
  apply map_Forall_lookup. intros q c Hq Hnone. simpl in Hq.
  destruct (decide (q = p)) as [->|Hne].
  - rewrite lookup_insert_eq in Hq. injection Hq as <-.
    by eapply extends_row_references_ok.
  - rewrite lookup_insert_ne in Hq by done. congruence.
Qed.

Lemma hoare_Content_save_or_get row model (Q : pk * Content → Prop)
    `{∀ x, Decision (Q x)} :
  (∀ kv, Q kv ↔ same_key row kv.2) →
  hoare (λ db, integrity db ∧ row_references_ok db row)
    (try_except_IntegrityError (Content_save row)
       (λ db, (db, queryset_get model (objects_filter (content db) Q))))
    (λ r db, integrity db ∧ content db !! r.1 = Some r.2 ∧ same_key row r.2).
Proof.
  intros HQ db [Hint Hrow].
  destruct (Content_save_or_get row model Q db (wf_content _ (integrity_wf _ Hint)) HQ)
    as (p & c & db' & Hrun & Hkey & Hcases).
  rewrite Hrun.
  destruct Hcases as [[Hp ->]|(Hp & -> & -> & Hfree)]; [done|].
  split; [by apply integrity_insert_content|].
  split; [simpl; by rewrite lookup_insert_eq|done].
Qed.

Lemma hoare_put_blob `{Externals} digest :
  hoare integrity (put_blob digest)
    (λ blob db, integrity db ∧ content db !! blob.1 = Some blob.2
                ∧ same_key (Blob digest REGULAR_BLOB) blob.2).
Proof.
  eapply hoare_weaken;
    [apply (hoare_Content_save_or_get (Blob digest REGULAR_BLOB) "Blob"
              (λ kv, is_blob_with_digest (Some digest) kv.2))| |done].
  - intros [k []]; simpl; split; congruence.
  - by intros db Hint.
Qed.

Lemma hoare_put_manifest digest media_type config_blob :
  hoare (λ db, integrity db ∧ is_blob_at db config_blob)
    (put_manifest digest media_type config_blob)
    (λ manifest db, integrity db ∧ content db !! manifest.1 = Some manifest.2
                    ∧ same_key (Manifest digest 2 media_type config_blob) manifest.2).
Proof.
  eapply hoare_weaken;
    [apply (hoare_Content_save_or_get (Manifest digest 2 media_type config_blob)
              "Manifest" (λ kv, is_manifest_with_digest digest kv.2))| |done].
  - by intros [k []].
  - by intros db Hint.
Qed.

Lemma hoare_put_tag name manifest :
  hoare (λ db, integrity db ∧ is_manifest_at db manifest) (put_tag name manifest)
    (λ _ db, integrity db).
Proof.
  intros db [Hint Hm]. unfold put_tag, try_except_IntegrityError, mbind, M_bind.
  destruct (Content_save_spec (Tag name manifest) db (wf_content _ (integrity_wf _ Hint)))
    as [(p & -> & Hfresh & Hfree)|(-> & _)]; [|done].
  by apply integrity_insert_content.
Qed.

Lemma hoare_put_blob_artifact artifact c relative_path :
  hoare (λ db, integrity db ∧ is_Some (artifacts db !! artifact)
               ∧ ∃ row, content db !! c = Some row ∧ (∀ n m, row ≠ Tag n m)
                        ∧ relative_path = Content_digest row)
    (put_blob_artifact artifact c relative_path) (λ _ db, integrity db).
Proof.
  intros db ([Hwf Href] & Ha & row & Hc & Hkind & ->).
  destruct (put_blob_artifact_ok artifact c row db Hwf Ha Hc Hkind) as (a' & -> & Hwf').
  split; [done|by apply (references_ok_frame db)].
Qed.

Lemma hoare_BlobManifest_bulk_create thru :
  hoare (λ db, integrity db
               ∧ Forall (λ link, is_manifest_at db link.1 ∧ is_blob_at db link.2) thru)
    (BlobManifest_bulk_create thru) (λ _ db, integrity db).
Proof.
  intros db [[Hwf [Hrows Hlinks Hv]] Hthru]. simpl.
  split; [by apply (wf_frame db)|]. split; [done| |done].
  simpl. intros link Hlink. apply elem_of_union in Hlink as [Hlink|Hlink].
  - by apply Hlinks.
  - apply elem_of_list_to_set in Hlink.
    exact (proj1 (Forall_forall _ _) Hthru link Hlink).
Qed.

Lemma version_ok_latest db repository r :
  references_ok db → repositories db !! r = Some repository →
  version_ok db (default ∅ (latest_version repository)).
Proof.
  intros [_ _ Hv] Hr. unfold latest_version.
  destruct (last (Repository.versions repository)) as [v|] eqn:Hlast; simpl.
  - apply last_Some in Hlast as [l' Hl].
    pose proof (map_Forall_lookup_1 _ _ _ _ Hv Hr) as Hall. simpl in Hall.
    rewrite Hl in Hall. apply Forall_app in Hall as [_ Hall].
    by apply (proj1 (Forall_singleton _ _)) in Hall.
  - by intros p Hp.
Qed.

Lemma hoare_new_version r body :
  hoare (λ db, integrity db ∧ ∀ v, version_ok db v → version_ok db (body db v))
    (new_version r body) (λ _ db, integrity db).
Proof.
  intros db [[Hwf Href] Hbody]. unfold new_version.
  destruct (repositories db !! r) as [repository|] eqn:Hr; [|done].
  split; [by apply (wf_frame db)|].
  pose proof (version_ok_latest db repository r Href Hr) as Hlatest.
  destruct Href as [Hrows Hlinks Hv].
  split; [done|done|]. simpl.
  apply map_Forall_insert_2; [|done]. simpl.
  apply Forall_app. split.
  - exact (map_Forall_lookup_1 _ _ _ _ Hv Hr).
  - apply Forall_singleton. by apply Hbody.
Qed.

Lemma version_ok_add_content {A} db (queryset : list (pk * A)) v :
  Forall (λ kv, is_Some (content db !! kv.1)) queryset →
  version_ok db v → version_ok db (add_content queryset v).
Proof.
  intros Hq Hv p Hp. unfold add_content in Hp.
  apply elem_of_union in Hp as [Hp|Hp]; [by apply Hv|].
  apply elem_of_list_to_set, list_elem_of_fmap in Hp as (kv & -> & Hkv).
  exact (proj1 (Forall_forall _ _) Hq kv Hkv).
Qed.

Lemma version_ok_remove_content {A} db (queryset : list (pk * A)) v :
  version_ok db v → version_ok db (remove_content queryset v).
Proof.
  intros Hv p Hp. unfold remove_content in Hp.
  apply elem_of_difference in Hp as [Hp _]. by apply Hv.
Qed.

Lemma objects_filter_content_rows db (P : pk * Content → Prop) `{∀ x, Decision (P x)} :
  Forall (λ kv, is_Some (content db !! kv.1)) (objects_filter (content db) P).
Proof.
  apply Forall_forall. intros [k c] Hin.
  apply elem_of_objects_filter in Hin as [Hk _]. by exists c.
Qed.

(** The views, on every path. *)
Lemma hoare_BlobUploads_put `{Externals} request path pk_ :
  hoare integrity (BlobUploads_put request path pk_) (λ _ db, integrity db).
Proof.
  unfold BlobUploads_put.
  eapply hoare_bind; [apply (hoare_reads integrity); [apply reads_get_dr_push|done]|].
  intros [_ repository].
  eapply hoare_bind; [apply (hoare_reads integrity); [apply reads_lift|done]|].
  intros digest.
  eapply hoare_bind; [apply (hoare_reads integrity); [apply reads_get_db|done]|].
  intros db0.
  eapply hoare_bind; [apply (hoare_reads integrity); [apply reads_lift|done]|].
  intros [_ upload].
  case_bool_decide; [|by apply hoare_raise].
  eapply hoare_bind; [apply hoare_put_artifact|]. intros artifact.
  apply (hoare_step _ integrity _
           (λ blob db, integrity db ∧ content db !! blob.1 = Some blob.2
                       ∧ same_key (Blob digest REGULAR_BLOB) blob.2)
           (λ db, artifacts db !! artifact.1 = Some artifact.2));
    [apply hoare_put_blob | apply appends_put_blob | auto with stable
    | by intros db [? ?] | ].
  intros blob.
  eapply hoare_bind.
  { eapply hoare_weaken;
      [apply (hoare_put_blob_artifact artifact.1 blob.1 digest)| |by intros].
    intros db [(Hint & Hc & Hkey) Ha]. split; [done|]. split; [eauto|].
    exists blob.2. split; [done|].
    by destruct blob as [b []]. }
  intros ?; cbn beta.
  eapply hoare_bind.
  { eapply hoare_weaken; [apply hoare_new_version| |by intros].
    intros db Hint. split; [done|]. intros v Hv.
    apply version_ok_add_content; [apply objects_filter_content_rows|done]. }
  intros ?; cbn beta.
  eapply hoare_bind.
  { instantiate (1 := λ _ db, integrity db). intros db Hint. simpl.
    by apply (integrity_frame db). }
  intros ?; cbn beta.
  apply (hoare_reads integrity); [apply reads_BlobResponse|done].
Qed.

Lemma hoare_BlobUploads_partial_update `{Externals} request path pk_ :
  hoare integrity (BlobUploads_partial_update request path pk_) (λ _ db, integrity db).
Proof.
  unfold BlobUploads_partial_update.
  eapply hoare_bind; [apply (hoare_reads integrity); [apply reads_get_dr_push|done]|].
  intros [_ repository].
  destruct (chunk_range request) as [[start end_] chunk_size].
  eapply hoare_bind; [apply (hoare_reads integrity); [apply reads_get_db|done]|].
  intros db0.
  eapply hoare_bind; [apply (hoare_reads integrity); [apply reads_lift|done]|].
  intros [_ upload].
  case_bool_decide; [by apply hoare_raise|].
  eapply hoare_bind; [apply (hoare_reads integrity); [apply reads_lift|done]|].
  intros size.
  eapply hoare_bind.
  { instantiate (1 := λ _ db, integrity db). intros db Hint. simpl.
    by apply (integrity_frame db). }
  intros ?; cbn beta. by apply hoare_mret.
Qed.

Lemma Blob_objects_get_is_blob d db db' blob :
  Blob_objects_get d db = (db', Ok blob) → db' = db ∧ is_blob_at db blob.1.
Proof.
  unfold Blob_objects_get, queryset_get. intros Hget.
  destruct (objects_filter _ _) as [|[p c] [|]] eqn:Hq; try done.
  injection Hget as <- <-. split; [done|].
  assert ((p, c) ∈ objects_filter (content db) (λ kv, is_blob_with_digest d kv.2)) as Hin
    by (rewrite Hq; apply list_elem_of_here).
  apply elem_of_objects_filter in Hin as [Hp Hblob]. simpl in *.
  unfold is_blob_at. rewrite Hp. by destruct c.
Qed.

Lemma reads_Blob_objects_get d : reads (Blob_objects_get d).
Proof. by intros db. Qed.

Lemma hoare_Manifests_put `{Externals} request path name :
  hoare integrity (Manifests_put request path name) (λ _ db, integrity db).
Proof.
  unfold Manifests_put.
  eapply hoare_bind; [apply (hoare_reads integrity); [apply reads_get_dr_push|done]|].
  intros [_ repository].
  eapply hoare_bind; [apply hoare_receive_artifact|]. intros artifact.
  set (P1 := λ db, integrity db ∧ artifacts db !! artifact.1 = Some artifact.2).
  assert (∀ db, P1 db → integrity db) as HP1 by (by intros db [? ?]).
  eapply hoare_bind; [apply (hoare_reads P1); [apply reads_lift|done]|].
  intros content_data.
  eapply hoare_bind; [apply (hoare_reads P1); [apply reads_lift|done]|].
  intros config_layer.
  eapply hoare_bind; [apply (hoare_reads P1); [apply reads_lift|done]|].
  intros config_digest.
  eapply hoare_bind.
  { apply (hoare_reads_result P1 _ (λ blob db, is_blob_at db blob.1));
      [done| |apply reads_Blob_objects_get].
    intros db db' blob _. apply Blob_objects_get_is_blob. }
  intros config_blob.
  set (digest := "sha256:" +:+ Artifact.sha256 artifact.2).
  apply (hoare_step _ (λ db, integrity db ∧ is_blob_at db config_blob.1) _
           (λ manifest db,
              integrity db ∧ content db !! manifest.1 = Some manifest.2
              ∧ same_key (Manifest digest 2 (Request.content_type request) config_blob.1)
                         manifest.2)
           (λ db, artifacts db !! artifact.1 = Some artifact.2));
    [apply hoare_put_manifest | apply appends_put_manifest | auto with stable
    | by intros db [[? ?] ?] | ].
  intros manifest.
  set (P2 := λ db, integrity db ∧ content db !! manifest.1 = Some manifest.2
                   ∧ is_manifest_row manifest.2).
  assert (∀ db, P2 db → integrity db) as HP2 by (by intros db [? ?]).
  apply (hoare_step _ _ _ (λ _ db, integrity db)
           (λ db, content db !! manifest.1 = Some manifest.2
                  ∧ is_manifest_row manifest.2)
           _ _ (hoare_put_blob_artifact artifact.1 manifest.1 (Content_digest manifest.2)));
    [apply appends_put_blob_artifact | auto with stable | | ].
  { intros db [(Hint & Hc & Hkey) Ha].
    assert (is_manifest_row manifest.2) as Hrow by (by destruct manifest as [m []]).
    split; [|done]. split; [done|]. split; [eauto|].
    exists manifest.2. split; [done|]. split; [|done].
    intros n m Heq. by rewrite Heq in Hrow. }
  intros ?; cbn beta.
  eapply hoare_bind; [apply (hoare_reads P2); [apply reads_lift|done]|].
  intros layers.
  eapply hoare_bind; [apply (hoare_reads P2); [apply reads_lift|done]|].
  intros layers'.
  eapply hoare_bind; [apply (hoare_reads P2); [apply reads_lift|done]|].
  intros blobs.
  eapply hoare_bind; [apply hoare_get_db|]. intros db0.
  assert (∀ db, content db !! manifest.1 = Some manifest.2 → is_manifest_row manifest.2 →
                is_manifest_at db manifest.1) as Hat.
  { intros db Hc Hrow. unfold is_manifest_at. rewrite Hc. by destruct (manifest.2). }
  apply (hoare_step _ _ _ (λ _ db, integrity db)
           (λ db, content db !! manifest.1 = Some manifest.2
                  ∧ is_manifest_row manifest.2)
           _ _ (hoare_BlobManifest_bulk_create _));
    [apply appends_BlobManifest_bulk_create | auto with stable | | ].
  { intros db [(Hint & Hc & Hrow) ->]. split; [|done]. split; [done|].
    apply Forall_fmap, Forall_forall. intros [b c] Hin. simpl.
    split; [by apply Hat|].
    apply elem_of_objects_filter in Hin as [Hb Hex]. simpl in *.
    unfold is_blob_at. rewrite Hb.
    destruct c; try done; by apply Exists_exists in Hex as (? & _ & ?). }
  intros ?; cbn beta.
  eapply hoare_bind.
  { eapply hoare_weaken; [apply (hoare_put_tag name manifest.1)| |by intros].
    intros db [Hint [Hc Hrow]]. split; [done|by apply Hat]. }
  intros ?; cbn beta.
  eapply hoare_bind.
  { eapply hoare_weaken; [apply hoare_new_version| |by intros].
    intros db Hint. split; [done|]. intros v Hv.
    apply version_ok_add_content; [apply objects_filter_content_rows|].
    apply version_ok_remove_content.
    apply version_ok_add_content; [apply objects_filter_content_rows|done]. }
  intros ?; cbn beta.
  apply (hoare_reads integrity); [apply reads_ManifestResponse|done].
Qed.

Lemma hoare_get_dr_push_with `{Provisioning} path create :
  hoare integrity (get_dr_push_with path create) (λ _ db, integrity db).
Proof.
  intros db Hint. unfold get_dr_push_with.
  destruct (distributions db !! path) as [distribution|] eqn:Hpath.
  { pose proof (reads_get_dr_push path db) as Hr.
    destruct (get_dr_push path db) as [db' [a|e]]; simpl in Hr; by subst. }
  destruct create; [|done].
  unfold mbind, M_bind, try_except_ValidationError, transaction_atomic, get_db,
    is_valid_or_raise.
  destruct (ContainerPushRepositorySerializer_is_valid path db); simpl; [|done].
  destruct (ContainerDistributionSerializer_is_valid path _ _); simpl; [|done].
  destruct Hint as [Hwf [Hrows Hlinks Hv]].
  split; [by apply (wf_frame db)|]. split; [done|done|]. simpl.
  apply map_Forall_insert_2; [|done]. simpl.
  apply Forall_singleton. by intros p Hp.
Qed.

Lemma hoare_BlobUploads_create `{Provisioning} request path :
  hoare integrity (BlobUploads_create request path) (λ _ db, integrity db).
Proof.
  unfold BlobUploads_create.
  eapply hoare_bind; [apply hoare_get_dr_push_with|]. intros [_ repository].
  eapply hoare_bind.
  { instantiate (1 := λ _ db, integrity db). intros db Hint. simpl.
    by apply (integrity_frame db). }
  intros ?; cbn beta. by apply hoare_mret.
Qed.

Lemma hoare_integrity {A} (c : M A) db :
  hoare integrity c (λ _ db, integrity db) → integrity db → integrity (c db).1.
Proof. intros Hc Hint. specialize (Hc db Hint). by destruct (c db) as [db' [a|e]]. Qed.

(** X2.  The push views keep the integrity of the store on every path, the
    failing ones included: the unique constraints and the content-artifact
    links of [wf], and referential integrity (a manifest's config blob is a
    blob row, a tag's manifest is a manifest row, a blob-manifest link joins
    a manifest row to a blob row, a published version holds only keys of
    content rows). *)
Theorem push_views_keep_integrity `{Externals} `{Provisioning} db :
  integrity db →
  (∀ request path, integrity (BlobUploads_create request path db).1)
  ∧ (∀ request path pk_, integrity (BlobUploads_partial_update request path pk_ db).1)
  ∧ (∀ request path pk_, integrity (BlobUploads_put request path pk_ db).1)
  ∧ (∀ request path name, integrity (Manifests_put request path name db).1).
Proof.
  intros Hint. split; [|split; [|split]].
  - intros request path. by apply hoare_integrity, Hint; apply hoare_BlobUploads_create.
  - intros request path pk_.
    by apply hoare_integrity, Hint; apply hoare_BlobUploads_partial_update.
  - intros request path pk_. by apply hoare_integrity, Hint; apply hoare_BlobUploads_put.
  - intros request path name. by apply hoare_integrity, Hint; apply hoare_Manifests_put.
Qed.

Lemma push_views_keep_integrity_witness :
  integrity lab_db
  ∧ integrity (Manifests_put lab_push "library/app" "latest" lab_db).1
  ∧ integrity (BlobUploads_put (lab_finalize "sha256:6c61796572") "library/app" 7 lab_db).1
  ∧ integrity (BlobUploads_create (lab_finalize "") "new/app" lab_db).1.
Proof.
  assert (integrity lab_db) as Hlab.
  { apply (bool_decide_unpack (integrity lab_db)). vm_compute. exact I. }
  destruct (push_views_keep_integrity lab_db Hlab) as (Hcreate & _ & Hput & Hmanifest).
  split; [exact Hlab|]. split; [apply Hmanifest|]. split; [apply Hput|apply Hcreate].
Defined.

(** ** Pulls leave the store alone *)

Lemma reads_Manifests_head path reference : reads (Manifests_head path reference).
Proof.
  unfold Manifests_head.
  apply reads_bind; [apply reads_get_drv_pull|]. intros [[_ _] repository_version].
  apply reads_bind; [|intros; apply reads_ManifestResponse].
  case_bool_decide.
  - apply reads_bind; [apply reads_lift|]. intros version.
    apply reads_bind; [apply reads_get_db|]. intros db.
    apply reads_bind; [apply reads_lift|]. intros tag. apply reads_tagged_manifest.
  - apply reads_bind; [apply reads_lift|]. intros version.
    apply reads_bind; [apply reads_get_db|]. intros db. apply reads_lift.
Qed.

Lemma reads_Manifests_get `{Externals} path reference :
  reads (Manifests_get path reference).
Proof.
  unfold Manifests_get.
  apply reads_bind; [apply reads_get_drv_pull|].
  intros [[distribution _] repository_version].
  apply reads_bind; [|intros; apply reads_mret].
  case_bool_decide.
  - apply reads_bind; [apply reads_lift|]. intros version.
    apply reads_bind; [apply reads_get_db|]. intros db.
    apply reads_bind; [apply reads_lift|]. intros tag. apply reads_tagged_manifest.
  - apply reads_bind; [apply reads_lift|]. intros version.
    apply reads_bind; [apply reads_get_db|]. intros db. apply reads_lift.
Qed.

Lemma reads_Blobs_head path digest : reads (Blobs_head path digest).
Proof.
  unfold Blobs_head.
  apply reads_bind; [apply reads_get_drv_pull|]. intros [[_ _] repository_version].
  apply reads_bind; [apply reads_lift|]. intros version.
  apply reads_bind; [apply reads_get_db|]. intros db.
  apply reads_bind; [apply reads_lift|]. intros blob. apply reads_BlobResponse.
Qed.

Lemma reads_Blobs_get `{Externals} path digest : reads (Blobs_get path digest).
Proof.
  unfold Blobs_get.
  apply reads_bind; [apply reads_get_drv_pull|].
  intros [[distribution _] repository_version].
  apply reads_bind; [apply reads_lift|]. intros version.
  apply reads_bind; [apply reads_get_db|]. intros db.
  apply reads_bind; [apply reads_lift|]. intros blob. apply reads_mret.
Qed.

Lemma reads_TagsListView_get path : reads (TagsListView_get path).
Proof.
  unfold TagsListView_get.
  apply reads_bind; [apply reads_get_drv_pull|]. intros [[_ _] repository_version].
  apply reads_bind; [apply reads_lift|]. intros version.
  apply reads_bind; [apply reads_get_db|]. intros db. apply reads_mret.
Qed.

(** X3.  The pull views never write: whatever the path and the reference,
    and whether they answer or fail, [Manifests.head], [Manifests.get],
    [Blobs.head] and [Blobs.get] leave the store exactly as it was. *)
Theorem pull_views_read_only `{Externals} db path reference :
  (Manifests_head path reference db).1 = db
  ∧ (Manifests_get path reference db).1 = db
  ∧ (Blobs_head path reference db).1 = db
  ∧ (Blobs_get path reference db).1 = db.
Proof.
  split; [apply reads_Manifests_head|]. split; [apply reads_Manifests_get|].
  split; [apply reads_Blobs_head|apply reads_Blobs_get].
Qed.

(** ** Pulling blobs *)

Lemma get_dr_push_inv path db db' distribution r :
  get_dr_push path db = (db', Ok (distribution, r)) →
  db' = db
  ∧ distributions db !! path = Some distribution
  ∧ Distribution.repository distribution = Some r
  ∧ ∃ repository, repositories db !! r = Some repository
                  ∧ PUSH_ENABLED repository = true.
Proof.
  unfold get_dr_push. intros Hpush.
  destruct (distributions db !! path) as [dist|]; [|done].
  destruct (Distribution.repository dist) as [r'|] eqn:Hdist; [|done].
  destruct (repositories db !! r') as [repo|] eqn:Hrepo; [|done].
  destruct (PUSH_ENABLED repo) eqn:Hpe; [|done].
  injection Hpush as <- <- <-. eauto 10.
Qed.

Lemma distribution_queryset path db distribution :
  distributions db !! path = Some distribution →
  objects_filter (distributions db) (λ kv, kv.1 = path) = [(path, distribution)].
Proof.
  intros Hpath. apply objects_filter_singleton; [done|done|].
  by intros k' v' _ Hk.
Qed.

(** A distribution that names a repository serves its latest version. *)
Lemma get_drv_pull_latest path db distribution r repository :
  distributions db !! path = Some distribution →
  Distribution.repository distribution = Some r →
  repositories db !! r = Some repository →
  get_drv_pull path db = (db, Ok (distribution, Some r, latest_version repository)).
Proof.
  intros Hpath Hdist Hrepo. unfold get_drv_pull.
  rewrite (distribution_queryset _ _ _ Hpath). simpl. by rewrite Hdist, Hrepo.
Qed.

Lemma BlobResponse_Ok blob path status db artifact :
  _artifacts_get blob.1 db = (db, Ok artifact) →
  BlobResponse blob path status db
    = (db, Ok (Response status
                 (BlobResponse_headers (Content_digest blob.2) path (Artifact.size artifact)))).
Proof. intros Hget. unfold BlobResponse. by rewrite (bind_Ok _ _ _ _ _ Hget). Qed.

Lemma blob_queryset db (version : gset pk) digest p media_type :
  unique_content db →
  content db !! p = Some (Blob digest media_type) → p ∈ version →
  objects_filter (content db)
    (λ kv, is_blob_with_digest (Some digest) kv.2 ∧ kv.1 ∈ version)
    = [(p, Blob digest media_type)].
Proof.
  intros Huniq Hp Hin. apply objects_filter_singleton; [done|done|].
  intros k' [d' mt'| |] Hk' [Hd' _]; simpl in Hd'; try done.
  injection Hd' as <-. by eapply (unique_content_lookup db k' p).
Qed.

Lemma Blobs_resolve `{Externals} path digest db distribution repository version p
    media_type :
  unique_content db →
  get_drv_pull path db = (db, Ok (distribution, repository, Some version)) →
  content db !! p = Some (Blob digest media_type) → p ∈ version →
  Blobs_head path digest db = BlobResponse (p, Blob digest media_type) path 200 db
  ∧ Blobs_get path digest db
    = (db, Ok (redirect_to_content_app distribution
                 (CONTENT_ORIGIN +:+ "/pulp/container/" +:+ path +:+ "/blobs/" +:+ digest))).
Proof.
  intros Huniq Hpull Hp Hin. unfold Blobs_head, Blobs_get.
  rewrite !(bind_Ok _ _ _ _ _ Hpull). cbn beta iota.
  rewrite !(bind_lift_Ok _ _ _ version eq_refl), !bind_get_db.
  rewrite (blob_queryset _ _ _ _ _ Huniq Hp Hin).
  by rewrite !(bind_lift_Ok _ _ _ (p, Blob digest media_type) eq_refl).
Qed.

Lemma Blobs_missing `{Externals} path digest db distribution repository version :
  get_drv_pull path db = (db, Ok (distribution, repository, Some version)) →
  (∀ p media_type, content db !! p = Some (Blob digest media_type) → p ∉ version) →
  Blobs_head path digest db = (db, Raise Http404)
  ∧ Blobs_get path digest db = (db, Raise Http404).
Proof.
  intros Hpull Hnone. unfold Blobs_head, Blobs_get.
  rewrite !(bind_Ok _ _ _ _ _ Hpull). cbn beta iota.
  rewrite !(bind_lift_Ok _ _ _ version eq_refl), !bind_get_db.
  rewrite objects_filter_nil; [done|].
  intros k [d mt| |] Hk [Hd Hin]; simpl in *; try done.
  injection Hd as <-. by apply (Hnone k mt).
Qed.

(** X4.  [Blobs.head] and [Blobs.get] answer for a blob only through the
    version that the distribution serves.  A digest that no blob of the
    served version carries is [NotFound] for both, also when a blob with
    that digest is in the store.  For a blob of the served version, [get]
    redirects to the blob's URL in the content app, and [head] answers 200
    with the digest and, as [Content-Length], the size of the blob's
    artifact. *)
Theorem Blobs_head_get_resolve `{Externals} path digest db distribution repository
    version :
  wf db →
  get_drv_pull path db = (db, Ok (distribution, repository, Some version)) →
  ((∀ p media_type, content db !! p = Some (Blob digest media_type) → p ∉ version) →
     Blobs_head path digest db = (db, Raise NotFound)
     ∧ Blobs_get path digest db = (db, Raise NotFound))
  ∧ (∀ p media_type,
       content db !! p = Some (Blob digest media_type) → p ∈ version →
       Blobs_get path digest db
         = (db, Ok (redirect_to_content_app distribution
                      (CONTENT_ORIGIN +:+ "/pulp/container/" +:+ path +:+ "/blobs/"
                         +:+ digest)))
       ∧ ∀ artifact,
           _artifacts_get p db = (db, Ok artifact) →
           Blobs_head path digest db
             = (db, Ok (Response 200
                          (BlobResponse_headers digest path (Artifact.size artifact))))).
Proof.
  intros Hwf Hpull. split; [by apply (Blobs_missing _ _ _ distribution repository)|].
  intros p media_type Hp Hin.
  destruct (Blobs_resolve path digest db distribution repository version p media_type)
    as [Hhead Hget]; [by apply wf_content|done..|].
  split; [done|]. intros artifact Hartifact. rewrite Hhead.
  by apply BlobResponse_Ok.
Qed.

Lemma Blobs_head_get_resolve_witness :
  Blobs_head "library/app" "sha256:c0" lab_db
    = (lab_db, Ok (Response 200 (BlobResponse_headers "sha256:c0" "library/app" 0)))
  ∧ Blobs_head "library/app" "sha256:77" lab_db = (lab_db, Raise NotFound).
Proof.
  destruct (Blobs_head_get_resolve "library/app" "sha256:c0" lab_db
              (Distribution.mk (Some 10%N) None) (Some 10%N) {[1%N; 2%N; 3%N; 4%N]})
    as [_ Hhit].
  { apply (bool_decide_unpack (wf lab_db)). vm_compute. exact I. }
  { reflexivity. }
  destruct (Blobs_head_get_resolve "library/app" "sha256:77" lab_db
              (Distribution.mk (Some 10%N) None) (Some 10%N) {[1%N; 2%N; 3%N; 4%N]})
    as [Hmiss _].
  { apply (bool_decide_unpack (wf lab_db)). vm_compute. exact I. }
  { reflexivity. }
  split.
  - destruct (Hhit 1%N REGULAR_BLOB) as [_ Hhead]; [reflexivity|by vm_compute|].
    apply (Hhead config_artifact). reflexivity.
  - apply Hmiss. intros p media_type Hp.
    assert (map_Forall (λ p c, is_blob_with_digest (Some "sha256:77") c
                               → p ∉@{gset pk} {[1%N; 2%N; 3%N; 4%N]})
                       (content lab_db)) as Hall.
    { apply (bool_decide_unpack _). vm_compute. exact I. }
    by apply (map_Forall_lookup_1 _ _ _ _ Hall Hp).
Defined.

(** ** Push, then pull *)

(** A finalize whose digest check passes, with the artifact its response
    reports. *)
Lemma BlobUploads_put_trace `{Externals} request path pk_ db distribution r digest
    upload :
  wf db →
  get_dr_push path db = (db, Ok (distribution, r)) →
  Request.query_digest request = Some digest →
  uploads db !! pk_ = Some upload →
  Upload.repository upload = r →
  Upload.sha256 upload = str_drop len_sha256_prefix digest →
  ∃ a arow blob media_type a' repository artifact,
    let db1 := set_artifacts (insert a arow) db in
    let db2 := set_content (insert blob (Blob digest media_type)) db1 in
    let db3 := set_content_artifacts (insert (blob, digest) a') db2 in
    let db4 :=
      set_repositories
        (insert r (Repository.mk (Repository.name repository) (Repository.type repository)
                     (Repository.versions repository
                        ++ [default ∅ (latest_version repository) ∪ {[blob]}]))) db3 in
    let db5 := set_uploads (delete pk_) db4 in
    repositories db !! r = Some repository
    ∧ (artifacts db !! a = None ∨ artifacts db !! a = Some arow)
    ∧ (content db !! blob = None ∨ content db !! blob = Some (Blob digest media_type))
    ∧ (content_artifacts db !! (blob, digest) = None
       ∨ content_artifacts db !! (blob, digest) = Some a')
    ∧ Artifact.sha256 arow = Upload.sha256 upload
    ∧ BlobUploads_put request path pk_ db
      = (db5, Ok (Response 201 (BlobResponse_headers digest path (Artifact.size artifact))))
    ∧ _artifacts_get blob db5 = (db5, Ok artifact)
    ∧ wf db5.
Proof.
  intros Hwf Hpush Hdigest Hup Hrepo Hmatch.
  destruct (get_dr_push_Ok _ _ _ _ _ Hpush) as [_ (repository & Hrepository & _)].
  assert (∃ a arow,
            put_artifact upload db = (set_artifacts (insert a arow) db, Ok (a, arow))
            ∧ Artifact.sha256 arow = Upload.sha256 upload
            ∧ wf (set_artifacts (insert a arow) db)
            ∧ (artifacts db !! a = None ∨ artifacts db !! a = Some arow))
    as (a & arow & Hartifact & Hsha & Hwf1 & Ha_old).
  { unfold put_artifact.
    match goal with
    | |- context [Artifact_save ?x] =>
        destruct (Artifact_save_or_get x db (wf_artifacts _ Hwf))
          as (p & row & db' & Hrun & Hsha & Hcases)
    end.
    exists p, row. rewrite Hrun.
    destruct Hcases as [[Hp ->]|(Hp & -> & -> & Hfree)].
    - rewrite set_artifacts_insert_id by done. eauto.
    - split; [done|]. split; [done|]. split; [by apply wf_insert_artifact|by left]. }
  set (db1 := set_artifacts (insert a arow) db) in *.
  assert (∃ blob media_type,
            put_blob digest db1
              = (set_content (insert blob (Blob digest media_type)) db1,
                 Ok (blob, Blob digest media_type))
            ∧ wf (set_content (insert blob (Blob digest media_type)) db1)
            ∧ (content db1 !! blob = None
               ∨ content db1 !! blob = Some (Blob digest media_type)))
    as (blob & media_type & Hblob & Hwf2 & Hb_old).
  { destruct (Content_save_or_get (Blob digest REGULAR_BLOB) "Blob"
                (λ kv, is_blob_with_digest (Some digest) kv.2) db1 (wf_content _ Hwf1))
      as (p & c & db' & Hrun & Hkey & Hcases).
    { intros [k []]; simpl; split; congruence. }
    destruct c as [d mt| |]; simpl in Hkey; try done. subst d.
    exists p, mt. unfold put_blob, Blob_objects_get. rewrite Hrun.
    destruct Hcases as [[Hp ->]|(Hp & [= ->] & -> & Hfree)].
    - rewrite set_content_insert_id by done. eauto.
    - split; [done|]. split; [by apply wf_insert_content|by left]. }
  set (db2 := set_content (insert blob (Blob digest media_type)) db1) in *.
  assert (∃ a',
            put_blob_artifact a blob digest db2
              = (set_content_artifacts (insert (blob, digest) a') db2, Ok ())
            ∧ wf (set_content_artifacts (insert (blob, digest) a') db2)
            ∧ (content_artifacts db2 !! (blob, digest) = None
               ∨ content_artifacts db2 !! (blob, digest) = Some a'))
    as (a' & Hlink & Hwf3 & Hl_old).
  { unfold put_blob_artifact, try_except_IntegrityError, ContentArtifact_save.
    destruct (content_artifacts db2 !! (blob, digest)) as [x|] eqn:Hold.
    - exists x. rewrite set_content_artifacts_insert_id by done. eauto.
    - exists a. split; [done|]. split; [|by left].
      apply wf_insert_content_artifact; [done| |].
      + subst db2 db1. simpl. rewrite lookup_insert_eq. eauto.
      + subst db2. simpl. by rewrite lookup_insert_eq. }
  set (db3 := set_content_artifacts (insert (blob, digest) a') db2) in *.
  assert (objects_filter (content db3) (λ kv, kv.1 = blob)
          = [(blob, Blob digest media_type)]) as Hqs.
  { apply objects_filter_singleton; [|done|by intros ? ? _ ?].
    simpl. by rewrite lookup_insert_eq. }
  pose proof (new_version_Ok r
    (λ db new_version,
       add_content (objects_filter (content db) (λ kv, kv.1 = blob)) new_version)
    db3 repository Hrepository) as Hversion.
  cbn beta in Hversion. rewrite Hqs, add_content_singleton in Hversion.
  set (db4 := set_repositories _ db3) in Hversion.
  assert (wf (set_uploads (delete pk_) db4)) as Hwf5
    by (by apply (wf_frame db3)).
  destruct (_artifacts_get_ok blob (Blob digest media_type) _ Hwf5) as [artifact Hget].
  { simpl. by rewrite lookup_insert_eq. }
  { done. }
  { simpl. rewrite lookup_insert_eq. eauto. }
  exists a, arow, blob, media_type, a', repository, artifact.
  cbn zeta. fold db1. fold db2. fold db3. fold db4.
  split; [done|]. split; [done|]. split; [done|]. split; [done|]. split; [done|].
  split; [|done].
  unfold BlobUploads_put.
  rewrite (bind_Ok _ _ _ _ _ Hpush). cbn beta iota.
  unfold query_params_digest. rewrite Hdigest.
  rewrite (bind_lift_Ok _ _ _ digest eq_refl), bind_get_db.
  rewrite (Upload_queryset_lookup _ _ _ _ Hup Hrepo).
  rewrite (bind_lift_Ok _ _ _ (pk_, upload) eq_refl). cbn beta iota.
  rewrite bool_decide_eq_true_2 by done.
  rewrite (bind_Ok _ _ _ _ _ Hartifact).
  rewrite (bind_Ok _ _ _ _ _ Hblob).
  rewrite (bind_Ok _ _ _ _ _ Hlink).
  rewrite (bind_Ok _ _ _ _ _ Hversion).
  unfold mbind at 1, M_bind at 1, Upload_delete at 1.
  unfold BlobResponse. by rewrite (bind_Ok _ _ _ _ _ Hget).
Qed.

(** X5.  A blob that was just finalized can be pulled through the same path
    under the digest it was pushed with: after a successful
    [BlobUploads.put], [Blobs.head] for the asserted digest answers 200 with
    exactly the headers of the 201 response ([Docker-Content-Digest] is the
    asserted digest, [Content-Length] the size of the stored artifact), and
    [Blobs.get] redirects to the blob's URL in the content app. *)
Theorem BlobUploads_put_then_pull `{Externals} request path pk_ db distribution r digest
    upload :
  wf db →
  get_dr_push path db = (db, Ok (distribution, r)) →
  Request.query_digest request = Some digest →
  uploads db !! pk_ = Some upload →
  Upload.repository upload = r →
  Upload.sha256 upload = str_drop len_sha256_prefix digest →
  ∃ db' size,
    let headers := BlobResponse_headers digest path size in
    BlobUploads_put request path pk_ db = (db', Ok (Response 201 headers))
    ∧ Blobs_head path digest db' = (db', Ok (Response 200 headers))
    ∧ headers !! 1%nat = Some ("Docker-Content-Digest", HStr digest)
    ∧ Blobs_get path digest db'
      = (db', Ok (redirect_to_content_app distribution
                    (CONTENT_ORIGIN +:+ "/pulp/container/" +:+ path +:+ "/blobs/"
                       +:+ digest))).
Proof.
  intros Hwf Hpush Hdigest Hup Hrepo Hmatch.
  destruct (BlobUploads_put_trace request path pk_ db distribution r digest upload)
    as (a & arow & blob & media_type & a' & repository & artifact
        & Hrepository & _ & _ & _ & _ & Hrun & Hget & Hwf5); try done.
  cbn zeta in *.
  destruct (get_dr_push_inv _ _ _ _ _ Hpush) as (_ & Hpath & Hdist & _).
  set (db5 := set_uploads _ _) in *.
  assert (get_drv_pull path db5
          = (db5, Ok (distribution, Some r,
                      Some (default ∅ (latest_version repository) ∪ {[blob]}))))
    as Hpull.
  { erewrite get_drv_pull_latest; [|exact Hpath|exact Hdist|].
    2:{ simpl. by rewrite lookup_insert_eq. }
    unfold latest_version at 1. simpl. by rewrite last_snoc. }
  destruct (Blobs_resolve path digest db5 distribution (Some r)
              (default ∅ (latest_version repository) ∪ {[blob]}) blob media_type)
    as [Hhead Hredirect].
  { by apply wf_content. }
  { done. }
  { simpl. by rewrite lookup_insert_eq. }
  { apply elem_of_union. right. by apply elem_of_singleton. }
  exists db5, (Artifact.size artifact). cbn zeta.
  split; [done|]. split; [|done].
  rewrite Hhead. by apply BlobResponse_Ok.
Qed.

Lemma BlobUploads_put_then_pull_witness :
  ∃ db' size,
    let headers := BlobResponse_headers "sha256:6c61796572" "library/app" size in
    BlobUploads_put (lab_finalize "sha256:6c61796572") "library/app" 7 lab_db
      = (db', Ok (Response 201 headers))
    ∧ Blobs_head "library/app" "sha256:6c61796572" db' = (db', Ok (Response 200 headers))
    ∧ headers !! 1%nat = Some ("Docker-Content-Digest", HStr "sha256:6c61796572")
    ∧ Blobs_get "library/app" "sha256:6c61796572" db'
      = (db', Ok (redirect_to_content_app (Distribution.mk (Some 10%N) None)
                    (CONTENT_ORIGIN +:+ "/pulp/container/" +:+ "library/app" +:+ "/blobs/"
                       +:+ "sha256:6c61796572"))).
Proof.
  apply (BlobUploads_put_then_pull (lab_finalize "sha256:6c61796572") "library/app" 7
           lab_db (Distribution.mk (Some 10%N) None) 10 "sha256:6c61796572" lab_upload).
  - apply (bool_decide_unpack (wf lab_db)). vm_compute. exact I.
  - reflexivity.
  - reflexivity.
  - reflexivity.
  - reflexivity.
  - reflexivity.
Defined.

Lemma ManifestResponse_run manifest path status db artifact :
  _artifacts_get manifest.1 db = (db, Ok artifact) →
  ManifestResponse manifest path status db
    = (db, Ok (Response status (ManifestResponse_headers (Content_digest manifest.2) path))).
Proof. intros Hget. unfold ManifestResponse. by rewrite (bind_Ok _ _ _ _ _ Hget). Qed.

(** What a pull of the path finds after an ingestion: the version it is
    served, the manifest and the tag in it, and the rows by name and by
    digest. *)
Lemma Manifests_put_served `{Externals} request path name db r config blobs :
  ingestible db request path r config blobs →
  ∃ db' distribution version m sv mt cb t artifact,
    let digest := "sha256:" +:+ hashlib sha256 (Request.body request) in
    Manifests_put request path name db
      = (db', Ok (Response 201 (ManifestResponse_headers digest path)))
    ∧ wf db'
    ∧ get_drv_pull path db' = (db', Ok (distribution, Some r, Some version))
    ∧ content db' !! m = Some (Manifest digest sv mt cb)
    ∧ content db' !! t = Some (Tag name m)
    ∧ m ∈ version ∧ t ∈ version
    ∧ (∀ t' m', content db' !! t' = Some (Tag name m') → t' ∈ version → t' = t)
    ∧ _artifacts_get m db' = (db', Ok artifact)
    ∧ (∀ p c, content db' !! p = Some c →
              p = m ∨ p = t ∨ content db !! p = Some c)
    ∧ ∃ repository,
        repositories db !! r = Some repository
        ∧ ∀ p, p ≠ m → p ≠ t →
               (p ∈ version
                ↔ p ∈ default ∅ (latest_version repository)
                  ∧ ¬ ∃ m', content db' !! p = Some (Tag name m')).
Proof.
  intros Hingest.
  destruct (Manifests_put_ok request path name db r config blobs Hingest)
    as (a & arow & m & sv & mt & cb & a' & t & repository
        & Hrepository & Hm_old & Ht_old & Hrun & Hwf6).
  destruct Hingest as [_ _ [distribution Hpush] _].
  destruct (get_dr_push_inv _ _ _ _ _ Hpush) as (_ & Hpath & Hdist & _).
  cbn zeta in *. simpl in Hm_old, Ht_old.
  set (digest := "sha256:" +:+ hashlib sha256 (Request.body request)) in *.
  assert (t ≠ m) as Htm.
  { intros ->. rewrite lookup_insert_eq in Ht_old. by destruct Ht_old. }
  set (db6 := set_repositories _ _) in *.
  set (rows := <[t:=Tag name m]> (<[m:=Manifest digest sv mt cb]> (content db))).
  assert (content db6 = rows) as Hcontent by done.
  set (version :=
         (default ∅ (latest_version repository) ∪ {[m]})
           ∖ list_to_set (objects_filter rows (λ kv, is_tag_named name kv.2)).*1
           ∪ {[t]}).
  assert (rows !! m = Some (Manifest digest sv mt cb)) as Hm.
  { unfold rows. rewrite lookup_insert_ne by done. by rewrite lookup_insert_eq. }
  assert (rows !! t = Some (Tag name m)) as Ht by (unfold rows; by rewrite lookup_insert_eq).
  assert (∀ x m', rows !! x = Some (Tag name m') →
            x ∈@{gset pk} list_to_set
                  (objects_filter rows (λ kv, is_tag_named name kv.2)).*1) as Hnamed.
  { intros x m' Hx. apply elem_of_list_to_set, list_elem_of_fmap.
    exists (x, Tag name m'). split; [done|]. by apply elem_of_objects_filter. }
  destruct (_artifacts_get_ok m (Manifest digest sv mt cb) db6 Hwf6) as [artifact Hget].
  { by rewrite Hcontent. }
  { done. }
  { simpl. rewrite lookup_insert_eq. eauto. }
  exists db6, distribution, version, m, sv, mt, cb, t, artifact. cbn zeta.
  split; [exact Hrun|]. split; [done|]. rewrite Hcontent.
  split.
  { erewrite get_drv_pull_latest; [|exact Hpath|exact Hdist|].
    2:{ simpl. by rewrite lookup_insert_eq. }
    unfold latest_version at 1. simpl. by rewrite last_snoc. }
  split; [done|]. split; [done|].
  split.
  { apply elem_of_union. left. apply elem_of_difference.
    split; [apply elem_of_union; right; by apply elem_of_singleton|].
    intros Hin. apply elem_of_list_to_set, list_elem_of_fmap in Hin as ([k c] & -> & Hin).
    apply elem_of_objects_filter in Hin as [Hk Htag]. simpl in *.
    rewrite Hm in Hk. by injection Hk as <-. }
  split; [apply elem_of_union; right; by apply elem_of_singleton|].
  split.
  { intros t' m' Ht' Hin. apply Hnamed in Ht'.
    apply elem_of_union in Hin as [Hin|Hin]; [|by apply elem_of_singleton in Hin].
    by apply elem_of_difference in Hin as [_ Hnot]. }
  split; [done|].
  split.
  { intros p c Hp. unfold rows in Hp.
    destruct (decide (p = t)) as [->|Hpt]; [by auto|].
    destruct (decide (p = m)) as [->|Hpm]; [by auto|].
    rewrite !lookup_insert_ne in Hp by done. auto. }
  exists repository. split; [done|]. intros p Hpm Hpt. unfold version.
  rewrite elem_of_union, elem_of_difference, elem_of_union, !elem_of_singleton.
  split.
  - intros [[[Hbase|?] Hnot]|?]; [|done|done]. split; [done|].
    intros [m' Hp]. by apply Hnot, (Hnamed p m').
  - intros [Hbase Hnot]. left. split; [by left|].
    intros Hin. apply elem_of_list_to_set, list_elem_of_fmap in Hin as ([k c] & -> & Hin).
    apply elem_of_objects_filter in Hin as [Hk Htag]. simpl in *.
    destruct c as [| |n' m']; simpl in Htag; try done. subst n'. apply Hnot. by exists m'.
Qed.

Lemma manifest_rows_by_name db version name t m :
  str_take 7 name ≠ "sha256:" →
  content db !! t = Some (Tag name m) → t ∈ version →
  (∀ t' m', content db !! t' = Some (Tag name m') → t' ∈ version → t' = t) →
  matching_rows db version name = [(t, Tag name m)].
Proof.
  intros Hname Ht Hin Hone. unfold matching_rows.
  rewrite bool_decide_eq_false_2 by done.
  apply objects_filter_singleton; [done|done|].
  intros k' [| |n' m'] Hk' [Hn' Hin']; simpl in *; try done. subst n'.
  by apply (Hone k' m').
Qed.

Lemma manifest_rows_by_digest db version digest m sv mt cb :
  unique_content db →
  str_take 7 digest = "sha256:" →
  content db !! m = Some (Manifest digest sv mt cb) → m ∈ version →
  matching_rows db version digest = [(m, Manifest digest sv mt cb)].
Proof.
  intros Huniq Hprefix Hm Hin. unfold matching_rows.
  rewrite bool_decide_eq_true_2 by done.
  apply objects_filter_singleton; [done|done|].
  intros k' [|d' sv' mt' cb'|] Hk' [Hd' _]; simpl in *; try done. subst d'.
  by eapply (unique_content_lookup db k' m).
Qed.

Lemma pull_row `{Externals} path reference db distribution repository version row
    manifest artifact :
  get_drv_pull path db = (db, Ok (distribution, repository, Some version)) →
  matching_rows db version reference = [row] →
  dereference reference row db = (db, Ok manifest) →
  _artifacts_get manifest.1 db = (db, Ok artifact) →
  Manifests_head path reference db
    = (db, Ok (Response 200 (ManifestResponse_headers (Content_digest manifest.2) path)))
  ∧ Manifests_get path reference db
    = (db, Ok (redirect_to_content_app distribution
                 (CONTENT_ORIGIN +:+ "/pulp/container/" +:+ path +:+ "/manifests/"
                    +:+ Content_digest manifest.2))).
Proof.
  intros Hpull Hrows Hderef Hget.
  rewrite (Manifests_head_unfold _ _ _ _ _ _ Hpull).
  rewrite (Manifests_get_unfold _ _ _ _ _ _ Hpull).
  rewrite Hrows. unfold mbind, M_bind, lift, get_object_or_404. simpl.
  rewrite Hderef. split; [|done]. by apply (ManifestResponse_run _ _ _ _ artifact).
Qed.

(** X6.  A manifest that was just pushed under a tag can be pulled through
    the same path by the tag name and by its digest: after a successful
    [Manifests.put] (the tag name not beginning with [sha256:]),
    [Manifests.head] by either reference answers 200 with the headers of the
    201 response, whose [Docker-Content-Digest] is [sha256:] followed by the
    sha256 of the pushed body, and [Manifests.get] by either reference
    redirects to the URL of that manifest in the content app. *)
Theorem Manifests_put_then_pull `{Externals} request path name db r config blobs :
  ingestible db request path r config blobs →
  str_take 7 name ≠ "sha256:" →
  let digest := "sha256:" +:+ hashlib sha256 (Request.body request) in
  let headers := ManifestResponse_headers digest path in
  let url := CONTENT_ORIGIN +:+ "/pulp/container/" +:+ path +:+ "/manifests/" +:+ digest in
  ∃ db' distribution,
    Manifests_put request path name db = (db', Ok (Response 201 headers))
    ∧ headers !! 1%nat = Some ("Docker-Content-Digest", HStr digest)
    ∧ Manifests_head path name db' = (db', Ok (Response 200 headers))
    ∧ Manifests_head path digest db' = (db', Ok (Response 200 headers))
    ∧ Manifests_get path name db' = (db', Ok (redirect_to_content_app distribution url))
    ∧ Manifests_get path digest db' = (db', Ok (redirect_to_content_app distribution url)).
Proof.
  intros Hingest Hname digest headers url.
  destruct (Manifests_put_served request path name db r config blobs Hingest)
    as (db' & distribution & version & m & sv & mt & cb & t & artifact
        & Hrun & Hwf & Hpull & Hm & Ht & Hmin & Htin & Hone & Hget & _ & _).
  cbn zeta in *. fold digest in Hrun, Hm.
  exists db', distribution. split; [exact Hrun|]. split; [done|].
  destruct (pull_row path name db' distribution (Some r) version (t, Tag name m)
              (m, Manifest digest sv mt cb) artifact) as [Hhead_name Hget_name].
  { done. }
  { by apply manifest_rows_by_name. }
  { unfold dereference. rewrite bool_decide_eq_false_2 by done.
    unfold tagged_manifest. simpl. by rewrite Hm. }
  { done. }
  destruct (pull_row path digest db' distribution (Some r) version
              (m, Manifest digest sv mt cb) (m, Manifest digest sv mt cb) artifact)
    as [Hhead_digest Hget_digest].
  { done. }
  { apply manifest_rows_by_digest; [by apply wf_content| |done|done].
    apply (str_take_app "sha256:"). }
  { unfold dereference. rewrite bool_decide_eq_true_2; [done|].
    apply (str_take_app "sha256:"). }
  { done. }
  done.
Qed.

Lemma Manifests_put_then_pull_witness :
  let digest := "sha256:" +:+ hashlib sha256 (Request.body lab_push) in
  let headers := ManifestResponse_headers digest "library/app" in
  let url :=
    CONTENT_ORIGIN +:+ "/pulp/container/" +:+ "library/app" +:+ "/manifests/" +:+ digest in
  ∃ db' distribution,
    Manifests_put lab_push "library/app" "latest" lab_db = (db', Ok (Response 201 headers))
    ∧ headers !! 1%nat = Some ("Docker-Content-Digest", HStr digest)
    ∧ Manifests_head "library/app" "latest" db' = (db', Ok (Response 200 headers))
    ∧ Manifests_head "library/app" digest db' = (db', Ok (Response 200 headers))
    ∧ Manifests_get "library/app" "latest" db'
      = (db', Ok (redirect_to_content_app distribution url))
    ∧ Manifests_get "library/app" digest db'
      = (db', Ok (redirect_to_content_app distribution url)).
Proof.
  apply (Manifests_put_then_pull lab_push "library/app" "latest" lab_db 10 1
           [JStr "sha256:1a"; JStr "sha256:ff"] lab_push_ingestible).
  vm_compute. discriminate.
Defined.

(** X7.  A tag whose name begins with [sha256:] can be pushed and cannot be
    pulled by its name: [Manifests.put] stores the tag and publishes it, but
    [Manifests.head] and [Manifests.get] read such a reference as a digest,
    and fail with [NotFound] unless a manifest carries it. *)
Theorem Manifests_put_digest_like_tag `{Externals} request path name db r config blobs :
  ingestible db request path r config blobs →
  str_take 7 name = "sha256:" →
  name ≠ "sha256:" +:+ hashlib sha256 (Request.body request) →
  map_Forall (λ _ c, ¬ is_manifest_with_digest name c) (content db) →
  ∃ db' status headers repository version t m,
    Manifests_put request path name db = (db', Ok (Response status headers))
    ∧ repositories db' !! r = Some repository
    ∧ latest_version repository = Some version
    ∧ content db' !! t = Some (Tag name m) ∧ t ∈ version
    ∧ Manifests_head path name db' = (db', Raise NotFound)
    ∧ Manifests_get path name db' = (db', Raise NotFound).
Proof.
  intros Hingest Hprefix Hne Hnone.
  destruct (Manifests_put_served request path name db r config blobs Hingest)
    as (db' & distribution & version & m & sv & mt & cb & t & artifact
        & Hrun & Hwf & Hpull & Hm & Ht & Hmin & Htin & Hone & Hget & Hrows & _).
  cbn zeta in *.
  assert (matching_rows db' version name = []) as Hempty.
  { unfold matching_rows. rewrite bool_decide_eq_true_2 by done.
    apply objects_filter_nil. intros p c Hp [Hd _]. simpl in Hd.
    destruct (Hrows p c Hp) as [->|[->|Hold]].
    - rewrite Hm in Hp. injection Hp as <-. simpl in Hd. by subst name.
    - rewrite Ht in Hp. by injection Hp as <-.
    - exact (map_Forall_lookup_1 _ _ _ _ Hnone Hold Hd). }
  assert (∃ repository, repositories db' !! r = Some repository
                        ∧ latest_version repository = Some version)
    as (repository & Hrepository & Hlatest).
  { unfold get_drv_pull in Hpull.
    destruct (get_object_or_404 _ _) as [[? dist]|]; [|done].
    destruct (Distribution.repository dist) as [r'|].
    - destruct (repositories db' !! r') as [repository|] eqn:Hr'; [|done].
      injection Hpull as _ <- Hlatest. eauto.
    - destruct (Distribution.repository_version dist) as [[r' n]|]; [|done].
      by destruct (repositories db' !! r'). }
  eexists db', _, _, repository, version, t, m.
  split; [exact Hrun|]. split; [done|]. split; [done|]. split; [done|]. split; [done|].
  rewrite (Manifests_head_unfold _ _ _ _ _ _ Hpull).
  rewrite (Manifests_get_unfold _ _ _ _ _ _ Hpull).
  rewrite Hempty. by unfold mbind, M_bind, lift, get_object_or_404.
Qed.

Lemma Manifests_put_digest_like_tag_witness :
  ∃ db' status headers repository version t m,
    Manifests_put lab_push "library/app" "sha256:beef" lab_db
      = (db', Ok (Response status headers))
    ∧ repositories db' !! 10%N = Some repository
    ∧ latest_version repository = Some version
    ∧ content db' !! t = Some (Tag "sha256:beef" m) ∧ t ∈ version
    ∧ Manifests_head "library/app" "sha256:beef" db' = (db', Raise NotFound)
    ∧ Manifests_get "library/app" "sha256:beef" db' = (db', Raise NotFound).
Proof.
  apply (Manifests_put_digest_like_tag lab_push "library/app" "sha256:beef" lab_db 10 1
           [JStr "sha256:1a"; JStr "sha256:ff"] lab_push_ingestible).
  - reflexivity.
  - vm_compute. discriminate.
  - apply (bool_decide_unpack _). vm_compute. exact I.
Defined.

(** ** The tags list and the catalog *)

Lemma elem_of_tag_names rows tags name :
  name ∈ tag_names rows tags ↔ name ∈ tags ∨ ∃ p m, (p, Tag name m) ∈ rows.
Proof.
  revert tags. induction rows as [|[p c] rows IH]; intros tags; simpl.
  - split; [by left|]. intros [?|(p & m & Hin)]; [done|]. by apply elem_of_nil in Hin.
  - assert ((∃ p' m, (p', Tag name m) ∈ (p, c) :: rows)
            ↔ (∃ m, c = Tag name m) ∨ ∃ p' m, (p', Tag name m) ∈ rows) as Hcons.
    { split.
      - intros (p' & m & Hin). apply elem_of_cons in Hin as [[= <- <-]|Hin]; eauto.
      - intros [[m ->]|(p' & m & Hin)].
        + exists p, m. apply list_elem_of_here.
        + exists p', m. by apply list_elem_of_further. }
    rewrite Hcons. destruct c as [d mt|d sv mt cb|n m]; rewrite IH.
    + split; [intros [?|?]; auto|]. intros [?|[[m [=]]|?]]; auto.
    + split; [intros [?|?]; auto|]. intros [?|[[m [=]]|?]]; auto.
    + rewrite elem_of_union, elem_of_singleton. split.
      * intros [[?| ->]|?]; eauto.
      * intros [?|[[m' [= -> ->]]|?]]; auto.
Qed.

Lemma TagsListView_get_run path db distribution repository version :
  get_drv_pull path db = (db, Ok (distribution, repository, Some version)) →
  ∃ tags,
    TagsListView_get path db
      = (db, Ok (BodyResponse (JObj [("name", JStr path); ("tags", JArr (JStr <$> tags))])
                   [("Docker-Distribution-API-Version", HStr "registry/2.0")]))
    ∧ NoDup tags
    ∧ ∀ name, name ∈ tags ↔ ∃ t m, content db !! t = Some (Tag name m) ∧ t ∈ version.
Proof.
  intros Hpull.
  exists (elements (tag_names (RepositoryVersion_content version db) ∅)).
  split; [|split].
  - unfold TagsListView_get. rewrite (bind_Ok _ _ _ _ _ Hpull). cbn beta iota.
    by rewrite (bind_lift_Ok _ _ _ version eq_refl), bind_get_db.
  - apply NoDup_elements.
  - intros name. rewrite elem_of_elements, elem_of_tag_names. split.
    + intros [Hin|(t & m & Hin)]; [by apply elem_of_empty in Hin|].
      apply elem_of_objects_filter in Hin as [Ht Hv]. eauto.
    + intros (t & m & Ht & Hv). right. exists t, m. by apply elem_of_objects_filter.
Qed.

(** X8.  [TagsListView.get] lists, for the version that the distribution
    serves, exactly the names of the tags in that version, each name once:
    blobs and manifests of the version and tags outside it contribute
    nothing.  The store is unchanged. *)
Theorem TagsListView_get_tags path db distribution repository version :
  get_drv_pull path db = (db, Ok (distribution, repository, Some version)) →
  ∃ tags,
    TagsListView_get path db
      = (db, Ok (BodyResponse (JObj [("name", JStr path); ("tags", JArr (JStr <$> tags))])
                   [("Docker-Distribution-API-Version", HStr "registry/2.0")]))
    ∧ NoDup tags
    ∧ ∀ name, name ∈ tags ↔ ∃ t m, content db !! t = Some (Tag name m) ∧ t ∈ version.
Proof. apply TagsListView_get_run. Qed.

Lemma TagsListView_get_tags_witness :
  ∃ tags,
    TagsListView_get "library/app" lab_db
      = (lab_db,
         Ok (BodyResponse (JObj [("name", JStr "library/app"); ("tags", JArr (JStr <$> tags))])
               [("Docker-Distribution-API-Version", HStr "registry/2.0")]))
    ∧ NoDup tags
    ∧ ∀ name, name ∈ tags
              ↔ ∃ t m, content lab_db !! t = Some (Tag name m)
                       ∧ t ∈@{gset pk} {[1%N; 2%N; 3%N; 4%N]}.
Proof.
  apply (TagsListView_get_tags "library/app" lab_db (Distribution.mk (Some 10%N) None)
           (Some 10%N) {[1%N; 2%N; 3%N; 4%N]}).
  reflexivity.
Defined.

(** X9.  After a successful [Manifests.put] under a tag name, the tags list
    of the path holds that name, and every other name is listed exactly when
    it was a tag of the version the push started from. *)
Theorem Manifests_put_then_tags_list `{Externals} request path name db r config blobs :
  ingestible db request path r config blobs →
  ∃ db' status headers tags repository,
    Manifests_put request path name db = (db', Ok (Response status headers))
    ∧ TagsListView_get path db'
      = (db', Ok (BodyResponse (JObj [("name", JStr path); ("tags", JArr (JStr <$> tags))])
                    [("Docker-Distribution-API-Version", HStr "registry/2.0")]))
    ∧ NoDup tags
    ∧ name ∈ tags
    ∧ repositories db !! r = Some repository
    ∧ ∀ other, other ≠ name →
        (other ∈ tags
         ↔ ∃ t m, content db !! t = Some (Tag other m)
                  ∧ t ∈ default ∅ (latest_version repository)).
Proof.
  intros Hingest.
  pose proof (appends_Manifests_put request path name db) as Hext.
  destruct (Manifests_put_served request path name db r config blobs Hingest)
    as (db' & distribution & version & m & sv & mt & cb & t & artifact
        & Hrun & Hwf & Hpull & Hm & Ht & Hmin & Htin & Hone & Hget & Hrows
        & repository & Hrepository & Hversion).
  cbn zeta in *. rewrite Hrun in Hext. simpl in Hext.
  destruct (TagsListView_get_run path db' distribution (Some r) version Hpull)
    as (tags & Hlist & Hnodup & Htags).
  eexists db', 201, _, tags, repository.
  split; [exact Hrun|]. split; [exact Hlist|]. split; [done|].
  split; [apply Htags; eauto|]. split; [done|].
  intros other Hother. rewrite Htags. split.
  - intros (t' & m' & Ht' & Hin).
    assert (t' ≠ m) as Hne_m by (intros ->; congruence).
    assert (t' ≠ t) as Hne_t by (intros ->; congruence).
    exists t', m'. split.
    + destruct (Hrows t' _ Ht') as [?|[?|?]]; done.
    + by apply (Hversion t' Hne_m Hne_t).
  - intros (t' & m' & Ht' & Hin).
    pose proof (extends_lookup_content _ _ _ _ Hext Ht') as Ht''.
    assert (t' ≠ m) as Hne_m by (intros ->; congruence).
    assert (t' ≠ t) as Hne_t by (intros ->; congruence).
    exists t', m'. split; [done|]. apply (Hversion t' Hne_m Hne_t).
    split; [done|]. intros [m'' Hm'']. congruence.
Qed.

Lemma Manifests_put_then_tags_list_witness :
  ∃ db' status headers tags repository,
    Manifests_put lab_push "library/app" "stable" lab_db
      = (db', Ok (Response status headers))
    ∧ TagsListView_get "library/app" db'
      = (db', Ok (BodyResponse
                    (JObj [("name", JStr "library/app"); ("tags", JArr (JStr <$> tags))])
                    [("Docker-Distribution-API-Version", HStr "registry/2.0")]))
    ∧ NoDup tags
    ∧ "stable" ∈ tags
    ∧ repositories lab_db !! 10%N = Some repository
    ∧ ∀ other, other ≠ "stable" →
        (other ∈ tags
         ↔ ∃ t m, content lab_db !! t = Some (Tag other m)
                  ∧ t ∈ default ∅ (latest_version repository)).
Proof.
  apply (Manifests_put_then_tags_list lab_push "library/app" "stable" lab_db 10 1
           [JStr "sha256:1a"; JStr "sha256:ff"] lab_push_ingestible).
Defined.

(** X10.  [CatalogView.get] lists the base path of every distribution, each
    once, whether or not the distribution serves anything.  A path that the
    catalog does not list is [NotFound] for pulls and for pushes. *)
Theorem CatalogView_get_lists_distributions db :
  ∃ names,
    CatalogView_get db
      = (db, Ok (BodyResponse (JObj [("repositories", JArr (JStr <$> names))])
                   [("Docker-Distribution-API-Version", HStr "registry/2.0")]))
    ∧ NoDup names
    ∧ (∀ path, path ∈ names ↔ is_Some (distributions db !! path))
    ∧ (∀ path, path ∉ names →
         get_drv_pull path db = (db, Raise NotFound)
         ∧ get_dr_push path db = (db, Raise NotFound)).
Proof.
  exists (map_to_list (distributions db)).*1.
  assert (∀ path, path ∈ (map_to_list (distributions db)).*1
                  ↔ is_Some (distributions db !! path)) as Hlisted.
  { intros path. rewrite list_elem_of_fmap. split.
    - intros ([k d] & -> & Hin). apply elem_of_map_to_list in Hin. eauto.
    - intros [d Hd]. exists (path, d). split; [done|]. by apply elem_of_map_to_list. }
  split; [done|]. split; [apply NoDup_fst_map_to_list|]. split; [done|].
  intros path Hnot.
  assert (distributions db !! path = None) as Hnone.
  { destruct (distributions db !! path) eqn:Hpath; [|done].
    destruct Hnot. apply Hlisted. eauto. }
  split.
  - unfold get_drv_pull. rewrite objects_filter_nil; [done|].
    intros k v Hk Heq. simpl in Heq. congruence.
  - unfold get_dr_push. by rewrite Hnone.
Qed.

(** ** The first push to a path *)

Lemma get_dr_push_with_existing `{Provisioning} path create db :
  is_Some (distributions db !! path) →
  get_dr_push_with path create db = get_dr_push path db.
Proof. intros [distribution Hpath]. unfold get_dr_push_with. by rewrite Hpath. Qed.

Lemma get_dr_push_with_rejected `{Provisioning} path db :
  distributions db !! path = None →
  creation_accepted path db = false →
  get_dr_push_with path true db = (db, Raise (UnboundLocalError "distribution")).
Proof.
  intros Hpath Hrejected. unfold get_dr_push_with. rewrite Hpath.
  unfold creation_accepted in Hrejected.
  unfold mbind, M_bind, try_except_ValidationError, transaction_atomic, get_db,
    is_valid_or_raise.
  destruct (ContainerPushRepositorySerializer_is_valid path db); simpl; [|done].
  simpl in Hrejected. by rewrite Hrejected.
Qed.

(** X11.  When a path has no distribution and the serializers reject the
    repository or the distribution that [get_dr_push(create=True)] tries to
    create, the call does not end in the [ParseError] its handler builds (it
    is never raised): it ends in [UnboundLocalError] on [distribution], at
    the [return].  Whatever the transaction wrote is rolled back, and
    [BlobUploads.create] fails the same way without storing an upload. *)
Theorem get_dr_push_create_rejected `{Provisioning} request path db :
  distributions db !! path = None →
  creation_accepted path db = false →
  get_dr_push_with path true db = (db, Raise (UnboundLocalError "distribution"))
  ∧ BlobUploads_create request path db = (db, Raise (UnboundLocalError "distribution")).
Proof.
  intros Hpath Hrejected.
  pose proof (get_dr_push_with_rejected path db Hpath Hrejected) as Hrun.
  split; [done|]. unfold BlobUploads_create. by rewrite (bind_Raise _ _ _ _ _ Hrun).
Qed.

Lemma get_dr_push_create_rejected_witness :
  get_dr_push_with "locked/app" true lab_db
    = (lab_db, Raise (UnboundLocalError "distribution"))
  ∧ BlobUploads_create (lab_finalize "") "locked/app" lab_db
    = (lab_db, Raise (UnboundLocalError "distribution")).
Proof.
  apply (get_dr_push_create_rejected (lab_finalize "") "locked/app" lab_db);
    reflexivity.
Defined.

(** X12.  When a path has no distribution and the serializers accept,
    [get_dr_push(create=True)] creates a push repository named after the
    path, with one empty version, and a distribution at the path that serves
    it; nothing else in the store changes.  From then on the path has push
    access ([get_dr_push] without [create] finds the two) and pull access to
    the empty version. *)
Theorem get_dr_push_create_accepted `{Provisioning} path db :
  distributions db !! path = None →
  creation_accepted path db = true →
  ∃ db' distribution r,
    get_dr_push_with path true db = (db', Ok (distribution, r))
    ∧ repositories db !! r = None
    ∧ repositories db'
      = <[r := Repository.mk path ContainerPushRepository [∅]]> (repositories db)
    ∧ distributions db' = <[path := distribution]> (distributions db)
    ∧ Distribution.repository distribution = Some r
    ∧ artifacts db' = artifacts db ∧ content db' = content db
    ∧ uploads db' = uploads db
    ∧ get_dr_push path db' = (db', Ok (distribution, r))
    ∧ get_drv_pull path db' = (db', Ok (distribution, Some r, Some ∅)).
Proof.
  intros Hpath Haccepted. unfold creation_accepted in Haccepted.
  apply andb_prop in Haccepted as [Hrepo Hdist].
  set (r := fresh (dom (repositories db))) in *.
  set (distribution := Distribution.mk (Some r) None).
  exists (set_distributions (insert path distribution)
            (set_repositories
               (insert r (Repository.mk path ContainerPushRepository [∅])) db)),
    distribution, r.
  split.
  { unfold get_dr_push_with. rewrite Hpath.
    unfold mbind, M_bind, try_except_ValidationError, transaction_atomic, get_db,
      is_valid_or_raise.
    rewrite Hrepo. simpl. fold r. by rewrite Hdist. }
  split; [apply fresh_lookup|]. repeat (split; [done|]).
  split.
  - unfold get_dr_push. simpl. rewrite lookup_insert_eq. simpl.
    by rewrite lookup_insert_eq.
  - rewrite (get_drv_pull_latest path _ distribution r
               (Repository.mk path ContainerPushRepository [∅])); [done|..].
    + simpl. by rewrite lookup_insert_eq.
    + done.
    + simpl. by rewrite lookup_insert_eq.
Qed.

Lemma get_dr_push_create_accepted_witness :
  ∃ db' distribution r,
    get_dr_push_with "new/app" true lab_db = (db', Ok (distribution, r))
    ∧ repositories lab_db !! r = None
    ∧ repositories db'
      = <[r := Repository.mk "new/app" ContainerPushRepository [∅]]> (repositories lab_db)
    ∧ distributions db' = <[ "new/app" := distribution]> (distributions lab_db)
    ∧ Distribution.repository distribution = Some r
    ∧ artifacts db' = artifacts lab_db ∧ content db' = content lab_db
    ∧ uploads db' = uploads lab_db
    ∧ get_dr_push "new/app" db' = (db', Ok (distribution, r))
    ∧ get_drv_pull "new/app" db' = (db', Ok (distribution, Some r, Some ∅)).
Proof.
  apply (get_dr_push_create_accepted "new/app" lab_db); reflexivity.
Defined.

(** X13.  On a path with push access, [BlobUploads.create] stores exactly
    one new upload, under a key no upload had, owned by the repository of
    the path and with an empty file, and answers 202 with the key as
    [Docker-Upload-UUID], [/v2/<path>/blobs/uploads/<key>] as [Location],
    [0-0] as [Range] and a [Content-Length] of 0.  Nothing else in the store
    changes, and the upload is the one [partial_update] and [put] look up
    under that key. *)
Theorem BlobUploads_create_upload `{Provisioning} request path db distribution r :
  get_dr_push path db = (db, Ok (distribution, r)) →
  ∃ pk_ upload,
    BlobUploads_create request path db
      = (set_uploads (insert pk_ upload) db,
         Ok (Response 202
               [("Docker-Distribution-Api-Version", HStr "registry/2.0");
                ("Docker-Upload-UUID", HPk pk_);
                ("Location", HStr ("/v2/" +:+ path +:+ "/blobs/uploads/" +:+ pretty pk_));
                ("Range", HStr "0-0");
                ("Content-Length", HInt 0)]))
    ∧ uploads db !! pk_ = None
    ∧ Upload.repository upload = r
    ∧ Upload.file upload = []
    ∧ Upload_queryset r pk_ (set_uploads (insert pk_ upload) db) = [(pk_, upload)].
Proof.
  intros Hpush.
  destruct (get_dr_push_inv _ _ _ _ _ Hpush) as (_ & Hpath & _).
  eexists (fresh (dom (uploads db))), _.
  split.
  { assert (get_dr_push_with path true db = (db, Ok (distribution, r))) as Hpush'
      by (rewrite get_dr_push_with_existing; eauto).
    unfold BlobUploads_create.
    rewrite (bind_Ok _ _ _ _ _ Hpush'). cbn beta iota.
    unfold mbind, M_bind, Upload_insert. reflexivity. }
  split; [apply fresh_lookup|]. split; [done|]. split; [done|].
  apply Upload_queryset_lookup; [|done]. simpl. by rewrite lookup_insert_eq.
Qed.

Lemma BlobUploads_create_upload_witness :
  ∃ pk_ upload,
    BlobUploads_create (lab_finalize "") "library/app" lab_db
      = (set_uploads (insert pk_ upload) lab_db,
         Ok (Response 202
               [("Docker-Distribution-Api-Version", HStr "registry/2.0");
                ("Docker-Upload-UUID", HPk pk_);
                ("Location",
                 HStr ("/v2/" +:+ "library/app" +:+ "/blobs/uploads/" +:+ pretty pk_));
                ("Range", HStr "0-0");
                ("Content-Length", HInt 0)]))
    ∧ uploads lab_db !! pk_ = None
    ∧ Upload.repository upload = 10%N
    ∧ Upload.file upload = []
    ∧ Upload_queryset 10 pk_ (set_uploads (insert pk_ upload) lab_db) = [(pk_, upload)].
Proof.
  apply (BlobUploads_create_upload (lab_finalize "") "library/app" lab_db
           (Distribution.mk (Some 10%N) None) 10).
  reflexivity.
Defined.

(** ** Refusals *)

Lemma get_dr_push_Raise path db db' e :
  get_dr_push path db = (db', Raise e) →
  db' = db
  ∧ (e = MethodNotAllowed
     ↔ ∃ distribution r repository,
         distributions db !! path = Some distribution
         ∧ Distribution.repository distribution = Some r
         ∧ repositories db !! r = Some repository
         ∧ PUSH_ENABLED repository = false).
Proof.
  unfold get_dr_push. intros Hpush.
  destruct (distributions db !! path) as [dist|] eqn:Hpath.
  2:{ injection Hpush as <- <-. split; [done|]. split; [done|]. by intros (? & ? & ? & ? & _). }
  destruct (Distribution.repository dist) as [r|] eqn:Hdist.
  2:{ injection Hpush as <- <-. split; [done|]. split; [done|].
      intros (? & ? & ? & [= <-] & ? & _). congruence. }
  destruct (repositories db !! r) as [repo|] eqn:Hrepo.
  2:{ injection Hpush as <- <-. split; [done|]. split; [done|].
      intros (? & ? & ? & [= <-] & ? & ? & _). congruence. }
  destruct (PUSH_ENABLED repo) eqn:Hpe; [done|].
  injection Hpush as <- <-. split; [done|]. split; [|done].
  intros _. eauto 10.
Qed.

(** X14.  Without push access to the path no push view writes anything:
    [BlobUploads.partial_update], [BlobUploads.put] and [Manifests.put], and
    [BlobUploads.create] on a path that has a distribution, fail with the
    exception [get_dr_push] raises and leave the store as it was.  The
    exception is [MethodNotAllowed] exactly when the path is served from a
    repository that is not push-enabled. *)
Theorem push_views_refuse_without_push_access `{Externals} `{Provisioning} request path
    pk_ name db e :
  get_dr_push path db = (db, Raise e) →
  BlobUploads_partial_update request path pk_ db = (db, Raise e)
  ∧ BlobUploads_put request path pk_ db = (db, Raise e)
  ∧ Manifests_put request path name db = (db, Raise e)
  ∧ (is_Some (distributions db !! path) →
     BlobUploads_create request path db = (db, Raise e))
  ∧ (e = MethodNotAllowed
     ↔ ∃ distribution r repository,
         distributions db !! path = Some distribution
         ∧ Distribution.repository distribution = Some r
         ∧ repositories db !! r = Some repository
         ∧ PUSH_ENABLED repository = false).
Proof.
  intros Hpush.
  split; [by apply bind_Raise|]. split; [by apply bind_Raise|].
  split; [by apply bind_Raise|]. split.
  - intros Hpath. apply bind_Raise. by rewrite get_dr_push_with_existing.
  - by destruct (get_dr_push_Raise _ _ _ _ Hpush).
Qed.

Lemma push_views_refuse_without_push_access_witness :
  BlobUploads_partial_update (lab_chunk "0-4") "mirror" 8 lab_db
    = (lab_db, Raise MethodNotAllowed)
  ∧ BlobUploads_put (lab_chunk "0-4") "mirror" 8 lab_db = (lab_db, Raise MethodNotAllowed)
  ∧ Manifests_put (lab_chunk "0-4") "mirror" "latest" lab_db
    = (lab_db, Raise MethodNotAllowed)
  ∧ BlobUploads_create (lab_chunk "0-4") "mirror" lab_db = (lab_db, Raise MethodNotAllowed).
Proof.
  destruct (push_views_refuse_without_push_access (lab_chunk "0-4") "mirror" 8 "latest"
              lab_db MethodNotAllowed)
    as (Hupdate & Hput & Hmanifest & Hcreate & _); [reflexivity|].
  split; [exact Hupdate|]. split; [exact Hput|]. split; [exact Hmanifest|].
  apply Hcreate. by eexists.
Defined.

Lemma Upload_queryset_none db r pk_ :
  (∀ upload, uploads db !! pk_ = Some upload → Upload.repository upload ≠ r) →
  Upload_queryset r pk_ db = [].
Proof.
  intros Hnone. apply objects_filter_nil. intros k upload Hk [Hpk Hrepo].
  simpl in *. subst k. by apply (Hnone upload).
Qed.

(** X15.  With push access, an upload is reached only under its own key and
    through a path that serves its repository.  For a key that is no upload
    of the path's repository, [BlobUploads.partial_update] fails with
    [NotFound] and [BlobUploads.put] with [DoesNotExist] (it uses
    [objects.get], not [get_object_or_404]); [put] without a [digest]
    parameter fails with [KeyError] before it looks for the upload.  The
    store is unchanged in each case. *)
Theorem BlobUploads_unknown_upload `{Externals} request path pk_ db distribution r :
  get_dr_push path db = (db, Ok (distribution, r)) →
  (Request.query_digest request = None →
     BlobUploads_put request path pk_ db = (db, Raise (KeyError "digest")))
  ∧ ((∀ upload, uploads db !! pk_ = Some upload → Upload.repository upload ≠ r) →
       BlobUploads_partial_update request path pk_ db = (db, Raise NotFound)
       ∧ (is_Some (Request.query_digest request) →
          BlobUploads_put request path pk_ db = (db, Raise (DoesNotExist "Upload")))).
Proof.
  intros Hpush. split.
  - intros Hdigest. unfold BlobUploads_put.
    rewrite (bind_Ok _ _ _ _ _ Hpush). cbn beta iota.
    unfold query_params_digest. by rewrite Hdigest.
  - intros Hnone. split.
    + unfold BlobUploads_partial_update.
      rewrite (bind_Ok _ _ _ _ _ Hpush). cbn beta iota.
      destruct (chunk_range request) as [[start end_] chunk_size].
      by rewrite bind_get_db, (Upload_queryset_none _ _ _ Hnone).
    + intros [digest Hdigest]. unfold BlobUploads_put.
      rewrite (bind_Ok _ _ _ _ _ Hpush). cbn beta iota.
      unfold query_params_digest. rewrite Hdigest.
      rewrite (bind_lift_Ok _ _ _ digest eq_refl), bind_get_db.
      by rewrite (Upload_queryset_none _ _ _ Hnone).
Qed.

Lemma BlobUploads_unknown_upload_witness :
  BlobUploads_put (lab_chunk "0-4") "library/app" 7 lab_db
    = (lab_db, Raise (KeyError "digest"))
  ∧ BlobUploads_partial_update (lab_chunk "0-4") "library/app" 99 lab_db
    = (lab_db, Raise NotFound)
  ∧ BlobUploads_put (lab_finalize "sha256:00") "library/app" 99 lab_db
    = (lab_db, Raise (DoesNotExist "Upload")).
Proof.
  destruct (BlobUploads_unknown_upload (lab_chunk "0-4") "library/app" 7 lab_db
              (Distribution.mk (Some 10%N) None) 10) as [Hkey _]; [reflexivity|].
  destruct (BlobUploads_unknown_upload (lab_chunk "0-4") "library/app" 99 lab_db
              (Distribution.mk (Some 10%N) None) 10) as [_ Hchunk]; [reflexivity|].
  destruct (BlobUploads_unknown_upload (lab_finalize "sha256:00") "library/app" 99 lab_db
              (Distribution.mk (Some 10%N) None) 10) as [_ Hput]; [reflexivity|].
  split; [by apply Hkey|]. split.
  - apply Hchunk. intros upload Hup. by vm_compute in Hup.
  - apply Hput; [|by eexists]. intros upload Hup. by vm_compute in Hup.
Defined.

(** ** Receiving a manifest *)

(** X16.  [Manifests.receive_artifact] reads the stream to its end, in reads
    of 2,000,000 bytes, however long it is: when no artifact carries the
    sha256 of the body, the artifact it saves, under a new key, holds the
    whole body, its length as [size], and the digest of the whole body for
    each of the six algorithms of [Artifact.DIGEST_FIELDS], [sha224]
    included. *)
Theorem receive_artifact_assembles `{Externals} chunk db :
  (∀ p a, artifacts db !! p = Some a → Artifact.sha256 a ≠ hashlib sha256 chunk) →
  ∃ p,
    let artifact :=
      Artifact.mk chunk (Z.of_nat (length chunk)) (hashlib md5 chunk) (hashlib sha1 chunk)
                  (Some (hashlib sha224 chunk)) (hashlib sha256 chunk)
                  (hashlib sha384 chunk) (hashlib sha512 chunk) in
    receive_artifact chunk db = (set_artifacts (insert p artifact) db, Ok (p, artifact))
    ∧ artifacts db !! p = None.
Proof.
  intros Hnew. exists (fresh (dom (artifacts db))). cbn zeta.
  split; [|apply fresh_lookup].
  unfold receive_artifact. rewrite receive_loop_all by lia. simpl.
  unfold try_except_IntegrityError, Artifact_save. simpl.
  rewrite objects_filter_nil; [done|].
  intros k a Hk Hsha. by apply (Hnew k a).
Qed.

Lemma receive_artifact_assembles_witness :
  ∃ p,
    let artifact :=
      Artifact.mk manifest_body (Z.of_nat (length manifest_body))
                  (hashlib md5 manifest_body) (hashlib sha1 manifest_body)
                  (Some (hashlib sha224 manifest_body)) (hashlib sha256 manifest_body)
                  (hashlib sha384 manifest_body) (hashlib sha512 manifest_body) in
    receive_artifact manifest_body lab_new_db
      = (set_artifacts (insert p artifact) lab_new_db, Ok (p, artifact))
    ∧ artifacts lab_new_db !! p = None.
Proof.
  apply (receive_artifact_assembles manifest_body lab_new_db).
  intros p a Hp. by vm_compute in Hp.
Defined.

(** ** Pushing the same bytes again *)

Lemma _artifacts_get_frame c db db' :
  content_artifacts db' = content_artifacts db →
  artifacts db' = artifacts db →
  (_artifacts_get c db').2 = (_artifacts_get c db).2.
Proof.
  intros Hlinks Hartifacts. unfold _artifacts_get, _artifacts. rewrite Hlinks.
  destruct (queryset_get _ _) as [[? a]|e]; [|done].
  rewrite Hartifacts. by destruct (artifacts db !! a).
Qed.

Lemma PUSH_ENABLED_type repository repository' :
  Repository.type repository' = Repository.type repository →
  PUSH_ENABLED repository' = PUSH_ENABLED repository.
Proof. unfold PUSH_ENABLED. by intros ->. Qed.

(** X17.  Finalizing a second upload of the same bytes never stores a second
    artifact: [BlobUploads.put] reuses the one the first finalize left.  When
    the second request asserts the same digest string as the first, it
    creates nothing at all: the blob is reused too, so the content rows and
    the content-artifact links are what the first finalize left, the two
    answers carry the same headers, and the latest version of the repository
    has the content it had after the first.  When it asserts a string that
    keys no blob yet (another seven characters before the same hex), a
    second blob row is created for the same bytes. *)
Theorem BlobUploads_put_twice `{Externals} request1 request2 path pk1 pk2 db distribution
    r digest1 digest2 upload1 upload2 :
  wf db →
  get_dr_push path db = (db, Ok (distribution, r)) →
  Request.query_digest request1 = Some digest1 →
  Request.query_digest request2 = Some digest2 →
  pk1 ≠ pk2 →
  uploads db !! pk1 = Some upload1 →
  uploads db !! pk2 = Some upload2 →
  Upload.repository upload1 = r →
  Upload.repository upload2 = r →
  Upload.sha256 upload1 = str_drop len_sha256_prefix digest1 →
  Upload.sha256 upload2 = str_drop len_sha256_prefix digest2 →
  Upload.sha256 upload2 = Upload.sha256 upload1 →
  ∃ db1 db2 headers1 headers2,
    BlobUploads_put request1 path pk1 db = (db1, Ok (Response 201 headers1))
    ∧ BlobUploads_put request2 path pk2 db1 = (db2, Ok (Response 201 headers2))
    ∧ artifacts db2 = artifacts db1
    ∧ (digest2 = digest1 →
       headers2 = headers1
       ∧ content db2 = content db1
       ∧ content_artifacts db2 = content_artifacts db1
       ∧ ∃ repository1 repository2,
           repositories db1 !! r = Some repository1
           ∧ repositories db2 !! r = Some repository2
           ∧ latest_version repository2 = latest_version repository1)
    ∧ (digest2 ≠ digest1 →
       map_Forall (λ _ c, ¬ is_blob_with_digest (Some digest2) c) (content db) →
       ∃ blob2 media_type,
         content db1 !! blob2 = None
         ∧ content db2 = insert blob2 (Blob digest2 media_type) (content db1)).
Proof.
  intros Hwf Hpush Hdigest1 Hdigest2 Hne Hup1 Hup2 Hrepo1 Hrepo2 Hsha1 Hsha2 Hsame.
  destruct (get_dr_push_inv _ _ _ _ _ Hpush) as (_ & Hpath & Hdist & repository0 & Hr0 & Hpe).
  destruct (BlobUploads_put_trace request1 path pk1 db distribution r digest1 upload1)
    as (a & arow & blob & media_type & a' & repository & artifact
        & Hrepository & _ & _ & _ & Harow & Hrun1 & Hget1 & Hwf1); try done.
  cbn zeta in *.
  set (db1 := set_uploads (delete pk1) _) in *.
  assert (repository = repository0) as -> by congruence.
  set (repository1 :=
         Repository.mk (Repository.name repository0) (Repository.type repository0)
           (Repository.versions repository0
              ++ [default ∅ (latest_version repository0) ∪ {[blob]}])).
  assert (repositories db1 !! r = Some repository1) as Hr1
    by (simpl; by rewrite lookup_insert_eq).
  assert (artifacts db1 !! a = Some arow) as Ha1 by (simpl; by rewrite lookup_insert_eq).
  assert (content db1 !! blob = Some (Blob digest1 media_type)) as Hb1
    by (simpl; by rewrite lookup_insert_eq).
  assert (content_artifacts db1 !! (blob, digest1) = Some a') as Hl1
    by (simpl; by rewrite lookup_insert_eq).
  assert (get_dr_push path db1 = (db1, Ok (distribution, r))) as Hpush1.
  { unfold get_dr_push. simpl distributions. rewrite Hpath, Hdist, Hr1.
    by rewrite (PUSH_ENABLED_type repository0 repository1), Hpe. }
  assert (uploads db1 !! pk2 = Some upload2) as Hup2'
    by (simpl; by rewrite lookup_delete_ne).
  destruct (BlobUploads_put_trace request2 path pk2 db1 distribution r digest2 upload2)
    as (a2 & arow2 & blob2 & media_type2 & a2' & repository2 & artifact2
        & Hrepository2 & Ha_old & Hb_old & Hl_old & Harow2 & Hrun2 & Hget2 & Hwf2);
    try done.
  cbn zeta in *.
  assert (repository2 = repository1) as -> by congruence.
  match type of Hrun2 with _ = (?d, _) => set (db2 := d) in * end.
  (* the second finalize landed on the artifact of the first *)
  assert (a2 = a) as ->.
  { destruct (decide (a2 = a)) as [|Hna]; [done|].
    apply (unique_artifacts_lookup db2 a2 a arow2 arow (wf_artifacts _ Hwf2)).
    - simpl. by rewrite lookup_insert_eq.
    - simpl. rewrite lookup_insert_ne by done. exact Ha1.
    - congruence. }
  assert (arow2 = arow) as -> by (destruct Ha_old; congruence).
  assert (artifacts db2 = artifacts db1) as Hartifacts
    by (simpl; rewrite insert_id; [done|exact Ha1]).
  eexists db1, db2, _, _.
  split; [exact Hrun1|]. split; [exact Hrun2|]. split; [done|]. split.
  - (* the same asserted string: the blob of the first, too *)
    intros ->.
    assert (blob2 = blob) as ->.
    { destruct (decide (blob2 = blob)) as [|Hnb]; [done|].
      apply (unique_content_lookup db2 blob2 blob (Blob digest1 media_type2)
               (Blob digest1 media_type) (wf_content _ Hwf2)).
      - simpl. by rewrite lookup_insert_eq.
      - simpl. rewrite lookup_insert_ne by done. exact Hb1.
      - done. }
    assert (media_type2 = media_type) as ->.
    { destruct Hb_old as [Hnone|Hsome]; congruence. }
    assert (a2' = a') as ->.
    { destruct Hl_old as [Hnone|Hsome]; congruence. }
    assert (content db2 = content db1) as Hcontent
      by (simpl; rewrite insert_id; [done|exact Hb1]).
    assert (content_artifacts db2 = content_artifacts db1) as Hlinks
      by (simpl; rewrite insert_id; [done|exact Hl1]).
    assert (artifact2 = artifact) as ->.
    { pose proof (_artifacts_get_frame blob db1 db2 Hlinks Hartifacts) as Hsame'.
      rewrite Hget1, Hget2 in Hsame'. simpl in Hsame'. congruence. }
    split; [done|]. split; [done|]. split; [done|].
    eexists repository1, _.
    split; [done|]. split; [simpl; by rewrite lookup_insert_eq|].
    unfold latest_version. simpl. rewrite !last_snoc. f_equal.
    simpl. apply set_eq. intros p. rewrite !elem_of_union, elem_of_singleton. tauto.
  - (* a string that keys no blob: a new row *)
    intros Hother Hnew. exists blob2, media_type2. split; [|done].
    destruct Hb_old as [Hnone|Hsome]; [done|].
    simpl in Hsome. apply lookup_insert_Some in Hsome as [[_ Hrow]|[_ Hold]].
    + congruence.
    + by destruct (Hnew _ _ Hold).
Qed.

Lemma BlobUploads_put_twice_witness :
  let db := set_uploads (insert 9%N lab_upload) lab_db in
  (∃ db1 db2 headers,
     BlobUploads_put (lab_finalize "sha256:6c61796572") "library/app" 7 db
       = (db1, Ok (Response 201 headers))
     ∧ BlobUploads_put (lab_finalize "sha256:6c61796572") "library/app" 9 db1
       = (db2, Ok (Response 201 headers))
     ∧ artifacts db2 = artifacts db1
     ∧ content db2 = content db1
     ∧ content_artifacts db2 = content_artifacts db1)
  ∧ (∃ db1 db2 headers1 headers2 blob2 media_type,
       BlobUploads_put (lab_finalize "sha256:6c61796572") "library/app" 7 db
         = (db1, Ok (Response 201 headers1))
       ∧ BlobUploads_put (lab_finalize "sha512:6c61796572") "library/app" 9 db1
         = (db2, Ok (Response 201 headers2))
       ∧ artifacts db2 = artifacts db1
       ∧ content db1 !! blob2 = None
       ∧ content db2 = insert blob2 (Blob "sha512:6c61796572" media_type) (content db1)).
Proof.
  intros db.
  assert (wf db) as Hwf by (apply (bool_decide_unpack _); vm_compute; exact I).
  split.
  - destruct (BlobUploads_put_twice (lab_finalize "sha256:6c61796572")
                (lab_finalize "sha256:6c61796572") "library/app" 7 9 db
                (Distribution.mk (Some 10%N) None) 10 "sha256:6c61796572"
                "sha256:6c61796572" lab_upload lab_upload Hwf)
      as (db1 & db2 & headers1 & headers2 & Hrun1 & Hrun2 & Hartifacts & Hsame & _);
      [reflexivity | reflexivity | reflexivity | discriminate | reflexivity
      | reflexivity | reflexivity | reflexivity | reflexivity | reflexivity
      | reflexivity |].
    destruct (Hsame eq_refl) as (-> & Hcontent & Hlinks & _).
    exists db1, db2, headers1.
    exact (conj Hrun1 (conj Hrun2 (conj Hartifacts (conj Hcontent Hlinks)))).
  - destruct (BlobUploads_put_twice (lab_finalize "sha256:6c61796572")
                (lab_finalize "sha512:6c61796572") "library/app" 7 9 db
                (Distribution.mk (Some 10%N) None) 10 "sha256:6c61796572"
                "sha512:6c61796572" lab_upload lab_upload Hwf)
      as (db1 & db2 & headers1 & headers2 & Hrun1 & Hrun2 & Hartifacts & _ & Hnew);
      [reflexivity | reflexivity | reflexivity | discriminate | reflexivity
      | reflexivity | reflexivity | reflexivity | reflexivity | reflexivity
      | reflexivity |].
    destruct Hnew as (blob2 & media_type & Hfresh & Hcontent).
    + discriminate.
    + apply (bool_decide_unpack _). vm_compute. exact I.
    + exists db1, db2, headers1, headers2, blob2, media_type.
      exact (conj Hrun1 (conj Hrun2 (conj Hartifacts (conj Hfresh Hcontent)))).
Defined.

(** ** The repository actions that prepare a task *)

Lemma ContainerRepositoryViewSet_get_object_Ok pk_ db repository :
  repositories db !! pk_ = Some repository →
  Repository.type repository = ContainerRepository →
  ContainerRepositoryViewSet_get_object pk_ db = (db, Ok (pk_, repository)).
Proof.
  intros Hrepo Htype. unfold ContainerRepositoryViewSet_get_object.
  rewrite (objects_filter_singleton _ _ pk_ repository); try done.
  by intros k' v' _ [Hk _].
Qed.

Lemma add_loop_resolved `{Externals} urls db pks :
  Forall2 (λ url p, resolve_url url = Some p ∧ is_Some (content db !! p)) urls pks →
  ∀ collected, add_loop urls collected db = (db, Ok (collected ++ pks)).
Proof.
  induction 1 as [|url p urls pks [Hurl [c Hc]] _ IH]; intros collected; simpl.
  - by rewrite app_nil_r.
  - assert (get_resource url db = (db, Ok (p, c))) as Hget
      by (unfold get_resource; by rewrite Hurl, Hc).
    rewrite (bind_Ok _ _ _ _ _ Hget). simpl. rewrite IH.
    by rewrite <- app_assoc.
Qed.

Lemma add_loop_unresolved `{Externals} before url after db :
  Forall (λ url, is_Some (resolve_url url ≫= λ p, content db !! p)) before →
  resolve_url url ≫= (λ p, content db !! p) = None →
  ∀ collected,
    add_loop (before ++ url :: after) collected db = (db, Raise ValidationError).
Proof.
  intros Hbefore Hnone.
  induction Hbefore as [|url' before Hres _ IH]; intros collected; simpl.
  - unfold mbind, M_bind, get_resource.
    destruct (resolve_url url) as [p|]; [|done]. simpl in Hnone. by rewrite Hnone.
  - destruct (get_resource_resolves _ _ Hres) as [unit Hunit].
    rewrite (bind_Ok _ _ _ _ _ Hunit). apply IH.
Qed.

(** X18.  [ContainerRepositoryViewSet.add] resolves the submitted units in
    the order they are listed.  When every unit resolves to a content unit,
    it queues one [recursive_add_content] task for the repository with their
    primary keys in that order, repeated units repeated; when there is none
    it queues the task with an empty list.  The first unit that does not
    resolve ends the request with [ValidationError], and then nothing is
    queued.  The store is never written. *)
Theorem ContainerRepositoryViewSet_add_units `{Externals} request pk_ s repository :
  repositories (store s) !! pk_ = Some repository →
  Repository.type repository = ContainerRepository →
  RecursiveManageSerializer_is_valid (Request.content_units request) = true →
  (∀ pks,
     match Request.content_units request with
     | Some urls =>
         Forall2 (λ url p, resolve_url url = Some p ∧ is_Some (content (store s) !! p))
                 urls pks
     | None => pks = []
     end →
     let prepared := recursive_add_content_task pk_ (inl pks) in
     ContainerRepositoryViewSet_add request pk_ s
       = (mkTasking (store s) (plugin_queue s ++ [prepared]), Ok prepared))
  ∧ (∀ before url after,
       Request.content_units request = Some (before ++ url :: after) →
       Forall (λ url, is_Some (resolve_url url ≫= λ p, content (store s) !! p)) before →
       resolve_url url ≫= (λ p, content (store s) !! p) = None →
       ContainerRepositoryViewSet_add request pk_ s = (s, Raise ValidationError)).
Proof.
  intros Hrepo Htype Hvalid.
  pose proof (ContainerRepositoryViewSet_get_object_Ok pk_ _ repository Hrepo Htype) as Hget.
  split.
  - intros pks Hunits prepared.
    unfold ContainerRepositoryViewSet_add, enqueue_prepared.
    rewrite (bind_Ok _ _ _ _ _ Hget), Hvalid.
    unfold mbind at 1, M_bind at 1. simpl is_valid_or_raise. cbn beta iota.
    change ((mret () : M ()) (store s)) with (store s, Ok ()). cbn beta iota.
    destruct (Request.content_units request) as [urls|].
    + by rewrite (bind_Ok _ _ _ _ _ (add_loop_resolved urls (store s) pks Hunits [])).
    + by subst pks.
  - intros before url after Hunits Hbefore Hnone.
    unfold ContainerRepositoryViewSet_add, enqueue_prepared.
    rewrite (bind_Ok _ _ _ _ _ Hget), Hvalid, Hunits.
    unfold mbind at 1, M_bind at 1. simpl is_valid_or_raise. cbn beta iota.
    change ((mret () : M ()) (store s)) with (store s, Ok ()). cbn beta iota.
    rewrite (bind_Raise _ _ _ _ _
               (add_loop_unresolved before url after (store s) Hbefore Hnone [])).
    by destruct s.
Qed.

Lemma ContainerRepositoryViewSet_add_units_witness :
  let s := mkTasking lab_db [] in
  let prepared := recursive_add_content_task 11 (inl [3%N; 1%N; 3%N]) in
  ContainerRepositoryViewSet_add
      (lab_remove ["/content/tags/3/"; "/content/blobs/1/"; "/content/tags/3/"]) 11 s
    = (mkTasking lab_db [prepared], Ok prepared)
  ∧ ContainerRepositoryViewSet_add (lab_remove ["/content/blobs/1/"; "*"]) 11 s
    = (s, Raise ValidationError).
Proof.
  intros s prepared. split.
  - destruct (ContainerRepositoryViewSet_add_units
                (lab_remove ["/content/tags/3/"; "/content/blobs/1/"; "/content/tags/3/"])
                11 s (Repository.mk "mirror" ContainerRepository [∅; {[1%N; 2%N; 3%N; 4%N]}]))
      as [Hall _]; [reflexivity..|].
    apply (Hall [3%N; 1%N; 3%N]). simpl.
    repeat (constructor; [split; [reflexivity|by eexists]|]). constructor.
  - destruct (ContainerRepositoryViewSet_add_units
                (lab_remove ["/content/blobs/1/"; "*"])
                11 s (Repository.mk "mirror" ContainerRepository [∅; {[1%N; 2%N; 3%N; 4%N]}]))
      as [_ Hfirst]; [reflexivity..|].
    apply (Hfirst ["/content/blobs/1/"] "*" []); [reflexivity| |reflexivity].
    constructor; [|constructor]. by eexists.
Defined.

Lemma remove_loop_as_add_loop `{Externals} urls db :
  "*" ∉ urls →
  ∀ collected,
    remove_loop urls (inr <$> collected) db
    = match add_loop urls collected db with
      | (db', Ok pks) => (db', Ok (inr <$> pks))
      | (db', Raise e) => (db', Raise e)
      end.
Proof.
  induction urls as [|url urls IH]; intros Hnot collected; simpl; [done|].
  rewrite bool_decide_eq_false_2 by (intros ->; apply Hnot, list_elem_of_here).
  unfold mbind, M_bind.
  destruct (get_resource url db) as [db' [unit|e]] eqn:Hget; [|done].
  assert (db' = db) as ->.
  { unfold get_resource in Hget. destruct (resolve_url url) as [p|]; [|congruence].
    destruct (content db !! p); congruence. }
  specialize (IH (λ Hin, Hnot (list_elem_of_further _ _ _ Hin)) (collected ++ [unit.1])).
  rewrite fmap_app in IH. exact IH.
Qed.

(** X19.  But for the sentinel, [remove] prepares its task as [add] does: on
    a request whose units do not contain ["*"], the two views resolve the
    same units in the same order, so one fails exactly when the other does,
    with the same exception, and otherwise [remove] queues for the
    repository the units that [add] queues. *)
Theorem add_remove_agree `{Externals} request pk_ db queue :
  (∀ urls, Request.content_units request = Some urls → "*" ∉ urls) →
  match ContainerRepositoryViewSet_add request pk_ (mkTasking db queue),
        ContainerRepositoryViewSet_remove request pk_ db with
  | (s', Ok (recursive_add_content_task r units)), (db', Ok response) =>
      store s' = db
      ∧ ∃ pks, units = inl pks
               ∧ response = OperationPostponedResponse
                              (recursive_remove_content_task r (inr <$> pks))
  | (s', Raise e), (db', Raise e') => e = e' ∧ s' = mkTasking db queue ∧ db' = db
  | _, _ => False
  end.
Proof.
  intros Hnot.
  assert (∀ urls collected db',
            (∃ r, add_loop urls collected db = (db', r)) → db' = db) as Hreads.
  { induction urls as [|url urls IH]; intros collected db' [r Hrun]; simpl in Hrun.
    - by injection Hrun as <- _.
    - unfold mbind, M_bind, get_resource in Hrun.
      destruct (resolve_url url) as [p|]; [|by injection Hrun as <- _].
      destruct (content db !! p); [|by injection Hrun as <- _].
      eapply IH. eauto. }
  unfold ContainerRepositoryViewSet_add, ContainerRepositoryViewSet_remove,
    enqueue_prepared, is_valid_or_raise, mbind, M_bind.
  simpl store. simpl plugin_queue.
  destruct (ContainerRepositoryViewSet_get_object pk_ db) as [db0 [repository|e]] eqn:Hget.
  2:{ unfold ContainerRepositoryViewSet_get_object in Hget. by injection Hget as <- _. }
  assert (db0 = db) as ->
    by (unfold ContainerRepositoryViewSet_get_object in Hget; by injection Hget as <- _).
  destruct (RecursiveManageSerializer_is_valid (Request.content_units request));
    [|done]. simpl.
  destruct (Request.content_units request) as [urls|] eqn:Hunits.
  - pose proof (remove_loop_as_add_loop urls db (Hnot urls eq_refl) []) as Hloop.
    simpl in Hloop. rewrite Hloop.
    destruct (add_loop urls [] db) as [db' [pks|e]] eqn:Hadd.
    + rewrite (Hreads urls [] db') by eauto. simpl. split; [done|]. by exists pks.
    + by rewrite (Hreads urls [] db') by eauto.
  - simpl. split; [done|]. by exists [].
Qed.

Lemma add_remove_agree_witness :
  match ContainerRepositoryViewSet_add
          (lab_remove ["/content/tags/3/"; "/content/blobs/1/"]) 11 (mkTasking lab_db []),
        ContainerRepositoryViewSet_remove
          (lab_remove ["/content/tags/3/"; "/content/blobs/1/"]) 11 lab_db with
  | (s', Ok (recursive_add_content_task r units)), (db', Ok response) =>
      store s' = lab_db
      ∧ ∃ pks, units = inl pks
               ∧ response = OperationPostponedResponse
                              (recursive_remove_content_task r (inr <$> pks))
  | (s', Raise e), (db', Raise e') => e = e' ∧ s' = mkTasking lab_db [] ∧ db' = lab_db
  | _, _ => False
  end.
Proof.
  apply (add_remove_agree (lab_remove ["/content/tags/3/"; "/content/blobs/1/"])
           11 lab_db []).
  intros urls [= <-]. apply (bool_decide_unpack _). by vm_compute.
Defined.

Lemma NoDup_fst_objects_filter {K A} `{Countable K} (table : gmap K A)
    (P : K * A → Prop) `{∀ x, Decision (P x)} :
  NoDup (objects_filter table P).*1.
Proof. unfold objects_filter. apply NoDup_fst_map_to_list. Qed.

(** The rows of one kind that a version holds, as the two copy actions
    select them: through [pk__in] of the keys of the version's rows of that
    kind. *)
Lemma rows_of_kind_in_version db (kind : Content → Prop) `{∀ c, Decision (kind c)}
    (source : gset pk) p c :
  (p, c) ∈ objects_filter (content db)
             (λ kv, kind kv.2
                    ∧ kv.1 ∈ (objects_filter (content db)
                                (λ kv, kind kv.2 ∧ kv.1 ∈ source)).*1)
  ↔ content db !! p = Some c ∧ kind c ∧ p ∈ source.
Proof.
  rewrite elem_of_objects_filter. simpl. split.
  - intros (Hp & Hkind & Hin). split; [done|]. split; [done|].
    apply list_elem_of_fmap in Hin as ([p' c'] & -> & Hin).
    by apply elem_of_objects_filter in Hin as (_ & _ & Hsource).
  - intros (Hp & Hkind & Hsource). split; [done|]. split; [done|].
    apply list_elem_of_fmap. exists (p, c). split; [done|].
    by apply elem_of_objects_filter.
Qed.

(** X20.  [copy_tags] queues for the repository the tags of the source
    version, and nothing else of it: all of them when the request gives no
    [names], and otherwise those whose name is among [names] (none for an
    empty list), each tag once.  The request is validated before the
    repository is looked up, so a request the serializer rejects ends in
    [ValidationError] whatever the repository, and queues nothing. *)
Theorem ContainerRepositoryViewSet_copy_tags_selection `{CopySerializers} request pk_ s :
  (TagCopySerializer_source request (store s) = None →
     ContainerRepositoryViewSet_copy_tags request pk_ s = (s, Raise ValidationError))
  ∧ (∀ source repository,
       TagCopySerializer_source request (store s) = Some source →
       repositories (store s) !! pk_ = Some repository →
       Repository.type repository = ContainerRepository →
       ∃ pks,
         let prepared := recursive_add_content_task pk_ (inl pks) in
         ContainerRepositoryViewSet_copy_tags request pk_ s
           = (mkTasking (store s) (plugin_queue s ++ [prepared]), Ok prepared)
         ∧ NoDup pks
         ∧ ∀ p, p ∈ pks
                ↔ ∃ name m,
                    content (store s) !! p = Some (Tag name m)
                    ∧ p ∈ source
                    ∧ ∀ names, CopyRequest.names request = Some names → name ∈ names).
Proof.
  split.
  - intros Hsource. unfold ContainerRepositoryViewSet_copy_tags, enqueue_prepared.
    rewrite bind_get_db, Hsource. simpl. by destruct s.
  - intros source repository Hsource Hrepo Htype.
    pose proof (ContainerRepositoryViewSet_get_object_Ok pk_ _ repository Hrepo Htype)
      as Hget.
    eexists. cbn zeta. split; [|split].
    + unfold ContainerRepositoryViewSet_copy_tags, enqueue_prepared.
      rewrite bind_get_db, Hsource.
      unfold mbind at 1, M_bind at 1. simpl.
      rewrite (bind_Ok _ _ _ _ _ Hget). rewrite bind_get_db. simpl. reflexivity.
    + destruct (CopyRequest.names request) as [names|].
      * eapply sublist_NoDup; cycle 1;
          [apply fmap_sublist, sublist_filter|apply NoDup_fst_objects_filter].
      * apply NoDup_fst_objects_filter.
    + intros p. rewrite list_elem_of_fmap. split.
      * intros ([p' c] & -> & Hin). simpl.
        assert (content (store s) !! p' = Some c ∧ is_tag_row c ∧ p' ∈ source
                ∧ ∀ names, CopyRequest.names request = Some names → Tag_name_in names c)
          as (Hp & Hkind & Hin' & Hnames).
        { destruct (CopyRequest.names request) as [names|].
          - apply list_elem_of_filter in Hin as [Hname Hin]. simpl in Hname.
            apply rows_of_kind_in_version in Hin as (? & ? & ?).
            repeat split; try done. by intros ? [= <-].
          - apply rows_of_kind_in_version in Hin as (? & ? & ?).
            repeat split; done. }
        destruct c as [| |name m]; try done. exists name, m.
        split; [done|]. split; [done|]. intros names Heq. exact (Hnames names Heq).
      * intros (name & m & Hp & Hin & Hnames). exists (p, Tag name m).
        split; [done|].
        assert ((p, Tag name m)
                ∈ objects_filter (content (store s))
                    (λ kv, is_tag_row kv.2
                           ∧ kv.1 ∈ (objects_filter (content (store s))
                                       (λ kv, is_tag_row kv.2 ∧ kv.1 ∈ source)).*1))
          as Hrow by (by apply rows_of_kind_in_version).
        destruct (CopyRequest.names request) as [names|]; [|done].
        apply list_elem_of_filter. split; [|done]. simpl. by apply Hnames.
Qed.

Lemma ContainerRepositoryViewSet_copy_tags_selection_witness :
  ∃ pks,
    let request := CopyRequest.mk "library/app" (Some ["latest"; "stable"]) None None in
    let prepared := recursive_add_content_task 11 (inl pks) in
    ContainerRepositoryViewSet_copy_tags request 11 (mkTasking lab_db [])
      = (mkTasking lab_db [prepared], Ok prepared)
    ∧ NoDup pks
    ∧ ∀ p, p ∈ pks
           ↔ ∃ name m,
               content lab_db !! p = Some (Tag name m)
               ∧ p ∈@{gset pk} {[1%N; 2%N; 3%N; 4%N]}
               ∧ ∀ names, Some ["latest"; "stable"] = Some names → name ∈ names.
Proof.
  destruct (ContainerRepositoryViewSet_copy_tags_selection
              (CopyRequest.mk "library/app" (Some ["latest"; "stable"]) None None)
              11 (mkTasking lab_db [])) as [_ Hcopy].
  apply (Hcopy {[1%N; 2%N; 3%N; 4%N]}
           (Repository.mk "mirror" ContainerRepository [∅; {[1%N; 2%N; 3%N; 4%N]}]));
    reflexivity.
Defined.

(** X21.  [copy_manifests] queues for the repository the manifests of the
    source version, and nothing else of it, each once: those whose digest is
    among [digests] when the request gives that list, and whose media type
    is among [media_types] when it gives that one; a list that is given and
    empty selects nothing, a list that is not given filters nothing.  As in
    [copy_tags], a request the serializer rejects ends in [ValidationError]
    before the repository is looked up. *)
Theorem ContainerRepositoryViewSet_copy_manifests_selection `{CopySerializers} request
    pk_ s :
  (ManifestCopySerializer_source request (store s) = None →
     ContainerRepositoryViewSet_copy_manifests request pk_ s = (s, Raise ValidationError))
  ∧ (∀ source repository,
       ManifestCopySerializer_source request (store s) = Some source →
       repositories (store s) !! pk_ = Some repository →
       Repository.type repository = ContainerRepository →
       ∃ rows,
         let prepared := recursive_add_content_task pk_ (inr rows) in
         ContainerRepositoryViewSet_copy_manifests request pk_ s
           = (mkTasking (store s) (plugin_queue s ++ [prepared]), Ok prepared)
         ∧ NoDup rows.*1
         ∧ ∀ p c, (p, c) ∈ rows
                  ↔ content (store s) !! p = Some c
                    ∧ p ∈ source
                    ∧ ∃ digest schema_version media_type config_blob,
                        c = Manifest digest schema_version media_type config_blob
                        ∧ (∀ digests, CopyRequest.digests request = Some digests →
                                      digest ∈ digests)
                        ∧ (∀ media_types,
                             CopyRequest.media_types request = Some media_types →
                             media_type ∈ media_types)).
Proof.
  split.
  - intros Hsource. unfold ContainerRepositoryViewSet_copy_manifests, enqueue_prepared.
    rewrite bind_get_db, Hsource. simpl. by destruct s.
  - intros source repository Hsource Hrepo Htype.
    pose proof (ContainerRepositoryViewSet_get_object_Ok pk_ _ repository Hrepo Htype)
      as Hget.
    eexists. cbn zeta. split; [|split].
    + unfold ContainerRepositoryViewSet_copy_manifests, enqueue_prepared.
      rewrite bind_get_db, Hsource.
      unfold mbind at 1, M_bind at 1. simpl.
      rewrite (bind_Ok _ _ _ _ _ Hget). rewrite bind_get_db. simpl. reflexivity.
    + eapply sublist_NoDup; cycle 1;
        [apply fmap_sublist, sublist_filter|apply NoDup_fst_objects_filter].
    + intros p c. rewrite list_elem_of_filter, rows_of_kind_in_version. simpl. split.
      * intros (Hfilters & Hp & Hkind & Hin). split; [done|]. split; [done|].
        destruct c as [|digest sv mt cb|]; try done. exists digest, sv, mt, cb.
        split; [done|]. destruct Hfilters as [Hdigest Hmt]. split.
        -- intros digests Heq. by rewrite Heq in Hdigest.
        -- intros media_types Heq. by rewrite Heq in Hmt.
      * intros (Hp & Hin & digest & sv & mt & cb & -> & Hdigest & Hmt).
        split; [|done]. simpl. split.
        -- destruct (CopyRequest.digests request); [by apply Hdigest|done].
        -- destruct (CopyRequest.media_types request); [by apply Hmt|done].
Qed.

Lemma ContainerRepositoryViewSet_copy_manifests_selection_witness :
  ∃ rows,
    let request := CopyRequest.mk "library/app" None (Some ["sha256:0d"]) None in
    let prepared := recursive_add_content_task 11 (inr rows) in
    ContainerRepositoryViewSet_copy_manifests request 11 (mkTasking lab_db [])
      = (mkTasking lab_db [prepared], Ok prepared)
    ∧ NoDup rows.*1
    ∧ ∀ p c, (p, c) ∈ rows
             ↔ content lab_db !! p = Some c
               ∧ p ∈@{gset pk} {[1%N; 2%N; 3%N; 4%N]}
               ∧ ∃ digest schema_version media_type config_blob,
                   c = Manifest digest schema_version media_type config_blob
                   ∧ (∀ digests, Some ["sha256:0d"] = Some digests → digest ∈ digests)
                   ∧ (∀ media_types, @None (list string) = Some media_types →
                                     media_type ∈ media_types).
Proof.
  destruct (ContainerRepositoryViewSet_copy_manifests_selection
              (CopyRequest.mk "library/app" None (Some ["sha256:0d"]) None)
              11 (mkTasking lab_db [])) as [_ Hcopy].
  apply (Hcopy {[1%N; 2%N; 3%N; 4%N]}
           (Repository.mk "mirror" ContainerRepository [∅; {[1%N; 2%N; 3%N; 4%N]}]));
    reflexivity.
Defined.

(** ** Tokens *)

(** X22.  [BearerTokenView.get] hands out a token for a named account only
    to a request that is authenticated as that account; a request that names
    no account (or the empty one) gets the anonymous token without being
    looked at.  The token is generated for the account, the [service] and
    the [scope] of the query, the scope defaulting to [::]; without a
    [service] no token is generated. *)
Theorem BearerTokenView_get_account `{Authorization} request :
  let query := TokenRequest.query_params request in
  let account := default ANONYMOUS_USER (query !! "account") in
  let scope := default EMPTY_ACCESS_SCOPE (query !! "scope") in
  match BearerTokenView_get request with
  | inr (BodyResponse data headers) =>
      ∃ service,
        query !! "service" = Some service
        ∧ data = generate_token account service scope
        ∧ (account = ANONYMOUS_USER
           ∨ (TokenRequest.user_is_authenticated request = true
              ∧ TokenRequest.user_username request = account))
  | inl _ =>
      query !! "service" = None
      ∨ (account ≠ ANONYMOUS_USER
         ∧ (TokenRequest.user_is_authenticated request = false
            ∨ TokenRequest.user_username request ≠ account))
  end.
Proof.
  intros query account scope. unfold BearerTokenView_get.
  fold query. fold account.
  destruct (query !! "service") as [service|] eqn:Hservice; [|by left].
  fold scope. case_bool_decide as Hanonymous.
  - destruct (TokenRequest.user_is_authenticated request) eqn:Hauth; simpl.
    + case_bool_decide as Hname.
      * right. split; [done|]. right. congruence.
      * exists service. split; [done|]. split; [done|]. right. split; [done|].
        by destruct (decide (account = TokenRequest.user_username request)).
    + right. split; [done|]. by left.
  - exists service. split; [done|]. split; [done|]. left.
    by destruct (decide (account = ANONYMOUS_USER)).
Qed.

(** ** Chunks without a usable range *)

(** X23.  [BlobUploads.partial_update] never rejects a [Content-Range]
    header for being malformed.  A request that is not the single-shot
    upload and whose header is absent or does not match
    [^(?P<start>\d+)-(?P<end>\d+)$] is handled as the chunk 0-0 of size 0:
    it is refused with [OffsetMismatch] when the upload has received bytes,
    and on an upload at offset 0 its body goes to [append_chunk] with
    [chunk_size=0] and the upload is saved. *)
Theorem BlobUploads_partial_update_malformed_range `{Externals} request path pk_ db
    distribution r upload :
  get_dr_push path db = (db, Ok (distribution, r)) →
  uploads db !! pk_ = Some upload →
  Upload.repository upload = r →
  request_whole request = false →
  content_range_pattern_match (default EmptyString (Request.content_range request))
    = None →
  chunk_range request = (0, 0, Some 0)
  ∧ (Upload.offset upload ≠ 0 →
     BlobUploads_partial_update request path pk_ db = (db, Raise OffsetMismatch))
  ∧ (Upload.offset upload = 0 →
     let upload' := append_chunk upload (Request.body request) 0 in
     BlobUploads_partial_update request path pk_ db
       = (set_uploads (insert pk_ upload') db,
          Ok (UploadResponse pk_ upload' path (Z.of_nat (length (Upload.file upload')))))).
Proof.
  intros Hpush Hup Hrepo Hwhole Hmatch.
  assert (chunk_range request = (0, 0, Some 0)) as Hrange
    by (unfold chunk_range; by rewrite Hwhole, Hmatch).
  split; [done|].
  rewrite (BlobUploads_partial_update_unfold _ _ _ _ _ _ _ Hpush Hup Hrepo), Hrange.
  split.
  - intros Hoffset. by rewrite bool_decide_eq_true_2.
  - intros Hoffset. by rewrite bool_decide_eq_false_2 by (intros Hne; by apply Hne).
Qed.

Lemma BlobUploads_partial_update_malformed_range_witness :
  chunk_range (lab_chunk "bytes 5-9") = (0, 0, Some 0)
  ∧ BlobUploads_partial_update (lab_chunk "bytes 5-9") "library/app" 7 lab_db
    = (lab_db, Raise OffsetMismatch)
  ∧ BlobUploads_partial_update (lab_chunk "bytes 0-4") "library/app" 8 lab_db
    = (set_uploads (insert 8%N (append_chunk lab_fresh_upload layer_data 0)) lab_db,
       Ok (UploadResponse 8 (append_chunk lab_fresh_upload layer_data 0) "library/app"
             (Z.of_nat (length (Upload.file (append_chunk lab_fresh_upload layer_data 0)))))).
Proof.
  destruct (BlobUploads_partial_update_malformed_range (lab_chunk "bytes 5-9")
              "library/app" 7 lab_db (Distribution.mk (Some 10%N) None) 10 lab_upload)
    as (Hrange & Hrefused & _); [reflexivity..|].
  destruct (BlobUploads_partial_update_malformed_range (lab_chunk "bytes 0-4")
              "library/app" 8 lab_db (Distribution.mk (Some 10%N) None) 10 lab_fresh_upload)
    as (_ & _ & Haccepted); [reflexivity..|].
  split; [exact Hrange|]. split.
  - apply Hrefused. vm_compute. discriminate.
  - apply Haccepted. reflexivity.
Defined.

(** ** Pinned distributions *)

Lemma get_drv_pull_pinned_inv path db distribution version :
  get_drv_pull path db = (db, Ok (distribution, None, Some version)) →
  distributions db !! path = Some distribution
  ∧ Distribution.repository distribution = None
  ∧ ∃ r number repository,
      Distribution.repository_version distribution = Some (r, number)
      ∧ repositories db !! r = Some repository
      ∧ Repository.versions repository !! number = Some version.
Proof.
  unfold get_drv_pull. intros Hpull.
  destruct (distributions db !! path) as [dist|] eqn:Hpath.
  - rewrite (distribution_queryset _ _ _ Hpath) in Hpull. simpl in Hpull.
    destruct (Distribution.repository dist) as [r|] eqn:Hrepo.
    { by destruct (repositories db !! r). }
    destruct (Distribution.repository_version dist) as [[r number]|] eqn:Hpin; [|done].
    destruct (repositories db !! r) as [repository|] eqn:Hr; [|done].
    injection Hpull as <- Hversion. eauto 10.
  - rewrite objects_filter_nil in Hpull; [done|].
    intros k v Hk Heq. simpl in Heq. subst k. by rewrite Hpath in Hk.
Qed.

Lemma get_drv_pull_pinned path db distribution r number repository :
  distributions db !! path = Some distribution →
  Distribution.repository distribution = None →
  Distribution.repository_version distribution = Some (r, number) →
  repositories db !! r = Some repository →
  get_drv_pull path db
    = (db, Ok (distribution, None, Repository.versions repository !! number)).
Proof.
  intros Hpath Hrepo Hpin Hr. unfold get_drv_pull.
  rewrite (distribution_queryset _ _ _ Hpath). simpl. by rewrite Hrepo, Hpin, Hr.
Qed.

(** The rows of a published version are found again, and no others, however
    the content table has grown. *)
Lemma objects_filter_in_version db db' version (P : pk * Content → Prop)
    `{∀ x, Decision (P x)} :
  extends db db' → version_ok db version →
  (∀ x, P x → x.1 ∈ version) →
  objects_filter (content db') P = objects_filter (content db) P.
Proof.
  intros Hext Hversion Hin. unfold objects_filter. f_equal.
  apply map_eq. intros p. apply option_eq. intros c.
  rewrite !map_lookup_filter_Some. split.
  - intros [Hp' HP]. split; [|done].
    destruct (Hversion p (Hin _ HP)) as [c0 Hc0].
    pose proof (extends_lookup_content _ _ _ _ Hext Hc0) as Hp0. congruence.
  - intros [Hp HP]. split; [|done]. by eapply extends_lookup_content.
Qed.

Lemma tagged_manifest_extends db db' tag :
  extends db db' → content db !! tag.1 = Some tag.2 → references_ok db →
  (tagged_manifest tag db').2 = (tagged_manifest tag db).2.
Proof.
  intros Hext Htag Hrefs. unfold tagged_manifest.
  destruct tag as [t [| |name m]]; simpl in *; try done.
  pose proof (references_rows _ Hrefs _ _ Htag) as Hrow. simpl in Hrow.
  unfold is_manifest_at in Hrow.
  destruct (content db !! m) as [[]|] eqn:Hm; try done.
  by rewrite (extends_lookup_content _ _ _ _ Hext Hm).
Qed.

Lemma pinned_version_ok db r number repository version :
  references_ok db →
  repositories db !! r = Some repository →
  Repository.versions repository !! number = Some version →
  version_ok db version.
Proof.
  intros Hrefs Hr Hversion.
  pose proof (references_versions _ Hrefs _ _ Hr) as Hall. simpl in Hall.
  by eapply (proj1 (Forall_lookup _ _) Hall).
Qed.

Lemma pinned_pull_extends path db db' distribution version :
  extends db db' →
  get_drv_pull path db = (db, Ok (distribution, None, Some version)) →
  get_drv_pull path db' = (db', Ok (distribution, None, Some version)).
Proof.
  intros Hext Hpull.
  destruct (get_drv_pull_pinned_inv _ _ _ _ Hpull)
    as (Hpath & Hrepo & r & number & repository & Hpin & Hr & Hversion).
  destruct (extends_repositories _ _ Hext _ _ Hr) as (repository' & Hr' & _ & _ & Hprefix).
  rewrite (get_drv_pull_pinned path db' distribution r number repository'); try done.
  - by rewrite (prefix_lookup_Some _ _ _ _ Hversion Hprefix).
  - eapply lookup_weaken; [done|]. apply Hext.
Qed.

Lemma get_drv_pull_version_ok path db distribution repository version :
  references_ok db →
  get_drv_pull path db = (db, Ok (distribution, repository, Some version)) →
  version_ok db version.
Proof.
  intros Hrefs. unfold get_drv_pull.
  destruct (get_object_or_404 _ _) as [[k dist]|]; [|done].
  destruct (Distribution.repository dist) as [r|].
  - destruct (repositories db !! r) as [repo|] eqn:Hr; [|done].
    intros [= _ _ Hlast]. unfold latest_version in Hlast.
    pose proof (references_versions _ Hrefs _ _ Hr) as Hall. simpl in Hall.
    apply last_Some in Hlast as [versions Hlast]. rewrite Hlast in Hall.
    apply Forall_app in Hall as [_ Hall].
    by apply (proj1 (Forall_singleton _ _)) in Hall.
  - destruct (Distribution.repository_version dist) as [[r number]|]; [|done].
    destruct (repositories db !! r) as [repo|] eqn:Hr; [|done].
    intros [= _ _ Hversion]. by eapply pinned_version_ok.
Qed.

(** Two stores, the second grown from the first, in which a path serves the
    same version: the views that redirect or list answer alike. *)
Lemma served_rows_agree `{Externals} path db db' distribution repository version :
  extends db db' → references_ok db →
  get_drv_pull path db = (db, Ok (distribution, repository, Some version)) →
  get_drv_pull path db' = (db', Ok (distribution, repository, Some version)) →
  ∀ reference,
    (Manifests_get path reference db').2 = (Manifests_get path reference db).2
    ∧ (Blobs_get path reference db').2 = (Blobs_get path reference db).2
    ∧ (TagsListView_get path db').2 = (TagsListView_get path db).2.
Proof.
  intros Hext Hrefs Hpull Hpull' reference.
  pose proof (get_drv_pull_version_ok _ _ _ _ _ Hrefs Hpull) as Hok.
  split; [|split].
  - unfold Manifests_get.
    rewrite (bind_Ok _ _ _ _ _ Hpull), (bind_Ok _ _ _ _ _ Hpull'). cbn beta iota.
    unfold mbind, M_bind, lift, get_db, version_content, mret, M_ret.
    case_bool_decide; simpl.
    + rewrite (objects_filter_in_version db db' version) by (done || by intros ? [_ ?]).
      destruct (get_object_or_404 _ _) as [tag|] eqn:Htag; [|done].
      assert (content db !! tag.1 = Some tag.2) as Hrow.
      { unfold get_object_or_404, queryset_get in Htag.
        destruct (objects_filter _ _) as [|[t c] [|]] eqn:Hrows; try done.
        injection Htag as <-.
        assert ((t, c) ∈ objects_filter (content db)
                  (λ kv, is_tag_named reference kv.2 ∧ kv.1 ∈ version)) as Hin
          by (rewrite Hrows; apply list_elem_of_here).
        by apply elem_of_objects_filter in Hin as [? _]. }
      pose proof (tagged_manifest_extends db db' tag Hext Hrow Hrefs) as Hsame.
      rewrite (surjective_pairing (tagged_manifest tag db')),
              (surjective_pairing (tagged_manifest tag db)), Hsame.
      by destruct (tagged_manifest tag db).2.
    + rewrite (objects_filter_in_version db db' version) by (done || by intros ? [_ ?]).
      by destruct (get_object_or_404 _ _).
  - unfold Blobs_get.
    rewrite (bind_Ok _ _ _ _ _ Hpull), (bind_Ok _ _ _ _ _ Hpull'). cbn beta iota.
    unfold mbind, M_bind, lift, get_db, version_content, mret, M_ret. simpl.
    rewrite (objects_filter_in_version db db' version) by (done || by intros ? [_ ?]).
    by destruct (get_object_or_404 _ _).
  - unfold TagsListView_get.
    rewrite (bind_Ok _ _ _ _ _ Hpull), (bind_Ok _ _ _ _ _ Hpull'). cbn beta iota.
    unfold mbind, M_bind, lift, get_db, version_content, mret, M_ret. simpl.
    unfold RepositoryVersion_content.
    by rewrite (objects_filter_in_version db db' version) by done.
Qed.

(** X24.  What a distribution pinned to a repository version serves never
    changes while the store only grows, which is all the push views do:
    [get_drv_pull] keeps finding the same version, and [Manifests.get],
    [Blobs.get] and [TagsListView.get] keep giving the same answer for every
    reference, whatever has been pushed or published in between. *)
Theorem pinned_distribution_is_immutable `{Externals} path db db' distribution version :
  integrity db →
  extends db db' →
  get_drv_pull path db = (db, Ok (distribution, None, Some version)) →
  get_drv_pull path db' = (db', Ok (distribution, None, Some version))
  ∧ ∀ reference,
      (Manifests_get path reference db').2 = (Manifests_get path reference db).2
      ∧ (Blobs_get path reference db').2 = (Blobs_get path reference db).2
      ∧ (TagsListView_get path db').2 = (TagsListView_get path db).2.
Proof.
  intros [Hwf Hrefs] Hext Hpull.
  pose proof (pinned_pull_extends _ _ _ _ _ Hext Hpull) as Hpull'.
  split; [done|]. by eapply served_rows_agree.
Qed.

Lemma pinned_distribution_is_immutable_witness :
  let db' := (Manifests_put lab_push "library/app" "latest" lab_pinned_db).1 in
  get_drv_pull "pinned/app" db'
    = (db', Ok (Distribution.mk None (Some (10%N, 1%nat)), None,
                Some {[1%N; 2%N; 3%N; 4%N]}))
  ∧ ∀ reference,
      (Manifests_get "pinned/app" reference db').2
        = (Manifests_get "pinned/app" reference lab_pinned_db).2
      ∧ (Blobs_get "pinned/app" reference db').2
        = (Blobs_get "pinned/app" reference lab_pinned_db).2
      ∧ (TagsListView_get "pinned/app" db').2
        = (TagsListView_get "pinned/app" lab_pinned_db).2.
Proof.
  apply (pinned_distribution_is_immutable "pinned/app" lab_pinned_db).
  - apply (bool_decide_unpack _). vm_compute. exact I.
  - apply appends_Manifests_put.
  - reflexivity.
Defined.

(** ** Requests that fail *)

Lemma get_dr_push_cases path db :
  (∃ distribution r, get_dr_push path db = (db, Ok (distribution, r)))
  ∨ (∃ e, get_dr_push path db = (db, Raise e)).
Proof.
  pose proof (reads_get_dr_push path db) as Hreads.
  destruct (get_dr_push path db) as [db0 [[d r]|e]]; simpl in Hreads; subst db0; eauto.
Qed.

Lemma Upload_queryset_cases db r pk_ :
  (∃ upload, uploads db !! pk_ = Some upload ∧ Upload.repository upload = r
             ∧ Upload_queryset r pk_ db = [(pk_, upload)])
  ∨ Upload_queryset r pk_ db = [].
Proof.
  destruct (uploads db !! pk_) as [upload|] eqn:Hup.
  - destruct (decide (Upload.repository upload = r)) as [Hrepo|Hrepo].
    + left. exists upload. eauto using Upload_queryset_lookup.
    + right. apply Upload_queryset_none. intros upload' Hup'. congruence.
  - right. apply Upload_queryset_none. intros upload' Hup'. congruence.
Qed.

(** X25.  The blob upload views are all-or-nothing.  On a well-formed store a
    [BlobUploads.put] that fails has written nothing: past the digest check
    every step succeeds, so the upload is converted entirely or left as it
    was, with no artifact, blob, link or version behind.  A
    [BlobUploads.partial_update] that fails has not touched the upload
    either. *)
Theorem blob_upload_views_all_or_nothing `{Externals} request path pk_ db e :
  wf db →
  ((BlobUploads_partial_update request path pk_ db).2 = Raise e →
   (BlobUploads_partial_update request path pk_ db).1 = db)
  ∧ ((BlobUploads_put request path pk_ db).2 = Raise e →
     (BlobUploads_put request path pk_ db).1 = db).
Proof.
  intros Hwf.
  destruct (get_dr_push_cases path db) as [(distribution & r & Hpush)|[e0 Hpush]]; cycle 1.
  { split; intros _.
    - unfold BlobUploads_partial_update. by rewrite (bind_Raise _ _ _ _ _ Hpush).
    - unfold BlobUploads_put. by rewrite (bind_Raise _ _ _ _ _ Hpush). }
  split.
  - unfold BlobUploads_partial_update.
    rewrite (bind_Ok _ _ _ _ _ Hpush). cbn beta iota.
    destruct (chunk_range request) as [[start end_] chunk_size].
    rewrite bind_get_db.
    destruct (get_object_or_404 "Upload" (Upload_queryset r pk_ db)) as [[k upload]|e1];
      [|done].
    rewrite (bind_lift_Ok _ _ _ (k, upload) eq_refl). cbn beta iota.
    case_bool_decide; [done|].
    by destruct chunk_size.
  - destruct (Request.query_digest request) as [digest|] eqn:Hdigest; cycle 1.
    { intros _. unfold BlobUploads_put.
      rewrite (bind_Ok _ _ _ _ _ Hpush). cbn beta iota.
      unfold query_params_digest. by rewrite Hdigest. }
    destruct (Upload_queryset_cases db r pk_) as [(upload & Hup & Hrepo & _)|Hnone]; cycle 1.
    { intros _. unfold BlobUploads_put.
      rewrite (bind_Ok _ _ _ _ _ Hpush). cbn beta iota.
      unfold query_params_digest. rewrite Hdigest.
      by rewrite (bind_lift_Ok _ _ _ digest eq_refl), bind_get_db, Hnone. }
    destruct (decide (Upload.sha256 upload = str_drop len_sha256_prefix digest))
      as [Hmatch|Hmatch].
    + destruct (BlobUploads_put_ok request path pk_ db distribution r digest upload
                  Hwf Hpush Hdigest Hup Hrepo Hmatch)
        as (a & arow & blob & mt & a' & repository & artifact & Hrun).
      cbn zeta in Hrun. destruct Hrun as (_ & _ & Hrun & _).
      rewrite Hrun. done.
    + intros _.
      by rewrite (BlobUploads_put_mismatch request path pk_ db distribution r digest upload).
Qed.

Lemma blob_upload_views_all_or_nothing_witness :
  (BlobUploads_partial_update (lab_chunk "6-9") "library/app" 7 lab_db).1 = lab_db
  ∧ (BlobUploads_put (lab_finalize "sha256:bad") "library/app" 7 lab_db).1 = lab_db.
Proof.
  assert (wf lab_db) as Hwf by (apply (bool_decide_unpack _); vm_compute; exact I).
  destruct (blob_upload_views_all_or_nothing (lab_chunk "6-9") "library/app" 7 lab_db
              OffsetMismatch Hwf) as [Hupdate _].
  destruct (blob_upload_views_all_or_nothing (lab_finalize "sha256:bad") "library/app" 7
              lab_db (Exception_ (Some "The digest did not match")) Hwf) as [_ Hput].
  split; [apply Hupdate|apply Hput]; reflexivity.
Defined.

Lemma nothing_published_refl db : nothing_published db db.
Proof. split; try done. intros p c Hp. by left. Qed.

Lemma bind_lift_Raise {A B} (k : A → M B) db e : (lift (Raise e) ≫= k) db = (db, Raise e).
Proof. done. Qed.

Lemma receive_artifact_total `{Externals} chunk db :
  wf db →
  ∃ a row,
    receive_artifact chunk db = (set_artifacts (insert a row) db, Ok (a, row))
    ∧ wf (set_artifacts (insert a row) db).
Proof.
  intros Hwf. unfold receive_artifact.
  rewrite receive_loop_all by lia. simpl.
  match goal with
  | |- context [Artifact_save ?x] =>
      destruct (Artifact_save_or_get x db (wf_artifacts _ Hwf))
        as (p & row & db' & Hrun & Hsha & Hcases)
  end.
  exists p, row. simpl in Hrun. rewrite Hrun.
  destruct Hcases as [[Hp ->]|(Hp & -> & -> & Hfree)].
  - by rewrite set_artifacts_insert_id.
  - split; [done|]. by apply wf_insert_artifact.
Qed.

(** An ingestion that fails has stopped before its first link, tag or
    version: on a well-formed store every step from the [bulk_create] on
    succeeds. *)
Lemma Manifests_put_failure `{Externals} request path name db :
  wf db →
  match Manifests_put request path name db with
  | (db', Raise _) => nothing_published db db'
  | (_, Ok _) => True
  end.
Proof.
  intros Hwf. unfold Manifests_put.
  destruct (get_dr_push_cases path db) as [(distribution & r & Hpush)|[e0 Hpush]]; cycle 1.
  { rewrite (bind_Raise _ _ _ _ _ Hpush). apply nothing_published_refl. }
  rewrite (bind_Ok _ _ _ _ _ Hpush). cbn beta iota.
  destruct (get_dr_push_Ok _ _ _ _ _ Hpush) as [_ (repository & Hrepository & _)].
  destruct (receive_artifact_total (Request.body request) db Hwf)
    as (a & arow & Hrecv & Hwf1).
  rewrite (bind_Ok _ _ _ _ _ Hrecv). cbn [fst snd].
  set (db1 := set_artifacts (insert a arow) db) in *.
  assert (nothing_published db db1) as Hquiet1.
  { split; try done. intros p c Hp. by left. }
  destruct (json_loads (Artifact.file arow)) as [content_data|];
    [|by rewrite bind_lift_Raise].
  rewrite (bind_lift_Ok _ _ _ content_data eq_refl).
  destruct (py_get content_data "config") as [config_layer|e1];
    [|by rewrite bind_lift_Raise].
  rewrite (bind_lift_Ok _ _ _ config_layer eq_refl).
  destruct (py_get config_layer "digest") as [config_digest|e1];
    [|by rewrite bind_lift_Raise].
  rewrite (bind_lift_Ok _ _ _ config_digest eq_refl).
  pose proof (reads_Blob_objects_get (lookup_value config_digest) db1) as Hreads.
  destruct (Blob_objects_get (lookup_value config_digest) db1)
    as [db1' [config_blob|e1]] eqn:Hcfg; simpl in Hreads; subst db1';
    [|by rewrite (bind_Raise _ _ _ _ _ Hcfg)].
  rewrite (bind_Ok _ _ _ _ _ Hcfg).
  set (digest := "sha256:" +:+ Artifact.sha256 arow).
  destruct (put_manifest_ok digest (Request.content_type request) config_blob.1 db1 Hwf1)
    as (m & sv & mt & cb & Hman & Hwf2 & Hm_old).
  rewrite (bind_Ok _ _ _ _ _ Hman). cbn [fst snd].
  set (db2 := set_content (insert m (Manifest digest sv mt cb)) db1) in *.
  destruct (put_blob_artifact_ok a m (Manifest digest sv mt cb) db2 Hwf2)
    as (a' & Hlink & Hwf3).
  { simpl. rewrite lookup_insert_eq. eauto. }
  { simpl. by rewrite lookup_insert_eq. }
  { done. }
  simpl Content_digest in Hlink, Hwf3.
  change (put_manifest_artifact a m (Content_digest (Manifest digest sv mt cb)))
    with (put_blob_artifact a m digest).
  rewrite (bind_Ok _ _ _ _ _ Hlink).
  set (db3 := set_content_artifacts (insert (m, digest) a') db2) in *.
  assert (nothing_published db db3) as Hquiet3.
  { split; try done. intros p c. simpl. rewrite lookup_insert_Some.
    intros [[<- <-]|[_ Hp]]; [right; eauto|by left]. }
  destruct (py_get content_data "layers") as [layers|e1];
    [|by rewrite bind_lift_Raise].
  rewrite (bind_lift_Ok _ _ _ layers eq_refl).
  destruct (py_iter layers) as [items|e1]; [|by rewrite bind_lift_Raise].
  rewrite (bind_lift_Ok _ _ _ items eq_refl).
  destruct (layer_digests items []) as [blobs|e1]; [|by rewrite bind_lift_Raise].
  rewrite (bind_lift_Ok _ _ _ blobs eq_refl), bind_get_db.
  unfold mbind at 1, M_bind at 1, BlobManifest_bulk_create at 1.
  set (thru := (λ blob : pk * Content, (m, blob.1))
                 <$> Blob_objects_filter_digest_in blobs db3).
  set (db4 := set_blob_manifests (λ links, links ∪ list_to_set thru) db3).
  assert (wf db4) as Hwf4 by (by apply (wf_frame db3)).
  destruct (put_tag_ok name m db4 Hwf4) as (t & Htag & Hwf5 & Ht_old).
  rewrite (bind_Ok _ _ _ _ _ Htag).
  set (db5 := set_content (insert t (Tag name m)) db4) in *.
  rewrite (bind_Ok _ _ _ _ _ (new_version_Ok r _ db5 repository Hrepository)).
  match goal with
  | |- context [ManifestResponse _ _ _ ?db] => set (db6 := db)
  end.
  assert (wf db6) as Hwf6 by (by apply (wf_frame db5)).
  destruct (_artifacts_get_ok m (Manifest digest sv mt cb) db6 Hwf6) as [artifact Hget].
  { simpl. destruct (decide (t = m)) as [->|Hne].
    - destruct Ht_old as [Hold|Hold]; simpl in Hold;
        by rewrite lookup_insert_eq in Hold.
    - rewrite lookup_insert_ne by done. by rewrite lookup_insert_eq. }
  { done. }
  { simpl. rewrite lookup_insert_eq. eauto. }
  unfold ManifestResponse. by rewrite (bind_Ok _ _ _ _ _ Hget).
Qed.

Lemma get_drv_pull_frame path db db' :
  repositories db' = repositories db →
  distributions db' = distributions db →
  get_drv_pull path db = (db, (get_drv_pull path db).2)
  ∧ get_drv_pull path db' = (db', (get_drv_pull path db).2).
Proof.
  intros Hrepos Hdists. unfold get_drv_pull. rewrite Hrepos, Hdists.
  destruct (get_object_or_404 _ _) as [[? dist]|]; [|done].
  destruct (Distribution.repository dist) as [r|].
  - by destruct (repositories db !! r).
  - destruct (Distribution.repository_version dist) as [[r n]|]; [|done].
    by destruct (repositories db !! r).
Qed.

(** Pulls do not see what was stored and not published. *)
Lemma unpublished_pulls_agree `{Externals} db db' :
  extends db db' → references_ok db →
  repositories db' = repositories db →
  distributions db' = distributions db →
  ∀ path reference,
    (Manifests_get path reference db').2 = (Manifests_get path reference db).2
    ∧ (Blobs_get path reference db').2 = (Blobs_get path reference db).2
    ∧ (TagsListView_get path db').2 = (TagsListView_get path db).2.
Proof.
  intros Hext Hrefs Hrepos Hdists path reference.
  destruct (get_drv_pull_frame path db db' Hrepos Hdists) as [Hpull Hpull'].
  destruct (get_drv_pull path db).2 as [[[distribution repository] [version|]]|e].
  - by eapply served_rows_agree.
  - unfold Manifests_get, Blobs_get, TagsListView_get.
    rewrite !(bind_Ok _ _ _ _ _ Hpull), !(bind_Ok _ _ _ _ _ Hpull'). cbn beta iota.
    unfold mbind, M_bind, lift, version_content. by case_bool_decide.
  - unfold Manifests_get, Blobs_get, TagsListView_get.
    by rewrite !(bind_Raise _ _ _ _ _ Hpull), !(bind_Raise _ _ _ _ _ Hpull').
Qed.

(** X26.  A [Manifests.put] that fails publishes nothing.  On a store with
    its integrity, whatever made the request fail, no repository has a new
    version, no tag, blob or blob-manifest link was added (the artifact of
    the body, its manifest row and their link may stay behind), and
    [Manifests.get], [Blobs.get] and [TagsListView.get] answer every request,
    on every path, as they did before. *)
Theorem Manifests_put_failure_publishes_nothing `{Externals} request path name db e :
  integrity db →
  (Manifests_put request path name db).2 = Raise e →
  let db' := (Manifests_put request path name db).1 in
  nothing_published db db'
  ∧ ∀ path' reference,
      (Manifests_get path' reference db').2 = (Manifests_get path' reference db).2
      ∧ (Blobs_get path' reference db').2 = (Blobs_get path' reference db).2
      ∧ (TagsListView_get path' db').2 = (TagsListView_get path' db).2.
Proof.
  intros [Hwf Hrefs] Hraise db'.
  assert (nothing_published db db') as Hquiet.
  { pose proof (Manifests_put_failure request path name db Hwf) as Hfail.
    subst db'. destruct (Manifests_put request path name db) as [db1 [|e1]]; [done|].
    exact Hfail. }
  split; [done|].
  apply unpublished_pulls_agree; [|done|apply Hquiet..].
  apply appends_Manifests_put.
Qed.

Lemma Manifests_put_failure_publishes_nothing_witness :
  let db' := (Manifests_put (lab_chunk "0-4") "library/app" "latest" lab_db).1 in
  nothing_published lab_db db'
  ∧ ∀ path' reference,
      (Manifests_get path' reference db').2 = (Manifests_get path' reference lab_db).2
      ∧ (Blobs_get path' reference db').2 = (Blobs_get path' reference lab_db).2
      ∧ (TagsListView_get path' db').2 = (TagsListView_get path' lab_db).2.
Proof.
  apply (Manifests_put_failure_publishes_nothing (lab_chunk "0-4") "library/app" "latest"
           lab_db JSONDecodeError).
  - apply (bool_decide_unpack _). vm_compute. exact I.
  - reflexivity.
Defined.

(** ** Pushing the same manifest again *)

Lemma receive_artifact_trace `{Externals} chunk db :
  wf db → stored_faithfully chunk db →
  ∃ a row,
    receive_artifact chunk db = (set_artifacts (insert a row) db, Ok (a, row))
    ∧ Artifact.sha256 row = hashlib sha256 chunk
    ∧ Artifact.file row = chunk
    ∧ wf (set_artifacts (insert a row) db)
    ∧ (artifacts db !! a = None ∨ artifacts db !! a = Some row).
Proof.
  intros Hwf Hstored. unfold receive_artifact.
  rewrite receive_loop_all by lia. simpl.
  match goal with
  | |- context [Artifact_save ?x] =>
      destruct (Artifact_save_or_get x db (wf_artifacts _ Hwf))
        as (p & row & db' & Hrun & Hsha & Hcases)
  end.
  exists p, row. simpl in Hrun, Hsha. rewrite Hrun.
  destruct Hcases as [[Hp ->]|(Hp & -> & -> & Hfree)].
  - rewrite set_artifacts_insert_id by done. split; [done|]. split; [done|].
    split; [|eauto]. exact (map_Forall_lookup_1 _ _ _ _ Hstored Hp Hsha).
  - split; [done|]. split; [done|]. split; [done|].
    split; [by apply wf_insert_artifact|by left].
Qed.

(** An ingestion that gets through, with the rows it landed on. *)
Lemma Manifests_put_trace `{Externals} request path name db r config blobs :
  ingestible db request path r config blobs →
  ∃ a arow m sv mt cb a' t repository,
    let digest := "sha256:" +:+ hashlib sha256 (Request.body request) in
    let db1 := set_artifacts (insert a arow) db in
    let db2 := set_content (insert m (Manifest digest sv mt cb)) db1 in
    let db3 := set_content_artifacts (insert (m, digest) a') db2 in
    let thru := (λ blob, (m, blob.1)) <$> Blob_objects_filter_digest_in blobs db3 in
    let db4 := set_blob_manifests (λ links, links ∪ list_to_set thru) db3 in
    let db5 := set_content (insert t (Tag name m)) db4 in
    let version :=
      (default ∅ (latest_version repository) ∪ {[m]})
        ∖ list_to_set (objects_filter (content db5) (λ kv, is_tag_named name kv.2)).*1
        ∪ {[t]} in
    let db6 :=
      set_repositories
        (insert r (Repository.mk (Repository.name repository) (Repository.type repository)
                     (Repository.versions repository ++ [version]))) db5 in
    repositories db !! r = Some repository
    ∧ Artifact.sha256 arow = hashlib sha256 (Request.body request)
    ∧ Artifact.file arow = Request.body request
    ∧ (artifacts db !! a = None ∨ artifacts db !! a = Some arow)
    ∧ (content db !! m = None ∨ content db !! m = Some (Manifest digest sv mt cb))
    ∧ (content_artifacts db !! (m, digest) = None
       ∨ content_artifacts db !! (m, digest) = Some a')
    ∧ (content db2 !! t = None ∨ content db2 !! t = Some (Tag name m))
    ∧ Manifests_put request path name db
      = (db6, Ok (Response 201 (ManifestResponse_headers digest path)))
    ∧ wf db6.
Proof.
  intros [Hwf Hstored [distribution Hpush]
            (content_data & config_layer & config_digest & cdigest & cmt & items
             & Hloads & Hconfig & Hcdigest & Hlookup & Hblob & Hlayers & Hdigests)].
  destruct (get_dr_push_Ok _ _ _ _ _ Hpush) as [_ (repository & Hrepository & _)].
  destruct (receive_artifact_trace _ db Hwf Hstored)
    as (a & arow & Hrecv & Hsha & Hfile & Hwf1 & Ha_old).
  set (db1 := set_artifacts (insert a arow) db) in *.
  pose proof (Blob_objects_get_Ok db1 config cdigest cmt (wf_content _ Hwf1) Hblob)
    as Hcfg.
  set (digest := "sha256:" +:+ hashlib sha256 (Request.body request)).
  destruct (put_manifest_ok digest (Request.content_type request) config db1 Hwf1)
    as (m & sv & mt & cb & Hman & Hwf2 & Hm_old).
  set (db2 := set_content (insert m (Manifest digest sv mt cb)) db1) in *.
  assert (∃ a',
            put_blob_artifact a m digest db2
              = (set_content_artifacts (insert (m, digest) a') db2, Ok ())
            ∧ wf (set_content_artifacts (insert (m, digest) a') db2)
            ∧ (content_artifacts db2 !! (m, digest) = None
               ∨ content_artifacts db2 !! (m, digest) = Some a'))
    as (a' & Hlink & Hwf3 & Hl_old).
  { unfold put_blob_artifact, try_except_IntegrityError, ContentArtifact_save.
    destruct (content_artifacts db2 !! (m, digest)) as [x|] eqn:Hold.
    - exists x. rewrite set_content_artifacts_insert_id by done. eauto.
    - exists a. split; [done|]. split; [|by left].
      apply wf_insert_content_artifact; [done| |].
      + subst db2 db1. simpl. rewrite lookup_insert_eq. eauto.
      + subst db2. simpl. by rewrite lookup_insert_eq. }
  set (db3 := set_content_artifacts (insert (m, digest) a') db2) in *.
  set (thru := (λ blob : pk * Content, (m, blob.1))
                 <$> Blob_objects_filter_digest_in blobs db3).
  set (db4 := set_blob_manifests (λ links, links ∪ list_to_set thru) db3).
  assert (wf db4) as Hwf4 by (by apply (wf_frame db3)).
  destruct (put_tag_ok name m db4 Hwf4) as (t & Htag & Hwf5 & Ht_old).
  set (db5 := set_content (insert t (Tag name m)) db4) in *.
  assert (objects_filter (content db5) (λ kv, is_manifest_with_digest digest kv.2)
          = [(m, Manifest digest sv mt cb)]) as Hqs_manifest.
  { assert (content db5 !! m = Some (Manifest digest sv mt cb)) as Hm.
    { simpl. destruct (decide (t = m)) as [->|Hne].
      - destruct Ht_old as [Hold|Hold]; simpl in Hold;
          by rewrite lookup_insert_eq in Hold.
      - rewrite lookup_insert_ne by done. by rewrite lookup_insert_eq. }
    apply objects_filter_singleton; [done|done|].
    intros k' [|d' sv' mt' cb'|] Hk' Hd'; simpl in Hd'; try done. subst d'.
    by eapply (unique_content_lookup db5 k' m); eauto using wf_content. }
  assert (objects_filter (content db5) (λ kv, is_tag name m kv.2) = [(t, Tag name m)])
    as Hqs_tag.
  { apply objects_filter_singleton; [simpl; by rewrite lookup_insert_eq|done|].
    intros k' [| |n' m'] Hk' Hd'; simpl in Hd'; try done. destruct Hd' as [-> ->].
    apply (unique_content_lookup db5 k' t (Tag name m) (Tag name m));
      [by apply wf_content|done| |done].
    simpl. by rewrite lookup_insert_eq. }
  pose proof (new_version_Ok r
    (λ db new_version,
       let new_version :=
         add_content (objects_filter (content db)
                        (λ kv, is_manifest_with_digest digest kv.2)) new_version in
       let new_version :=
         remove_content (objects_filter (content db) (λ kv, is_tag_named name kv.2))
                        new_version in
       add_content (objects_filter (content db) (λ kv, is_tag name m kv.2)) new_version)
    db5 repository Hrepository) as Hversion.
  cbn beta zeta in Hversion.
  rewrite Hqs_manifest, Hqs_tag, !add_content_singleton in Hversion.
  unfold remove_content in Hversion.
  set (db6 := set_repositories _ db5) in Hversion.
  assert (wf db6) as Hwf6 by (by apply (wf_frame db5)).
  destruct (_artifacts_get_ok m (Manifest digest sv mt cb) db6 Hwf6) as [artifact Hget].
  { simpl. destruct (decide (t = m)) as [->|Hne].
    - destruct Ht_old as [Hold|Hold]; simpl in Hold;
        by rewrite lookup_insert_eq in Hold.
    - rewrite lookup_insert_ne by done. by rewrite lookup_insert_eq. }
  { done. }
  { simpl. rewrite lookup_insert_eq. eauto. }
  exists a, arow, m, sv, mt, cb, a', t, repository.
  cbn zeta. fold digest. fold db1. fold db2. fold db3. fold thru. fold db4. fold db5.
  fold db6.
  split; [done|]. split; [done|]. split; [done|]. split; [done|]. split; [done|].
  split; [done|]. split; [done|]. split; [|done].
  unfold Manifests_put.
  rewrite (bind_Ok _ _ _ _ _ Hpush). cbn beta iota.
  rewrite (bind_Ok _ _ _ _ _ Hrecv). cbn [fst snd].
  rewrite Hfile, Hloads, (bind_lift_Ok _ _ _ content_data eq_refl).
  rewrite (bind_lift_Ok _ _ _ config_layer Hconfig).
  rewrite (bind_lift_Ok _ _ _ config_digest Hcdigest).
  rewrite Hlookup, (bind_Ok _ _ _ _ _ Hcfg). cbn [fst snd].
  rewrite Hsha. fold digest. rewrite (bind_Ok _ _ _ _ _ Hman). cbn [fst snd].
  change (put_manifest_artifact a m (Content_digest (Manifest digest sv mt cb)))
    with (put_blob_artifact a m digest).
  rewrite (bind_Ok _ _ _ _ _ Hlink).
  rewrite (bind_lift_Ok _ _ _ (JArr items) Hlayers).
  rewrite (bind_lift_Ok _ _ _ items eq_refl).
  rewrite (bind_lift_Ok _ _ _ blobs Hdigests), bind_get_db.
  unfold mbind at 1, M_bind at 1, BlobManifest_bulk_create at 1.
  fold thru. fold db4.
  rewrite (bind_Ok _ _ _ _ _ Htag).
  cbn [Content_digest snd fst].
  rewrite (bind_Ok _ _ _ _ _ Hversion).
  unfold ManifestResponse. by rewrite (bind_Ok _ _ _ _ _ Hget).
Qed.

Lemma republish_same (latest tags : gset pk) (m t : pk) :
  ((latest ∪ {[m]}) ∖ tags ∪ {[t]} ∪ {[m]}) ∖ tags ∪ {[t]}
  = (latest ∪ {[m]}) ∖ tags ∪ {[t]}.
Proof.
  apply set_eq. intros p.
  rewrite !elem_of_union, !elem_of_difference, !elem_of_union, !elem_of_difference,
          !elem_of_union, !elem_of_singleton.
  tauto.
Qed.

(** X27.  Pushing the same manifest under the same tag a second time creates
    nothing: [Manifests.put] lands on the artifact, the manifest row, the
    link, the blob-manifest links and the tag of the first push, so every
    table is as the first push left it, the two answers are the same, and the
    second push leaves the latest version of the repository with the content
    it had. *)
Theorem Manifests_put_twice `{Externals} request path name db r config blobs :
  ingestible db request path r config blobs →
  ∃ db1 db2 response repository1 repository2,
    Manifests_put request path name db = (db1, Ok response)
    ∧ Manifests_put request path name db1 = (db2, Ok response)
    ∧ artifacts db2 = artifacts db1
    ∧ content db2 = content db1
    ∧ content_artifacts db2 = content_artifacts db1
    ∧ blob_manifests db2 = blob_manifests db1
    ∧ repositories db1 !! r = Some repository1
    ∧ repositories db2 !! r = Some repository2
    ∧ latest_version repository2 = latest_version repository1.
Proof.
  intros Hing.
  destruct (Manifests_put_trace request path name db r config blobs Hing)
    as (a & arow & m & sv & mt & cb & a' & t & repository0
        & Hr0 & Hsha & Hfile & _ & _ & _ & Ht_old & Hrun1 & Hwf1).
  destruct Hing as [Hwf Hstored [distribution Hpush]
            (content_data & config_layer & config_digest & cdigest & cmt & items
             & Hloads & Hconfig & Hcdigest & Hlookup & Hblob & Hlayers & Hdigests)].
  destruct (get_dr_push_inv _ _ _ _ _ Hpush) as (_ & Hpath & Hdist & repository & Hr & Hpe).
  assert (repository = repository0) as -> by congruence.
  cbn zeta in *.
  set (digest := "sha256:" +:+ hashlib sha256 (Request.body request)) in *.
  set (db3 := set_content_artifacts (insert (m, digest) a') _) in *.
  set (thru := (λ blob : pk * Content, (m, blob.1))
                 <$> Blob_objects_filter_digest_in blobs db3) in *.
  set (db5 := set_content (insert t (Tag name m)) _) in *.
  set (version1 := _ ∖ _ ∪ {[t]}) in *.
  set (repository1 :=
         Repository.mk (Repository.name repository0) (Repository.type repository0)
           (Repository.versions repository0 ++ [version1])) in *.
  set (db1 := set_repositories (insert r repository1) db5) in *.
  assert (extends db db1) as Hext1.
  { pose proof (appends_Manifests_put request path name db) as Hext.
    by rewrite Hrun1 in Hext. }
  assert (repositories db1 !! r = Some repository1) as Hr1
    by (simpl; by rewrite lookup_insert_eq).
  assert (artifacts db1 !! a = Some arow) as Ha1 by (simpl; by rewrite lookup_insert_eq).
  assert (content db1 !! t = Some (Tag name m)) as Ht1
    by (simpl; by rewrite lookup_insert_eq).
  assert (content db1 !! m = Some (Manifest digest sv mt cb)) as Hm1.
  { simpl. destruct (decide (t = m)) as [->|Hne].
    - destruct Ht_old as [Hold|Hold]; simpl in Hold;
        by rewrite lookup_insert_eq in Hold.
    - rewrite lookup_insert_ne by done. by rewrite lookup_insert_eq. }
  assert (content_artifacts db1 !! (m, digest) = Some a') as Hl1
    by (simpl; by rewrite lookup_insert_eq).
  assert (ingestible db1 request path r config blobs) as Hing1.
  { split.
    - done.
    - unfold stored_faithfully. simpl. apply map_Forall_insert_2; [done|exact Hstored].
    - exists distribution. unfold get_dr_push. simpl distributions.
      rewrite Hpath, Hdist, Hr1.
      by rewrite (PUSH_ENABLED_type repository0 repository1), Hpe.
    - exists content_data, config_layer, config_digest, cdigest, cmt, items.
      repeat (split; [done|]). split; [|done].
      by apply (extends_lookup_content db db1). }
  destruct (Manifests_put_trace request path name db1 r config blobs Hing1)
    as (a2 & arow2 & m2 & sv2 & mt2 & cb2 & a2' & t2 & repository2
        & Hr2 & Hsha2 & _ & Ha_old2 & Hm_old2 & Hl_old2 & Ht_old2 & Hrun2 & Hwf2).
  assert (repository2 = repository1) as -> by congruence.
  cbn zeta in *. fold digest in Hm_old2, Hl_old2, Ht_old2, Hrun2, Hwf2.
  (* the second push landed on the rows of the first *)
  assert (a2 = a) as ->.
  { destruct (decide (a2 = a)) as [|Hna]; [done|].
    apply (unique_artifacts_lookup _ a2 a arow2 arow (wf_artifacts _ Hwf2)).
    - simpl. by rewrite lookup_insert_eq.
    - simpl. rewrite lookup_insert_ne by done. exact Ha1.
    - congruence. }
  assert (arow2 = arow) as -> by (destruct Ha_old2; congruence).
  assert (m2 = m) as ->.
  { destruct (decide (m2 = m)) as [|Hnm]; [done|].
    assert (t2 ≠ m2) as Hne2.
    { intros ->. destruct Ht_old2 as [Hold|Hold]; simpl in Hold;
        by rewrite lookup_insert_eq in Hold. }
    apply (unique_content_lookup _ m2 m (Manifest digest sv2 mt2 cb2)
             (Manifest digest sv mt cb) (wf_content _ Hwf2)).
    - simpl. rewrite lookup_insert_ne by done. by rewrite lookup_insert_eq.
    - simpl. destruct (decide (t2 = m)) as [->|Hne].
      + destruct Ht_old2 as [Hold|Hold]; simpl in Hold;
          rewrite lookup_insert_ne in Hold by done; simpl in Hm1; congruence.
      + rewrite !lookup_insert_ne by done. exact Hm1.
    - done. }
  assert (Manifest digest sv2 mt2 cb2 = Manifest digest sv mt cb) as [= -> -> ->]
    by (destruct Hm_old2; congruence).
  assert (a2' = a') as -> by (destruct Hl_old2; congruence).
  assert (t2 = t) as ->.
  { destruct (decide (t2 = t)) as [|Hnt]; [done|].
    apply (unique_content_lookup _ t2 t (Tag name m) (Tag name m) (wf_content _ Hwf2)).
    - simpl. by rewrite lookup_insert_eq.
    - simpl. rewrite lookup_insert_ne by done.
      destruct (decide (t = m)) as [->|Hne]; [simpl in Hm1, Ht1; congruence|].
      rewrite lookup_insert_ne by done. exact Ht1.
    - done. }
  match type of Hrun2 with _ = (?d, _) => set (db2 := d) in * end.
  assert (artifacts db2 = artifacts db1) as Hartifacts
    by (simpl; rewrite insert_id; [done|exact Ha1]).
  assert (insert m (Manifest digest sv mt cb) (content db1) = content db1) as Hcontent_m
    by (by apply insert_id).
  assert (content db2 = content db1) as Hcontent.
  { change (content db2)
      with (insert t (Tag name m) (insert m (Manifest digest sv mt cb) (content db1))).
    rewrite Hcontent_m. by apply insert_id. }
  assert (content_artifacts db2 = content_artifacts db1) as Hlinks
    by (simpl; rewrite insert_id; [done|exact Hl1]).
  assert (blob_manifests db2 = blob_manifests db1) as Hthru.
  { simpl. apply set_eq. intros [m' b].
    rewrite !elem_of_union, !elem_of_list_to_set.
    split; [|tauto]. intros [Hin|Hin]; [done|]. right.
    apply list_elem_of_fmap in Hin as ([b' row] & [= -> ->] & Hin).
    apply list_elem_of_fmap. exists (b', row). split; [done|].
    unfold Blob_objects_filter_digest_in in *.
    apply elem_of_objects_filter in Hin as [Hb Hdigest].
    apply elem_of_objects_filter. split; [|done].
    change (insert m (Manifest digest sv mt cb) (content db1) !! b' = Some row) in Hb.
    rewrite Hcontent_m in Hb.
    change (insert t (Tag name m) (content db3) !! b' = Some row) in Hb.
    rewrite lookup_insert_Some in Hb. destruct Hb as [[<- <-]|[_ Hb]]; [|done].
    simpl in Hdigest. by apply Exists_exists in Hdigest as (? & _ & ?). }
  eexists db1, db2, _, repository1, _.
  split; [exact Hrun1|]. split; [exact Hrun2|].
  split; [done|]. split; [done|]. split; [done|]. split; [done|]. split; [done|].
  split; [simpl; by rewrite lookup_insert_eq|].
  unfold latest_version. simpl. rewrite !last_snoc. f_equal. simpl.
  change (insert t (Tag name m)
            (insert m (Manifest digest sv mt cb)
               (insert t (Tag name m) (insert m (Manifest digest sv mt cb) (content db)))))
    with (content db2).
  rewrite Hcontent.
  subst version1. change (content db5) with (content db1). apply republish_same.
Qed.

Lemma Manifests_put_twice_witness :
  ∃ db1 db2 response repository1 repository2,
    Manifests_put lab_push "library/app" "latest" lab_db = (db1, Ok response)
    ∧ Manifests_put lab_push "library/app" "latest" db1 = (db2, Ok response)
    ∧ artifacts db2 = artifacts db1
    ∧ content db2 = content db1
    ∧ content_artifacts db2 = content_artifacts db1
    ∧ blob_manifests db2 = blob_manifests db1
    ∧ repositories db1 !! 10%N = Some repository1
    ∧ repositories db2 !! 10%N = Some repository2
    ∧ latest_version repository2 = latest_version repository1.
Proof.
  exact (Manifests_put_twice lab_push "library/app" "latest" lab_db 10 1
           [JStr "sha256:1a"; JStr "sha256:ff"] lab_push_ingestible).
Defined.
